(** * cbmc-viewer: the source files used to build a goto binary

    A shallow embedding of [cbmc_viewer/sourcet.py] and the properties of
    its source-set construction, preprocessor line-marker extraction, JSON
    merge and batched line counting.

    Python [str] values are modelled as [string]; a character stands for
    one code point below 256.  Python sets are [gset string], the
    dictionary of line counts is a [gmap string Z], and JSON documents are
    trees of type [json]. *)

From Stdlib Require Import ZArith Ascii String List Sorting.Sorted.
From stdpp Require Import base decidable option list sorting gmap strings fin_maps.

Local Open Scope string_scope.
Local Open Scope Z_scope.

Set Warnings "-register-all".

(** ** Python string operations *)

Module PyStr.

(** The characters used by the code. *)
Definition slash : ascii := "/"%char.
Definition newline : ascii := "010"%char.
Definition carriage_return : ascii := "013"%char.
Definition dquote : ascii := "034"%char.
Definition backslash : ascii := "\"%char.

(** [s.startswith(p)] *)
Fixpoint startswith (p s : string) : bool :=
  match p, s with
  | EmptyString, _ => true
  | String a p', String b s' => Ascii.eqb a b && startswith p' s'
  | String _ _, EmptyString => false
  end.

(** [s[n:]] for [0 <= n]; empty when [n] is past the end. *)
Fixpoint slice_from (n : nat) (s : string) : string :=
  match n, s with
  | O, _ => s
  | S n', String _ s' => slice_from n' s'
  | S _, EmptyString => EmptyString
  end.

(** [s.endswith(p)] *)
Definition endswith (p s : string) : bool :=
  (String.length p <=? String.length s)%nat
  && String.eqb (slice_from (String.length s - String.length p) s) p.

(** [s.split(c)] for a one-character separator [c]; never empty. *)
Fixpoint split (c : ascii) (s : string) : list string :=
  match s with
  | EmptyString => [EmptyString]
  | String a s' =>
      if Ascii.eqb a c then EmptyString :: split c s'
      else match split c s' with
           | [] => [String a EmptyString]
           | x :: xs => String a x :: xs
           end
  end.

(** [sep.join(l)] *)
Definition join (sep : string) (l : list string) : string :=
  String.concat sep l.

(** [c.isspace()] for code points below 256. *)
Definition isspace (c : ascii) : bool :=
  let n := nat_of_ascii c in
  ((9 <=? n) && (n <=? 13) || (28 <=? n) && (n <=? 32)
   || (n =? 133) || (n =? 160))%nat.

(** [s.lstrip()], [s.rstrip()] and [s.strip()] *)
Fixpoint lstrip (s : string) : string :=
  match s with
  | EmptyString => EmptyString
  | String a s' => if isspace a then lstrip s' else s
  end.

Fixpoint rstrip (s : string) : string :=
  match s with
  | EmptyString => EmptyString
  | String a s' =>
      match rstrip s' with
      | EmptyString => if isspace a then EmptyString else String a EmptyString
      | r => String a r
      end
  end.

Definition strip (s : string) : string := rstrip (lstrip s).

(** [c.lower()] for code points below 256. *)
Definition lower_char (c : ascii) : ascii :=
  let n := nat_of_ascii c in
  if ((65 <=? n) && (n <=? 90)
      || (192 <=? n) && (n <=? 222) && negb (n =? 215))%nat
  then ascii_of_nat (n + 32) else c.

Fixpoint lower (s : string) : string :=
  match s with
  | EmptyString => EmptyString
  | String a s' => String (lower_char a) (lower s')
  end.

(** [s.replace('\\\n', '')]: drop every backslash-newline pair. *)
Fixpoint strip_continuations (s : string) : string :=
  match s with
  | EmptyString => EmptyString
  | String a s' =>
      match s' with
      | String b s'' =>
          if Ascii.eqb a backslash && Ascii.eqb b newline
          then strip_continuations s''
          else String a (strip_continuations s')
      | EmptyString => s
      end
  end.

(** [s.splitlines()]: the line boundaries below 256 are LF, VT, FF, CR,
    CR LF, FS, GS, RS and NEL.  [after_cr] tells that the previous
    character was a CR, so that a LF now belongs to the same boundary. *)
Definition is_linebreak (c : ascii) : bool :=
  let n := nat_of_ascii c in
  ((10 <=? n) && (n <=? 13) || (28 <=? n) && (n <=? 30) || (n =? 133))%nat.

Fixpoint splitlines_from (after_cr : bool) (s : string) : list string :=
  match s with
  | EmptyString => []
  | String a s' =>
      if after_cr && Ascii.eqb a newline then splitlines_from false s'
      else if is_linebreak a
      then EmptyString :: splitlines_from (Ascii.eqb a carriage_return) s'
      else match splitlines_from false s' with
           | [] => [String a EmptyString]
           | l :: ls => String a l :: ls
           end
  end.

Definition splitlines (s : string) : list string := splitlines_from false s.

End PyStr.

(** ** POSIX paths ([os.path] on a system whose separator is [/]) *)

Module PosixPath.
Import PyStr.

(** [os.path.isabs(p)] *)
Definition isabs (p : string) : bool := startswith "/" p.

(** [os.path.join(a, b)] *)
Definition join (a b : string) : string :=
  if startswith "/" b then b
  else if String.eqb a "" || endswith "/" a then a ++ b
  else a ++ "/" ++ b.

(** [os.path.basename(p)]: what follows the last separator. *)
Definition basename (p : string) : string :=
  List.last (split slash p) "".

(** The number of leading slashes [normpath] keeps: POSIX allows one or
    two initial slashes and treats three or more as one. *)
Definition initial_slashes (path : string) : nat :=
  if startswith "/" path then
    if startswith "//" path && negb (startswith "///" path) then 2 else 1
  else 0.

(** One iteration of the component loop of [normpath]. *)
Definition normpath_step (initial : nat) (new_comps : list string)
    (comp : string) : list string :=
  if String.eqb comp "" || String.eqb comp "." then new_comps
  else if negb (String.eqb comp "..")
          || (Nat.eqb initial 0 && Nat.eqb (List.length new_comps) 0)
          || (negb (Nat.eqb (List.length new_comps) 0)
              && String.eqb (List.last new_comps "") "..")
  then new_comps ++ [comp]
  else if negb (Nat.eqb (List.length new_comps) 0)
  then List.removelast new_comps
  else new_comps.

Fixpoint repeat_slash (n : nat) : string :=
  match n with
  | O => ""
  | S n' => String slash (repeat_slash n')
  end.

(** [os.path.normpath(path)] *)
Definition normpath (path : string) : string :=
  if String.eqb path "" then "."
  else
    let initial := initial_slashes path in
    let comps := fold_left (normpath_step initial) (split slash path) [] in
    let path' := repeat_slash initial ++ PyStr.join "/" comps in
    if String.eqb path' "" then "." else path'.

(** [os.path.abspath(path)], with [cwd] the value of [os.getcwd()]. *)
Definition abspath (cwd path : string) : string :=
  normpath (if isabs path then path else join cwd path).

(** [os.path.splitext(p)[1]]: the extension, from the last dot of the
    base name, leading dots of the base name not counting. *)
Fixpoint skip_dots (s : string) : string :=
  match s with
  | String a s' => if Ascii.eqb a "."%char then skip_dots s' else s
  | EmptyString => EmptyString
  end.

Fixpoint last_ext (s : string) : option string :=
  match s with
  | EmptyString => None
  | String a s' =>
      match last_ext s' with
      | Some e => Some e
      | None => if Ascii.eqb a "."%char then Some s else None
      end
  end.

Definition splitext_ext (p : string) : string :=
  match last_ext (skip_dots (basename p)) with
  | Some e => e
  | None => ""
  end.

End PosixPath.

(** ** The helpers of [cbmc_viewer.srcloct] *)

Module srcloct.

(** Modelled from the spec: [cbmc_viewer/srcloct.py] is not among the
    sources.  The spec's PathNormalizer "canonicalizes filesystem paths
    to absolute form and to root-relative form"; [abspath] is the
    absolute, normalized path in Linux style, [os.path.abspath] with the
    process's current directory [cwd]. *)
Definition abspath (cwd path : string) : string :=
  PosixPath.abspath cwd path.

(** Modelled from the spec: [cbmc_viewer/srcloct.py] is not among the
    sources.  [normpath] is the normalized path in Linux style,
    [os.path.normpath]. *)
Definition normpath (path : string) : string :=
  PosixPath.normpath path.

End srcloct.

(** ** JSON values, exceptions and results *)

(** A decoded JSON document ([json.loads]); numbers are integers, and an
    object is the list of its members in order, with distinct keys. *)
Inductive json : Type :=
  | JNull
  | JBool (b : bool)
  | JNum (n : Z)
  | JStr (s : string)
  | JArr (l : list json)
  | JObj (members : list (string * json)).

(** The exceptions the code raises, catches or lets through.
    [FileNotFoundError] is the subclass of [OSError] that the code
    catches first; [OSError errno] is any other [OSError].
    [UserWarning_roots roots] is
    [UserWarning('Source lists have different roots: {}'.format(roots))].
    [OutOfFuel] is no Python exception: it marks a loop of the model that
    ran out of fuel; [sloc_loop_exec] shows that the loop of [Source.sloc]
    never does. *)
Inductive exn : Type :=
  | UserWarning (msg : string)
  | UserWarning_roots (roots : list string)
  | Invalid
  | KeyError (key : string)
  | TypeError
  | AttributeError
  | ValueError
  | FileNotFoundError
  | OSError (errno : Z)
  | CalledProcessError (returncode : Z)
  | OtherError (name : string)
  | OutOfFuel.

Inductive result (A : Type) : Type :=
  | Ok (a : A)
  | Raise (e : exn).
Arguments Ok {A} a.
Arguments Raise {A} e.

(** One call of [runt.run]: the command, the working directory and what
    came back. *)
Record invocation : Type := Invocation {
  inv_cmd : list string;
  inv_cwd : string;
  inv_result : result string
}.

(** ** The collaborators outside this file

    [W] is the state of the world (file system, installed tools).
    - [getcwd] is [os.getcwd()], constant while the program runs;
    - [runt_run cmd cwd ignored] is [runt.run], the subprocess runner: the
      standard output, or the exception raised;
    - [json_loads] is [json.loads] and [int_of_str] is [int] on a [str];
    - [parse_json_file] is [parse.parse_json_file];
    - [symbol_table_source_files] is [symbol_table.source_files];
    - [read_text name] is [open(name).read()];
    - [os_walk root] lists [(path, filenames)] as
      [os.walk(root, followlinks=True)] yields them;
    - [re_match_I pattern s] tells whether [re.match(pattern, s, re.I)]
      matches, or raises for a pattern that does not compile. *)
Class Externals (W : Type) : Type := {
  getcwd : string;
  runt_run : list string -> string -> list Z -> W -> result string * W;
  json_loads : string -> result json;
  int_of_str : string -> result Z;
  parse_json_file : string -> W -> result json * W;
  symbol_table_source_files : string -> string -> W -> result (list string) * W;
  read_text : string -> W -> result string;
  os_walk : string -> W -> list (string * list string);
  re_match_I : string -> string -> result bool
}.

(** The state threaded through the program: the world and the log of the
    calls of [runt.run] made so far (oldest first). *)
Record state (W : Type) : Type := State {
  world : W;
  trace : list invocation
}.
Arguments State {W} world trace.
Arguments world {W} s.
Arguments trace {W} s.

(** Computations that read and change the state and may raise. *)
Definition M (W A : Type) : Type := state W -> result A * state W.

Definition ret {W A} (a : A) : M W A := fun st => (Ok a, st).

Definition raise {W A} (e : exn) : M W A := fun st => (Raise e, st).

Definition bind {W A B} (m : M W A) (k : A -> M W B) : M W B :=
  fun st =>
    match m st with
    | (Ok a, st') => k a st'
    | (Raise e, st') => (Raise e, st')
    end.

Definition lift {W A} (r : result A) : M W A := fun st => (r, st).

Notation "'let*' x ':=' m 'in' k" := (bind m (fun x => k))
  (at level 10, x name, m at level 100, k at level 200).

(** A list comprehension whose element expression may raise. *)
Fixpoint mapM {W A B} (f : A -> M W B) (l : list A) : M W (list B) :=
  match l with
  | [] => ret []
  | x :: xs =>
      let* y := f x in
      let* ys := mapM f xs in
      ret (y :: ys)
  end.

(** A list comprehension whose condition may raise. *)
Fixpoint filterM {W A} (f : A -> M W bool) (l : list A) : M W (list A) :=
  match l with
  | [] => ret []
  | x :: xs =>
      let* b := f x in
      let* ys := filterM f xs in
      ret (if b then x :: ys else ys)
  end.

(** ** Python values *)

(** [bool(j)]: the truth value of a decoded document. *)
Definition truthy (j : json) : bool :=
  match j with
  | JNull => false
  | JBool b => b
  | JNum n => negb (n =? 0)
  | JStr s => negb (String.eqb s "")
  | JArr l => negb (Nat.eqb (List.length l) 0)
  | JObj ms => negb (Nat.eqb (List.length ms) 0)
  end.

(** [d[key]] for a dictionary [d] given by its items. *)
Fixpoint assoc (key : string) (ms : list (string * json)) : option json :=
  match ms with
  | [] => None
  | (k, v) :: rest => if String.eqb k key then Some v else assoc key rest
  end.

(** [j[key]] with a string key: [KeyError] on a dictionary without the
    key, [TypeError] on anything that is not a dictionary. *)
Definition subscript (j : json) (key : string) : result json :=
  match j with
  | JObj ms =>
      match assoc key ms with
      | Some v => Ok v
      | None => Raise (KeyError key)
      end
  | _ => Raise TypeError
  end.

(** [j.items()] *)
Definition items (j : json) : result (list (string * json)) :=
  match j with
  | JObj ms => Ok ms
  | _ => Raise AttributeError
  end.

(** [sorted(l)] on strings: ascending by code points. *)
Definition sorted (l : list string) : list string := merge_sort String.le l.

(** [sorted(set(l))] *)
Definition sorted_set (l : list string) : list string :=
  sorted (elements (list_to_set l : gset string)).

(** [list(set(l))]: Python leaves the order of a set unspecified; the
    model lists it as [elements] does. *)
Definition list_set (l : list string) : list string :=
  elements (list_to_set l : gset string).

(** ** The program: [cbmc_viewer/sourcet.py] *)

Definition JSON_TAG : string := "viewer-source".

(** Methods for listing source files. *)
Inductive Sources : Type := FIND | WALK | MAKE | GOTO.

(** A [Source] object: its [__dict__].  [lines_of_code] is [None] when the
    attribute was never set. *)
Record Source : Type := mkSource {
  root : string;
  all_files : list string;
  files : list string;
  lines_of_code : option (gmap string Z)
}.

(** *** The validator [VALID_SOURCE] *)

Definition is_str (j : json) : bool :=
  match j with JStr _ => true | _ => false end.

(** [isinstance(j, int)]: Python's [bool] is a subclass of [int]. *)
Definition is_int (j : json) : bool :=
  match j with JNum _ | JBool _ => true | _ => false end.

Definition is_list_of_str (j : json) : bool :=
  match j with JArr l => forallb is_str l | _ => false end.

(** [{str: int}] under [required=True]: the key [str] is itself
    required, so that a dictionary without members is refused. *)
Definition is_dict_of_int (j : json) : bool :=
  match j with
  | JObj [] => false
  | JObj ms => forallb (fun kv => is_int (snd kv)) ms
  | _ => false
  end.

Definition valid_member (kv : string * json) : bool :=
  let (k, v) := kv in
  if String.eqb k "root" then is_str v
  else if String.eqb k "files" then is_list_of_str v
  else if String.eqb k "all_files" then is_list_of_str v
  else if String.eqb k "lines_of_code" then is_dict_of_int v
  else false.

Definition has_key (key : string) (ms : list (string * json)) : bool :=
  match assoc key ms with Some _ => true | None => false end.

(** The schema: [root], [files] and [all_files] are required,
    [lines_of_code] is optional, no other key is allowed. *)
Definition VALID_SOURCE (j : json) : bool :=
  match j with
  | JObj ms =>
      forallb valid_member ms
      && has_key "root" ms && has_key "files" ms && has_key "all_files" ms
  | _ => false
  end.

(** [Source.validate(self, sources)]: validates [sources or self.__dict__]. *)
Definition validate (self_dict : json) (sources : option json) : result json :=
  let data := match sources with
              | Some j => if truthy j then j else self_dict
              | None => self_dict
              end in
  if VALID_SOURCE data then Ok data else Raise Invalid.

(** [self.__dict__] of a [Source]. *)
Definition loc_dict (loc : gmap string Z) : json :=
  JObj ((fun kv : string * Z => (fst kv, JNum (snd kv))) <$> map_to_list loc).

Definition Source_dict (s : Source) : json :=
  JObj ([("root", JStr (root s));
         ("all_files", JArr (JStr <$> all_files s));
         ("files", JArr (JStr <$> files s))]
        ++ match lines_of_code s with
           | Some loc => [("lines_of_code", loc_dict loc)]
           | None => []
           end)%list.

(** [Source.__repr__] *)
Definition Source_repr (s : Source) : result json :=
  match validate (Source_dict s) None with
  | Ok _ => Ok (Source_dict s)
  | Raise e => Raise e
  end.

(** [Source.__str__], before [json.dumps] turns the document into text:
    [{JSON_TAG: self.__repr__()}]. *)
Definition Source_str (s : Source) : result json :=
  match Source_repr s with
  | Ok d => Ok (JObj [(JSON_TAG, d)])
  | Raise e => Raise e
  end.

(** *** Regular expressions of the program *)

(** The pattern of [extract_source_filenames] is a double quote, a group
    of any characters but newline, as many as possible, and a double
    quote.  [greedy_to_quote] is the group once the opening quote is read:
    the longest text without a newline that a quote follows. *)
Fixpoint greedy_to_quote (s : string) : option string :=
  match s with
  | EmptyString => None
  | String a s' =>
      if Ascii.eqb a PyStr.newline then None
      else match greedy_to_quote s' with
           | Some g => Some (String a g)
           | None => if Ascii.eqb a PyStr.dquote then Some EmptyString else None
           end
  end.

(** [re.search] with that pattern: [group(1)] of the leftmost match. *)
Fixpoint search_quoted (line : string) : option string :=
  match line with
  | EmptyString => None
  | String a s' =>
      if Ascii.eqb a PyStr.dquote then
        match greedy_to_quote s' with
        | Some g => Some g
        | None => search_quoted s'
        end
      else search_quoted s'
  end.

(** The longest run of non-whitespace characters ([\S+]) and what follows. *)
Fixpoint span_nonspace (s : string) : string * string :=
  match s with
  | EmptyString => (EmptyString, EmptyString)
  | String a s' =>
      if PyStr.isspace a then (EmptyString, s)
      else let (r, rest) := span_nonspace s' in (String a r, rest)
  end.

(** [re.search(r' -o (\S+) ', cmd)]: [group(1)] of the leftmost match. *)
Fixpoint search_output_flag (cmd : string) : option string :=
  match cmd with
  | EmptyString => None
  | String a s' =>
      if PyStr.startswith " -o " cmd then
        let (name, rest) := span_nonspace (PyStr.slice_from 4 cmd) in
        if negb (String.eqb name "") && PyStr.startswith " " rest
        then Some name
        else search_output_flag s'
      else search_output_flag s'
  end.

(** [extract_source_filenames]: the names the preprocessor itself makes up. *)
Definition preprocessor_names : list string :=
  ["<built-in>"; "<command-line>"; "<command line>"].

(** [x in l] on strings. *)
Definition str_in (x : string) (l : list string) : bool :=
  existsb (String.eqb x) l.

(** The group of the match on every line, [AttributeError] at the first
    line without a match ([None.group]). *)
Fixpoint quoted_names (lines : list string) : result (list string) :=
  match lines with
  | [] => Ok []
  | line :: rest =>
      match search_quoted line with
      | None => Raise AttributeError
      | Some name =>
          match quoted_names rest with
          | Ok names => Ok (name :: names)
          | Raise e => Raise e
          end
      end
  end.

(** [SourceFromMake.extract_source_filenames(output, build)] *)
Definition extract_source_filenames (output : list string) (build : string)
    : result (list string) :=
  let linemarkers :=
    List.filter (fun line => PyStr.startswith "# " (PyStr.strip line)) output in
  match quoted_names linemarkers with
  | Raise e => Raise e
  | Ok filenames =>
      let filenames :=
        List.filter
          (fun name => negb (str_in (PosixPath.basename name) preprocessor_names))
          filenames in
      let filenames := map (PosixPath.join build) filenames in
      let filenames := map PosixPath.normpath filenames in
      Ok (sorted_set filenames)
  end.

(** A loaded and validated source document, as [merge] reads it:
    [source['root']] and [source['all_files']]. *)
Record source_doc : Type := mkDoc {
  doc_root : string;
  doc_all_files : list string
}.

Fixpoint strs_of (l : list json) : option (list string) :=
  match l with
  | [] => Some []
  | JStr s :: rest =>
      match strs_of rest with Some ss => Some (s :: ss) | None => None end
  | _ :: _ => None
  end.

Definition doc_of_json (j : json) : option source_doc :=
  match j with
  | JObj ms =>
      match assoc "root" ms, assoc "all_files" ms with
      | Some (JStr r), Some (JArr l) =>
          match strs_of l with
          | Some fs => Some (mkDoc r fs)
          | None => None
          end
      | _, _ => None
      end
  | _ => None
  end.

(** [merge] of [SourceFromJson.__init__]: the root and the files of the
    result, or the exception. *)
Definition merge (sources : list source_doc) : result (string * list string) :=
  let roots := list_set (map doc_root sources) in
  let files := list_set (concat (map doc_all_files sources)) in
  if negb (Nat.eqb (List.length roots) 1)
  then Raise (UserWarning_roots roots)
  else Ok (nth 0 roots "", files).

(** [batch] is the slice size of [Source.sloc]. *)
Definition batch : nat := 100.

Section Program.
Context {W : Type} {E : Externals W}.

(** [runt.run(cmd, cwd, ignored)], with the call logged. *)
Definition run (cmd : list string) (cwd : string) (ignored : list Z)
    : M W string :=
  fun st =>
    let (r, w') := runt_run cmd cwd ignored (world st) in
    (r, State w' (trace st ++ [Invocation cmd cwd r])).

(** [json.loads(result)['summary'].items()] *)
Definition summary_items (output : string) : result (list (string * json)) :=
  match json_loads output with
  | Raise e => Raise e
  | Ok j =>
      match subscript j "summary" with
      | Raise e => Raise e
      | Ok data => items data
      end
  end.

(** [int(val)] *)
Definition py_int (val : json) : result Z :=
  match val with
  | JNum n => Ok n
  | JBool b => Ok (if b then 1 else 0)
  | JStr s => int_of_str s
  | _ => Raise TypeError
  end.

(** [for key, val in data.items(): loc[key] = int(val) + loc.get(key, 0)] *)
Fixpoint accumulate (data : list (string * json)) (loc : gmap string Z)
    : result (gmap string Z) :=
  match data with
  | [] => Ok loc
  | (key, val) :: rest =>
      match py_int val with
      | Raise e => Raise e
      | Ok n => accumulate rest (<[key := n + default 0 (loc !! key)]> loc)
      end
  end.

(** The loop of [Source.sloc]; [fuel] bounds the number of iterations. *)
Fixpoint sloc_loop (fuel : nat) (root : string) (loc : gmap string Z)
    (sources : list string) : M W (option (gmap string Z)) :=
  match sources with
  | [] => ret (Some loc)
  | _ :: _ =>
      match fuel with
      | O => raise OutOfFuel
      | S fuel' =>
          let files := take batch sources in
          let sources' := drop batch sources in
          let command := (["sloc"; "-f"; "json"] ++ files)%list in
          fun st =>
            match run command root [] st with
            | (Raise FileNotFoundError, st') => (Ok None, st')
            | (Raise (OSError errno), st') =>
                if negb (errno =? 7) then (Raise (OSError errno), st')
                else (Ok None, st')
            | (Raise (CalledProcessError _), st') => (Ok None, st')
            | (Raise e, st') => (Raise e, st')
            | (Ok output, st') =>
                (let* data := lift (summary_items output) in
                 let* loc' := lift (accumulate data loc) in
                 sloc_loop fuel' root loc' sources') st'
            end
      end
  end.

(** [Source.sloc(files, root)]: [None], or the dictionary of counts. *)
Definition sloc (files : list string) (root : string)
    : M W (option (gmap string Z)) :=
  sloc_loop (List.length files) root ∅ files.

(** [Source.__init__(self, root, files, sloc)] *)
Definition Source_init (root : option string) (files : option (list string))
    (sloc_flag : bool) : M W Source :=
  let self_root :=
    match root with
    | Some r => if String.eqb r "" then "" else srcloct.abspath getcwd r
    | None => ""
    end in
  let files := match files with Some l => l | None => [] end in
  let self_all_files := sorted_set (map (srcloct.abspath getcwd) files) in
  let self_files :=
    map (fun path =>
           srcloct.normpath
             (PyStr.slice_from (String.length self_root + 1) path))
        (List.filter (PyStr.startswith self_root) self_all_files) in
  let* self_lines_of_code :=
    (if sloc_flag then
       let* lines_of_code := sloc self_files self_root in
       ret match lines_of_code with
           | Some loc => if decide (loc = ∅) then None else Some loc
           | None => None
           end
     else ret None) in
  let self := mkSource self_root self_all_files self_files self_lines_of_code in
  let* _ := lift (validate (Source_dict self) None) in
  ret self.

(** [parse.parse_json_file(source_json)[JSON_TAG]] under its
    [except TypeError] clause. *)
Definition load_tagged (source_json : string) : M W json :=
  fun st =>
    let (r, w') := parse_json_file source_json (world st) in
    let tagged := match r with
                  | Ok parsed => subscript parsed JSON_TAG
                  | Raise e => Raise e
                  end in
    (match tagged with
     | Raise TypeError =>
         Raise (UserWarning ("Failed to load sources from " ++ source_json))
     | _ => tagged
     end, State w' (trace st)).

(** [load] of [SourceFromJson.__init__]; the object has no attribute
    yet, its [__dict__] is empty.  The document returned is validated,
    so that its root and files are strings. *)
Definition load (source_json : string) : M W source_doc :=
  let* source := load_tagged source_json in
  let* _ := lift (validate (JObj []) (Some source)) in
  match doc_of_json source with
  | Some d => ret d
  | None => raise TypeError
  end.

(** [SourceFromJson.__init__(self, source_jsons, sloc)] *)
Definition SourceFromJson (source_jsons : list string) (sloc_flag : bool)
    : M W Source :=
  match source_jsons with
  | [] => raise (UserWarning "No sources")
  | _ :: _ =>
      let* sources := mapM load source_jsons in
      let* source := lift (merge sources) in
      Source_init (Some (fst source)) (Some (snd source)) sloc_flag
  end.

(** [SourceFromGoto.__init__(self, goto, wkdir, srcdir, sloc)] *)
Definition SourceFromGoto (goto : option string) (wkdir srcdir : string)
    (sloc_flag : bool) : M W Source :=
  match goto with
  | None => raise (UserWarning "No goto program")
  | Some g =>
      if String.eqb g "" then raise (UserWarning "No goto program")
      else
        let* found := (fun st =>
                         let (r, w') :=
                           symbol_table_source_files g wkdir (world st) in
                         (r, State w' (trace st))) in
        let files := sorted found in
        Source_init (Some srcdir) (Some files) sloc_flag
  end.

(** [select_source_files(files, root, exclude, extensions)] *)
Definition select_source_files (files : list string) (root : string)
    (exclude extensions : option string) : M W (list string) :=
  let files := map PosixPath.normpath files in
  let* files :=
    match exclude with
    | Some pattern =>
        filterM (fun path =>
                   let* m := lift (re_match_I pattern path) in ret (negb m))
                files
    | None => ret files
    end in
  let* files :=
    match extensions with
    | Some pattern =>
        filterM (fun path =>
                   lift (re_match_I pattern (PosixPath.splitext_ext path)))
                files
    | None => ret files
    end in
  ret (map (PosixPath.join root) files).

(** [SourceFromFind.find_sources(root, exclude, extensions)] *)
Definition find_sources_find (root : string) (exclude extensions : option string)
    : M W (list string) :=
  let cmd := ["find"; "-L"; "."] in
  let* out := run cmd root [] in
  let files := PyStr.splitlines (PyStr.strip out) in
  select_source_files files root exclude extensions.

(** [SourceFromFind.__init__(self, root, exclude, extensions, sloc)] *)
Definition SourceFromFind (root : string) (exclude extensions : option string)
    (sloc_flag : bool) : M W Source :=
  let* files := find_sources_find root exclude extensions in
  Source_init (Some root) (Some files) sloc_flag.

(** [SourceFromWalk.find_sources(root, exclude, extensions)] *)
Definition find_sources_walk (root : string) (exclude extensions : option string)
    : M W (list string) :=
  let* files :=
    (fun st =>
       (Ok (concat
              (map (fun entry : string * list string =>
                      let (path, filenames) := entry in
                      map (PosixPath.join path)
                          (List.filter
                             (fun name =>
                                let low := PyStr.lower name in
                                PyStr.endswith ".h" low
                                || PyStr.endswith ".c" low
                                || PyStr.endswith ".inl" low)
                             filenames))
                   (os_walk root (world st)))), st)) in
  select_source_files files root exclude extensions.

(** [SourceFromWalk.__init__(self, root, exclude, extensions, sloc)] *)
Definition SourceFromWalk (root : string) (exclude extensions : option string)
    (sloc_flag : bool) : M W Source :=
  let* files := find_sources_walk root exclude extensions in
  Source_init (Some root) (Some files) sloc_flag.

(** [SourceFromMake.build_with_preprocessor(build)] *)
Definition build_with_preprocessor (build : string) : M W (list string) :=
  let* out := run ["make"; "GOTO_CC=goto-cc -E"; "goto"] build [2] in
  let out := PyStr.strip_continuations out in
  ret (map PyStr.strip
           (List.filter
              (fun line => PyStr.startswith "goto-cc" (PyStr.strip line))
              (PyStr.splitlines out))).

(** [SourceFromMake.extract_filenames(commands, build)] *)
Definition extract_filenames (commands : list string) (build : string)
    : list string :=
  concat
    (map (fun cmd =>
            match search_output_flag cmd with
            | Some name =>
                [PosixPath.abspath getcwd (PosixPath.join build name)]
            | None => []
            end)
         commands).

(** [SourceFromMake.read_output(files)] *)
Fixpoint read_output (names : list string) : M W (list string) :=
  match names with
  | [] => ret []
  | name :: rest =>
      let* lines :=
        (fun st =>
           match read_text name (world st) with
           | Ok text => (Ok (PyStr.splitlines text), st)
           | Raise FileNotFoundError => (Ok [], st)
           | Raise e => (Raise e, st)
           end) in
      let* more := read_output rest in
      ret (lines ++ more)%list
  end.

(** [SourceFromMake.find_sources(self, build)] *)
Definition find_sources_make (build : string) : M W (list string) :=
  let* _ := run ["make"; "clean"] build [] in
  let* preprocessor_commands := build_with_preprocessor build in
  let preprocessed_filenames :=
    extract_filenames preprocessor_commands build in
  let* preprocessed_output := read_output preprocessed_filenames in
  let* source_files :=
    lift (extract_source_filenames preprocessed_output build) in
  let* _ := run ["make"; "clean"] build [] in
  ret source_files.

(** [SourceFromMake.__init__(self, root, build, sloc)] *)
Definition SourceFromMake (root build : string) (sloc_flag : bool)
    : M W Source :=
  let* files := find_sources_make build in
  Source_init (Some root) (Some files) sloc_flag.

(** [fail(msg)] *)
Definition fail {A} (msg : string) : M W A := raise (UserWarning msg).

(** [abspath(d) if d else None] *)
Definition abspath_or_none (d : option string) : option string :=
  match d with
  | Some s => if String.eqb s "" then None else Some (srcloct.abspath getcwd s)
  | None => None
  end.

(** [make_source(viewer_source, goto, source_method, srcdir, wkdir,
    exclude, extensions)]; the defaults of the constructors are written
    out: no line counts but for [SourceFromMake]. *)
Definition make_source (viewer_source : list string) (goto : option string)
    (source_method : option Sources) (srcdir wkdir : option string)
    (exclude extensions : option string) : M W Source :=
  let wkdir := abspath_or_none wkdir in
  let srcdir := abspath_or_none srcdir in
  match viewer_source with
  | _ :: _ => SourceFromJson viewer_source false
  | [] =>
      match source_method with
      | Some GOTO =>
          match goto, wkdir, srcdir with
          | Some _, Some w, Some s => SourceFromGoto goto w s false
          | _, _, _ => fail "make-source: expected --goto and --srcdir and --wkdir"
          end
      | Some MAKE =>
          match srcdir, wkdir with
          | Some s, Some w => SourceFromMake s w true
          | _, _ => fail "make-source: expected --srcdir and --wkdir"
          end
      | Some FIND =>
          match srcdir with
          | Some s => SourceFromFind s exclude extensions false
          | None => fail "make-source: expected --srcdir"
          end
      | Some WALK =>
          match srcdir with
          | Some s => SourceFromWalk s exclude extensions false
          | None => fail "make-source: expected --srcdir"
          end
      | None => Source_init None None false
      end
  end.

End Program.

(** ** Vocabulary of the properties *)

(** Sorted in ascending order of code points and free of duplicates. *)
Definition ascending (l : list string) : Prop :=
  StronglySorted String.le l /\ NoDup l.

(** [c in s] for a character [c]. *)
Fixpoint occurs (c : ascii) (s : string) : bool :=
  match s with
  | EmptyString => false
  | String a s' => Ascii.eqb a c || occurs c s'
  end.

(** A path component that [normpath] keeps as it is: not empty, neither
    [.] nor [..], and without a separator. *)
Definition plain (comp : string) : Prop :=
  comp <> "" /\ comp <> "." /\ comp <> ".." /\ occurs PyStr.slash comp = false.

(** An absolute, normalized path: one or two slashes, then plain
    components joined by single slashes. *)
Definition canonical (q : string) : Prop :=
  exists (k : nat) (comps : list string),
    (k = 1 \/ k = 2)%nat /\ Forall plain comps
    /\ q = PosixPath.repeat_slash k ++ PyStr.join "/" comps.

(** The empty [Source] object. *)
Definition empty_Source : Source := mkSource "" [] [] None.

(** The relative path that [Source.__init__] makes of a member [path] of
    [all_files] that starts with [root]. *)
Definition relative (root path : string) : string :=
  srcloct.normpath (PyStr.slice_from (String.length root + 1) path).

(** [path] lies under the directory [root]: it is [root], a separator and
    more (no second separator after a [root] that ends with one). *)
Definition lies_under (root path : string) : bool :=
  PyStr.startswith (if PyStr.endswith "/" root then root else root ++ "/") path
  && negb (String.eqb path (if PyStr.endswith "/" root then root else root ++ "/")).

(** [name] is the quoted part of [line]: what stands between the first
    and the last double quote. *)
Definition quoted_in (line name : string) : Prop :=
  exists pre post,
    line = pre ++ String PyStr.dquote (name ++ String PyStr.dquote post)
    /\ occurs PyStr.dquote pre = false
    /\ occurs PyStr.dquote post = false.

(** [s] between double quotes. *)
Definition quote (s : string) : string :=
  String PyStr.dquote (s ++ String PyStr.dquote "").

(** The failures of the counting tool that [Source.sloc] turns into "no
    statistics": the binary is not found, the argument list is too long
    ([errno] 7), the tool exits with a nonzero status. *)
Definition unavailable (e : exn) : bool :=
  match e with
  | FileNotFoundError => true
  | OSError errno => errno =? 7
  | CalledProcessError _ => true
  | _ => false
  end.

(** The command line of the counting tool for one chunk of files. *)
Definition sloc_command (chunk : list string) : list string :=
  (["sloc"; "-f"; "json"] ++ chunk)%list.

(** The successive chunks of at most [n] elements of [l]: chunk [i] is
    [l[i*n : (i+1)*n]], for every [i] below [ceil(len(l) / n)]. *)
Definition batches (n : nat) (l : list string) : list (list string) :=
  map (fun i => take n (drop (i * n) l))
      (seq 0 ((List.length l + n - 1) / n)).

(** The count of [key] in one summary, and over several summaries. *)
Definition count_in (key : string) (d : list (string * Z)) : Z :=
  fold_right (fun kv acc => if String.eqb (fst kv) key then snd kv + acc else acc)
             0 d.

Definition total_count (key : string) (ds : list (list (string * Z))) : Z :=
  fold_right (fun d acc => count_in key d + acc) 0 ds.

(** [loc] after the counts of one summary are added to it. *)
Definition add_counts (d : list (string * Z)) (loc : gmap string Z)
    : gmap string Z :=
  fold_left (fun (loc : gmap string Z) (kv : string * Z) =>
               <[fst kv := snd kv + default 0 (loc !! fst kv)]> loc)
            d loc.

(** [loc] after the counts of the summaries of all responses are added. *)
Definition merged_counts (resp : list (string * list (string * Z)))
    (loc : gmap string Z) : gmap string Z :=
  fold_left (fun loc r => add_counts (snd r) loc) resp loc.

Section Vocabulary.
Context {W : Type} {E : Externals W}.

(** The root that [Source.__init__] keeps for its argument. *)
Definition init_root (r : option string) : string :=
  match r with
  | Some r => if String.eqb r "" then "" else srcloct.abspath getcwd r
  | None => ""
  end.

(** The summary of one output of the tool with its values as integers,
    or the exception of the first step that raises. *)
Fixpoint ints (data : list (string * json)) : result (list (string * Z)) :=
  match data with
  | [] => Ok []
  | (key, val) :: rest =>
      match py_int val with
      | Raise e => Raise e
      | Ok n =>
          match ints rest with
          | Raise e => Raise e
          | Ok d => Ok ((key, n) :: d)
          end
      end
  end.

Definition summary_counts (output : string) : result (list (string * Z)) :=
  match summary_items output with
  | Raise e => Raise e
  | Ok data => ints data
  end.

(** One run of the loop of [Source.sloc], chunk by chunk: from the
    counts [loc], the files left and the world, the calls made, the
    result and the world afterwards. *)
Inductive sloc_exec (root : string)
  : gmap string Z -> list string -> W -> list invocation ->
    result (option (gmap string Z)) -> W -> Prop :=
| exec_end loc w :
    sloc_exec root loc [] w [] (Ok (Some loc)) w
| exec_unavailable loc sources w e w' :
    sources <> [] ->
    runt_run (sloc_command (take batch sources)) root [] w = (Raise e, w') ->
    unavailable e = true ->
    sloc_exec root loc sources w
      [Invocation (sloc_command (take batch sources)) root (Raise e)]
      (Ok None) w'
| exec_raise loc sources w e w' :
    sources <> [] ->
    runt_run (sloc_command (take batch sources)) root [] w = (Raise e, w') ->
    unavailable e = false ->
    sloc_exec root loc sources w
      [Invocation (sloc_command (take batch sources)) root (Raise e)]
      (Raise e) w'
| exec_garbled loc sources w out e w' :
    sources <> [] ->
    runt_run (sloc_command (take batch sources)) root [] w = (Ok out, w') ->
    summary_counts out = Raise e ->
    sloc_exec root loc sources w
      [Invocation (sloc_command (take batch sources)) root (Ok out)]
      (Raise e) w'
| exec_next loc sources w out d w' evs r w'' :
    sources <> [] ->
    runt_run (sloc_command (take batch sources)) root [] w = (Ok out, w') ->
    summary_counts out = Ok d ->
    sloc_exec root (add_counts d loc) (drop batch sources) w' evs r w'' ->
    sloc_exec root loc sources w
      (Invocation (sloc_command (take batch sources)) root (Ok out) :: evs)
      r w''.

(** Every invocation of the tool on the chunks succeeds: from world [w]
    the tool answers chunk after chunk with an output whose summary
    decodes, and leaves world [w']. *)
Inductive all_succeed (root : string)
  : list (list string) -> W -> list (string * list (string * Z)) -> W -> Prop :=
| succeed_nil w : all_succeed root [] w [] w
| succeed_cons chunk chunks w out d w' resp w'' :
    runt_run (sloc_command chunk) root [] w = (Ok out, w') ->
    summary_counts out = Ok d ->
    all_succeed root chunks w' resp w'' ->
    all_succeed root (chunk :: chunks) w ((out, d) :: resp) w''.

(** The log entries of successful invocations on the chunks. *)
Definition success_log (root : string) (chunks : list (list string))
    (resp : list (string * list (string * Z))) : list invocation :=
  zip_with (fun chunk r => Invocation (sloc_command chunk) root (Ok (fst r)))
           chunks resp.

(** The ways a [Source] object comes to be: the base constructor, a
    strategy, or [make_source]. *)
Inductive constructed (S : Source) : Prop :=
| by_Source r fs flag (st st' : state W) :
    Source_init r fs flag st = (Ok S, st') -> constructed S
| by_SourceFromJson source_jsons flag (st st' : state W) :
    SourceFromJson source_jsons flag st = (Ok S, st') -> constructed S
| by_SourceFromGoto goto wkdir srcdir flag (st st' : state W) :
    SourceFromGoto goto wkdir srcdir flag st = (Ok S, st') -> constructed S
| by_SourceFromFind r exclude extensions flag (st st' : state W) :
    SourceFromFind r exclude extensions flag st = (Ok S, st') -> constructed S
| by_SourceFromWalk r exclude extensions flag (st st' : state W) :
    SourceFromWalk r exclude extensions flag st = (Ok S, st') -> constructed S
| by_SourceFromMake r build flag (st st' : state W) :
    SourceFromMake r build flag st = (Ok S, st') -> constructed S
| by_make_source viewer_source goto source_method srcdir wkdir exclude
    extensions (st st' : state W) :
    make_source viewer_source goto source_method srcdir wkdir exclude
      extensions st = (Ok S, st') ->
    constructed S.

End Vocabulary.

(** ** Example worlds *)

(** A world with no tool installed and no file to read; the symbol table
    of any goto binary names three files, one of them twice. *)
Definition bare_world : Externals unit := {|
  getcwd := "/home/u";
  runt_run := fun _ _ _ w => (Raise FileNotFoundError, w);
  json_loads := fun _ => Raise ValueError;
  int_of_str := fun _ => Raise ValueError;
  parse_json_file := fun _ w => (Raise (OtherError "IOError"), w);
  symbol_table_source_files :=
    fun _ _ w => (Ok ["/src/b.c"; "/usr/include/a.h"; "/src/b.c"; "/src/a.c"], w);
  read_text := fun _ _ => Raise FileNotFoundError;
  os_walk := fun _ _ => [];
  re_match_I := fun _ _ => Ok false
|}.

(** A world in which the counting tool works: the state is the number of
    calls made so far; the first call prints the text [first], the later
    ones the text [later], and the decoder knows both. *)
Definition counting_world : Externals nat := {|
  getcwd := "/home/u";
  runt_run := fun _ _ _ n =>
    (Ok (if Nat.eqb n 0 then "first" else "later"), S n);
  json_loads := fun text =>
    if String.eqb text "first"
    then Ok (JObj [("summary", JObj [("total", JNum 120); ("C", JNum 120)])])
    else if String.eqb text "later"
    then Ok (JObj [("summary", JObj [("total", JNum 7); ("Python", JNum 7)])])
    else Raise ValueError;
  int_of_str := fun _ => Raise ValueError;
  parse_json_file := fun _ w => (Raise (OtherError "IOError"), w);
  symbol_table_source_files := fun _ _ w => (Ok [], w);
  read_text := fun _ _ => Raise FileNotFoundError;
  os_walk := fun _ _ => [];
  re_match_I := fun _ _ => Ok false
|}.

(** A world that holds one source document, the one [make_source] wrote
    for the root [/src] with one file under it and one outside: any file
    name parses to that document. *)
Definition archive_world : Externals unit := {|
  getcwd := "/elsewhere";
  runt_run := fun _ _ _ w => (Raise FileNotFoundError, w);
  json_loads := fun _ => Raise ValueError;
  int_of_str := fun _ => Raise ValueError;
  parse_json_file := fun _ w =>
    (Ok (JObj [(JSON_TAG,
                Source_dict (mkSource "/src" ["/src/a.c"; "/usr/include/a.h"]
                                      ["a.c"] None))]), w);
  symbol_table_source_files := fun _ _ w => (Ok [], w);
  read_text := fun _ _ => Raise FileNotFoundError;
  os_walk := fun _ _ => [];
  re_match_I := fun _ _ => Ok false
|}.

(** A list of 101 file names. *)
Definition many_files : list string := repeat "f.c" 101.

(** A world in which the counting tool counts the lines of the first
    chunk and exits with status 1 at every later call; the state is the
    number of calls made so far. *)
Definition interrupted_world : Externals nat := {|
  getcwd := "/home/u";
  runt_run := fun _ _ _ n =>
    (if Nat.eqb n 0 then Ok "first" else Raise (CalledProcessError 1), S n);
  json_loads := fun text =>
    if String.eqb text "first"
    then Ok (JObj [("summary", JObj [("total", JNum 120); ("C", JNum 120)])])
    else Raise ValueError;
  int_of_str := fun _ => Raise ValueError;
  parse_json_file := fun _ w => (Raise (OtherError "IOError"), w);
  symbol_table_source_files := fun _ _ w => (Ok [], w);
  read_text := fun _ _ => Raise FileNotFoundError;
  os_walk := fun _ _ => [];
  re_match_I := fun _ _ => Ok false
|}.

(** A world in which the counting tool runs and counts nothing: the
    summary it prints is a dictionary without members. *)
Definition silent_world : Externals unit := {|
  getcwd := "/home/u";
  runt_run := fun _ _ _ w => (Ok "nothing", w);
  json_loads := fun text =>
    if String.eqb text "nothing" then Ok (JObj [("summary", JObj [])])
    else Raise ValueError;
  int_of_str := fun _ => Raise ValueError;
  parse_json_file := fun _ w => (Raise (OtherError "IOError"), w);
  symbol_table_source_files := fun _ _ w => (Ok [], w);
  read_text := fun _ _ => Raise FileNotFoundError;
  os_walk := fun _ _ => [];
  re_match_I := fun _ _ => Ok false
|}.

(** ** Further vocabulary *)

(** A relative, normalized path: plain components joined by single
    slashes. *)
Definition relative_normal (rel : string) : Prop :=
  exists comps,
    comps <> [] /\ Forall plain comps /\ rel = PyStr.join "/" comps.

(** The pairs of command and working directory of a log. *)
Definition commands_of (evs : list invocation) : list (list string * string) :=
  map (fun ev => (inv_cmd ev, inv_cwd ev)) evs.

(** A world in which no program may be run ([PermissionError], [errno]
    13), apart from that as [bare_world]. *)
Definition locked_world : Externals unit := {|
  getcwd := "/home/u";
  runt_run := fun _ _ _ w => (Raise (OSError 13), w);
  json_loads := fun _ => Raise ValueError;
  int_of_str := fun _ => Raise ValueError;
  parse_json_file := fun _ w => (Raise (OtherError "IOError"), w);
  symbol_table_source_files := fun _ _ w => (Ok [], w);
  read_text := fun _ _ => Raise FileNotFoundError;
  os_walk := fun _ _ => [];
  re_match_I := fun _ _ => Ok false
|}.

(** A world in which every program prints a JSON object without members. *)
Definition garbled_world : Externals unit := {|
  getcwd := "/home/u";
  runt_run := fun _ _ _ w => (Ok "{}", w);
  json_loads := fun _ => Ok (JObj []);
  int_of_str := fun _ => Raise ValueError;
  parse_json_file := fun _ w => (Ok (JObj []), w);
  symbol_table_source_files := fun _ _ w => (Ok [], w);
  read_text := fun _ _ => Raise FileNotFoundError;
  os_walk := fun _ _ => [];
  re_match_I := fun _ _ => Ok false
|}.

(** A world in which every file parses to the JSON value [null]. *)
Definition null_world : Externals unit := {|
  getcwd := "/home/u";
  runt_run := fun _ _ _ w => (Raise FileNotFoundError, w);
  json_loads := fun _ => Ok JNull;
  int_of_str := fun _ => Raise ValueError;
  parse_json_file := fun _ w => (Ok JNull, w);
  symbol_table_source_files := fun _ _ w => (Ok [], w);
  read_text := fun _ _ => Raise FileNotFoundError;
  os_walk := fun _ _ => [];
  re_match_I := fun _ _ => Ok false
|}.

(** A world whose regular expressions know two patterns: [bak] matches
    the paths that end with [.bak], [src] matches the extension [.c];
    other patterns do not compile. *)
Definition regex_world : Externals unit := {|
  getcwd := "/home/u";
  runt_run := fun _ _ _ w => (Raise FileNotFoundError, w);
  json_loads := fun _ => Raise ValueError;
  int_of_str := fun _ => Raise ValueError;
  parse_json_file := fun _ w => (Raise (OtherError "IOError"), w);
  symbol_table_source_files := fun _ _ w => (Ok [], w);
  read_text := fun _ _ => Raise FileNotFoundError;
  os_walk := fun _ _ => [];
  re_match_I := fun pattern s =>
    if String.eqb pattern "bak" then Ok (PyStr.endswith ".bak" s)
    else if String.eqb pattern "src" then Ok (String.eqb s ".c")
    else Raise (OtherError "re.error")
|}.

(** A world in which [find] prints three paths, the directory itself
    among them. *)
Definition find_world : Externals unit := {|
  getcwd := "/home/u";
  runt_run := fun _ _ _ w =>
    (Ok ("." ++ String PyStr.newline
           ("./a.c" ++ String PyStr.newline
              ("./sub/b.h" ++ String PyStr.newline ""))), w);
  json_loads := fun _ => Raise ValueError;
  int_of_str := fun _ => Raise ValueError;
  parse_json_file := fun _ w => (Raise (OtherError "IOError"), w);
  symbol_table_source_files := fun _ _ w => (Ok [], w);
  read_text := fun _ _ => Raise FileNotFoundError;
  os_walk := fun _ _ => [];
  re_match_I := fun _ _ => Ok false
|}.

(** [s] holds a white-space character. *)
Fixpoint has_space (s : string) : bool :=
  match s with
  | EmptyString => false
  | String a s' => PyStr.isspace a || has_space s'
  end.

(** The file names [SourceFromWalk.find_sources] keeps: those that end,
    whatever the case, with [.h], [.c] or [.inl]. *)
Definition c_source_name (name : string) : Prop :=
  PyStr.endswith ".h" (PyStr.lower name) = true
  \/ PyStr.endswith ".c" (PyStr.lower name) = true
  \/ PyStr.endswith ".inl" (PyStr.lower name) = true.

(** The lines of a file as [read_output] adds them: none for a file that
    is not found. *)
Definition lines_read {W : Type} {E : Externals W} (w : W) (name : string)
    : list string :=
  match read_text name w with
  | Ok text => PyStr.splitlines text
  | Raise _ => []
  end.

(** What [make] prints in [tree_world] when it builds with the
    preprocessor: one compilation, and a link continued on a second line
    that fails. *)
Definition make_output_text : string :=
  "goto-cc -E -o a.o -c a.c" ++ String PyStr.newline
    ("  goto-cc -E " ++ String PyStr.backslash
       (String PyStr.newline
          ("  -o app.goto a.o" ++ String PyStr.newline "make: *** Error 1"))).

(** The output of the preprocessor for [a.c] in [tree_world]. *)
Definition preprocessed_text : string :=
  "# 1 " ++ quote "a.c" ++ String PyStr.newline
    ("# 1 " ++ quote "<built-in>" ++ String PyStr.newline
       ("# 1 " ++ quote "/usr/include/a.h" ++ " 1"
          ++ String PyStr.newline "int x;")).

(** A world with a source tree of two directories and, after a build with
    the preprocessor, one output file; the link step left none for
    [app.goto]. *)
Definition tree_world : Externals unit := {|
  getcwd := "/home/u";
  runt_run := fun cmd _ _ w =>
    (Ok (if String.eqb (nth 1 cmd "") "clean" then "" else make_output_text), w);
  json_loads := fun _ => Raise ValueError;
  int_of_str := fun _ => Raise ValueError;
  parse_json_file := fun _ w => (Raise (OtherError "IOError"), w);
  symbol_table_source_files := fun _ _ w => (Ok [], w);
  read_text := fun name _ =>
    if String.eqb name "/build/a.o" then Ok preprocessed_text
    else Raise FileNotFoundError;
  os_walk := fun _ _ =>
    [("/src", ["a.c"; "README"; "B.H"]); ("/src/sub", ["c.inl"; "d.cpp"])];
  re_match_I := fun _ _ => Ok false
|}.

(** The three commands of [SourceFromMake.find_sources], each run in the
    build directory. *)
Definition make_protocol (build : string) : list (list string * string) :=
  [(["make"; "clean"], build);
   (["make"; "GOTO_CC=goto-cc -E"; "goto"], build);
   (["make"; "clean"], build)].

(** The message of [make_source] when a parameter of the method is
    missing. *)
Definition expected_message (method : Sources) : string :=
  match method with
  | GOTO => "make-source: expected --goto and --srcdir and --wkdir"
  | MAKE => "make-source: expected --srcdir and --wkdir"
  | FIND => "make-source: expected --srcdir"
  | WALK => "make-source: expected --srcdir"
  end.

(** A directory argument that [make_source] takes as missing: [None] or
    the empty string. *)
Definition missing (d : option string) : Prop := d = None \/ d = Some "".

(** * Properties *)

(** ** Sorting and sets *)

Lemma sorted_elem (l : list string) (x : string) : x ∈ sorted l <-> x ∈ l.
Proof. unfold sorted. by rewrite merge_sort_Permutation. Qed.

Lemma sorted_set_elem (l : list string) (x : string) :
  x ∈ sorted_set l <-> x ∈ l.
Proof.
  unfold sorted_set. rewrite sorted_elem, elem_of_elements.
  apply elem_of_list_to_set.
Qed.

Lemma list_set_elem (l : list string) (x : string) : x ∈ list_set l <-> x ∈ l.
Proof. unfold list_set. rewrite elem_of_elements. apply elem_of_list_to_set. Qed.

Lemma list_set_NoDup (l : list string) : NoDup (list_set l).
Proof. unfold list_set. apply NoDup_elements. Qed.

Lemma sorted_set_ascending (l : list string) : ascending (sorted_set l).
Proof.
  split.
  - apply (StronglySorted_merge_sort String.le).
  - unfold sorted_set, sorted. rewrite merge_sort_Permutation.
    apply NoDup_elements.
Qed.

Lemma ascending_unique (l1 l2 : list string) :
  ascending l1 -> ascending l2 -> (forall x, x ∈ l1 <-> x ∈ l2) -> l1 = l2.
Proof.
  intros [S1 N1] [S2 N2] Hel.
  apply (StronglySorted_unique String.le); try done.
  by apply NoDup_Permutation.
Qed.

Lemma sorted_set_id (l : list string) : ascending l -> sorted_set l = l.
Proof.
  intros Hl. apply ascending_unique; auto using sorted_set_ascending.
  apply sorted_set_elem.
Qed.

(** ** Validation of constructed objects *)

Lemma is_list_of_str_strs (l : list string) : is_list_of_str (JArr (JStr <$> l)) = true.
Proof. simpl. induction l; simpl; auto. Qed.

Lemma is_dict_of_int_loc (loc : gmap string Z) :
  is_dict_of_int (loc_dict loc) = bool_decide (loc <> ∅).
Proof.
  unfold loc_dict.
  destruct (map_to_list loc) as [|[k0 v0] l] eqn:Hl.
  - apply map_to_list_empty_iff in Hl as ->.
    cbn. by rewrite bool_decide_eq_false_2 by (intros H; by apply H).
  - rewrite bool_decide_eq_true_2
      by (intros ->; by rewrite map_to_list_empty in Hl).
    cbn. clear Hl. induction l as [|[k v] l IH]; simpl; auto.
Qed.

(** The dictionary of an object passes the schema but when its
    [lines_of_code] is a dictionary without members. *)
Lemma Source_dict_VALID (s : Source) :
  VALID_SOURCE (Source_dict s) = bool_decide (lines_of_code s <> Some ∅).
Proof.
  destruct s as [r a f [loc|]]; unfold Source_dict, VALID_SOURCE;
    cbn -[loc_dict is_list_of_str is_dict_of_int bool_decide];
    rewrite ?is_list_of_str_strs, ?is_dict_of_int_loc.
  - rewrite !andb_true_r. apply bool_decide_ext. split; congruence.
  - by rewrite bool_decide_eq_true_2.
Qed.

Lemma Source_dict_valid (s : Source) :
  lines_of_code s <> Some ∅ -> VALID_SOURCE (Source_dict s) = true.
Proof. intros H. by rewrite Source_dict_VALID, bool_decide_eq_true_2. Qed.

Lemma validate_Source_dict (s : Source) :
  lines_of_code s <> Some ∅ ->
  validate (Source_dict s) None = Ok (Source_dict s).
Proof. intros H. unfold validate. by rewrite Source_dict_valid. Qed.

Lemma validate_empty_counts (s : Source) :
  lines_of_code s = Some ∅ -> validate (Source_dict s) None = Raise Invalid.
Proof.
  intros H. unfold validate.
  by rewrite Source_dict_VALID, bool_decide_eq_false_2 by (intros H'; by apply H').
Qed.

Lemma Source_str_ok (s : Source) :
  lines_of_code s <> Some ∅ ->
  Source_str s = Ok (JObj [(JSON_TAG, Source_dict s)]).
Proof. intros H. unfold Source_str, Source_repr. by rewrite validate_Source_dict. Qed.

(** [if lines_of_code:] keeps no dictionary without members. *)
Lemma guard_nonempty (lines : option (gmap string Z)) :
  match lines with
  | Some loc => if decide (loc = ∅) then None else Some loc
  | None => None
  end <> Some ∅.
Proof.
  destruct lines as [loc|]; [|done].
  destruct (decide (loc = ∅)); [done|congruence].
Qed.

Section Construction.
Context {W : Type} {E : Externals W}.

Lemma Source_init_no_sloc (r : option string) (fs : option (list string))
    (st : state W) :
  exists S, Source_init r fs false st = (Ok S, st)
    /\ lines_of_code S = None.
Proof.
  eexists. unfold Source_init, bind, ret, lift. cbn.
  rewrite validate_Source_dict by done. split; reflexivity.
Qed.

Lemma Source_init_fields (r : option string) (fs : option (list string))
    (flag : bool) (st st' : state W) (S : Source) :
  Source_init r fs flag st = (Ok S, st') ->
  root S = init_root r
  /\ all_files S = sorted_set (map (srcloct.abspath getcwd) (default [] fs))
  /\ files S =
       map (fun path =>
              srcloct.normpath
                (PyStr.slice_from (String.length (root S) + 1) path))
           (List.filter (PyStr.startswith (root S)) (all_files S)).
Proof.
  unfold Source_init, bind, ret, lift.
  destruct flag.
  - destruct (sloc _ _ st) as [[lo|e] st1]; [|discriminate].
    rewrite validate_Source_dict by apply guard_nonempty. intros [= <- <-].
    destruct fs; repeat split; reflexivity.
  - rewrite validate_Source_dict by done. intros [= <- <-].
    destruct fs; repeat split; reflexivity.
Qed.

Lemma Source_init_counted (r : option string) (fs : option (list string))
    (flag : bool) (st st' : state W) (S : Source) :
  Source_init r fs flag st = (Ok S, st') -> lines_of_code S <> Some ∅.
Proof.
  unfold Source_init, bind, ret, lift.
  destruct flag.
  - destruct (sloc _ _ st) as [[lo|e] st1]; [|discriminate].
    rewrite validate_Source_dict by apply guard_nonempty. intros [= <- <-].
    apply guard_nonempty.
  - rewrite validate_Source_dict by done. by intros [= <- <-].
Qed.
End Construction.

(** ** Chunks *)

Lemma batches_nil : batches batch [] = [].
Proof. reflexivity. Qed.

Lemma batches_count (l : list string) :
  l <> [] ->
  ((List.length l + batch - 1) / batch
   = S ((List.length (drop batch l) + batch - 1) / batch))%nat.
Proof.
  intros Hne. rewrite length_drop. unfold batch.
  destruct (le_lt_dec (List.length l) 100) as [Hle|Hgt].
  - assert (0 < List.length l)%nat by (destruct l; [done|simpl; lia]).
    replace (List.length l - 100)%nat with 0%nat by lia.
    replace (List.length l + 100 - 1)%nat with ((List.length l - 1) + 1 * 100)%nat by lia.
    rewrite Nat.div_add by lia. rewrite Nat.div_small by lia. reflexivity.
  - replace (List.length l + 100 - 1)%nat
      with ((List.length l - 100 + 100 - 1) + 1 * 100)%nat by lia.
    rewrite Nat.div_add by lia. lia.
Qed.

Lemma batches_cons (l : list string) :
  l <> [] ->
  batches batch l = take batch l :: batches batch (drop batch l).
Proof.
  intros Hne. unfold batches at 1. rewrite batches_count by done.
  cbn [seq map]. f_equal. unfold batches.
  rewrite <- seq_shift, map_map. apply map_ext. intros i.
  rewrite drop_drop. reflexivity.
Qed.

(** Induction over a list chunk by chunk. *)
Lemma batches_ind (P : list string -> list (list string) -> Prop) :
  P [] [] ->
  (forall l, l <> [] ->
     P (drop batch l) (batches batch (drop batch l)) ->
     P l (take batch l :: batches batch (drop batch l))) ->
  forall l, P l (batches batch l).
Proof.
  intros Hnil Hcons l.
  induction l as [l IH] using (induction_ltof1 _ (@List.length string)).
  destruct (decide (l = [])) as [->|Hne]; [exact Hnil|].
  rewrite batches_cons by done. apply Hcons; [done|].
  apply IH. unfold ltof. rewrite length_drop.
  destruct l; [done|]. simpl. unfold batch. lia.
Qed.

Lemma batches_concat (l : list string) : concat (batches batch l) = l.
Proof.
  apply (batches_ind (fun l bs => concat bs = l)); [reflexivity|].
  intros l0 _ IH. simpl. rewrite IH. apply take_drop.
Qed.

Lemma batches_sizes (l : list string) :
  Forall (fun chunk => (0 < List.length chunk <= batch)%nat) (batches batch l).
Proof.
  apply (batches_ind (fun _ bs => Forall (fun chunk => (0 < List.length chunk <= batch)%nat) bs));
    [constructor|].
  intros l0 Hne IH. constructor; [|done].
  rewrite length_take. destruct l0; [done|]. cbn [List.length]. unfold batch. lia.
Qed.

Lemma batches_length (l : list string) :
  List.length (batches batch l) = ((List.length l + batch - 1) / batch)%nat.
Proof. unfold batches. by rewrite length_map, length_seq. Qed.

Lemma batches_several (l : list string) :
  (batch < List.length l)%nat -> (2 <= List.length (batches batch l))%nat.
Proof.
  intros Hlen. rewrite batches_length. unfold batch in *.
  replace (List.length l + 100 - 1)%nat
    with ((List.length l - 101) + 2 * 100)%nat by lia.
  rewrite Nat.div_add by lia. lia.
Qed.

(** ** Counts *)

Lemma add_counts_lookup (d : list (string * Z)) (loc : gmap string Z) (key : string) :
  default 0 (add_counts d loc !! key) = count_in key d + default 0 (loc !! key).
Proof.
  revert loc. induction d as [|[k v] d IH]; intros loc.
  - reflexivity.
  - unfold add_counts in *. cbn [fold_left fst snd]. rewrite IH.
    cbn [count_in fold_right fst snd]. fold (count_in key d).
    destruct (String.eqb_spec k key) as [->|Hne].
    + rewrite lookup_insert_eq. simpl. lia.
    + by rewrite lookup_insert_ne.
Qed.

Lemma add_counts_is_Some (d : list (string * Z)) (loc : gmap string Z) (key : string) :
  is_Some (add_counts d loc !! key) <-> key ∈ d.*1 \/ is_Some (loc !! key).
Proof.
  revert loc. induction d as [|[k v] d IH]; intros loc.
  - simpl. rewrite elem_of_nil. tauto.
  - unfold add_counts in *. cbn [fold_left fst snd]. rewrite IH.
    rewrite fmap_cons, elem_of_cons. cbn [fst].
    destruct (decide (k = key)) as [->|Hne].
    + rewrite lookup_insert_eq. split; [auto|]. intros _. right. eauto.
    + rewrite lookup_insert_ne by done. split; [tauto|].
      intros [[->|?]|?]; [done|tauto|tauto].
Qed.

Lemma merged_counts_lookup (resp : list (string * list (string * Z)))
    (loc : gmap string Z) (key : string) :
  default 0 (merged_counts resp loc !! key)
  = total_count key resp.*2 + default 0 (loc !! key).
Proof.
  revert loc. induction resp as [|[out d] resp IH]; intros loc.
  - reflexivity.
  - unfold merged_counts in *. cbn [fold_left snd]. rewrite IH.
    rewrite add_counts_lookup.
    change (total_count key ((out, d) :: resp).*2)
      with (count_in key d + total_count key resp.*2). lia.
Qed.

Lemma merged_counts_is_Some (resp : list (string * list (string * Z)))
    (loc : gmap string Z) (key : string) :
  is_Some (merged_counts resp loc !! key)
  <-> (exists d, d ∈ resp.*2 /\ key ∈ d.*1) \/ is_Some (loc !! key).
Proof.
  revert loc. induction resp as [|[out d] resp IH]; intros loc.
  - simpl. split; [auto|]. intros [(d & Hd & _)|?]; [|done].
    by apply elem_of_nil in Hd.
  - unfold merged_counts in *. cbn [fold_left snd]. rewrite IH.
    rewrite add_counts_is_Some. rewrite fmap_cons. cbn [snd]. split.
    + intros [(d' & Hd' & Hk)|[Hk|Hs]].
      * left. exists d'. split; [by apply elem_of_cons; right|done].
      * left. exists d. split; [by apply elem_of_cons; left|done].
      * by right.
    + intros [(d' & Hd' & Hk)|Hs]; [|tauto].
      apply elem_of_cons in Hd' as [->|Hd']; [tauto|].
      left. eauto.
Qed.

(** ** The loop of [Source.sloc] *)

Section Sloc.
Context {W : Type} {E : Externals W}.

Lemma accumulate_ints (data : list (string * json)) (loc : gmap string Z) :
  accumulate data loc =
    match ints data with
    | Ok d => Ok (add_counts d loc)
    | Raise e => Raise e
    end.
Proof.
  revert loc. induction data as [|[key val] rest IH]; intros loc; simpl.
  - reflexivity.
  - destruct (py_int val) as [n|e]; [|reflexivity].
    rewrite IH. destruct (ints rest); reflexivity.
Qed.

Lemma decode_step {A} (out : string) (loc : gmap string Z)
    (k : gmap string Z -> M W A) (st : state W) :
  (let* data := lift (summary_items out) in
   let* loc' := lift (accumulate data loc) in
   k loc') st =
    match summary_counts out with
    | Ok d => k (add_counts d loc) st
    | Raise e => (Raise e, st)
    end.
Proof.
  unfold summary_counts, bind, lift.
  destruct (summary_items out) as [data|e]; [|reflexivity].
  rewrite accumulate_ints. destruct (ints data); reflexivity.
Qed.

(** One iteration of the loop. *)
Lemma sloc_loop_step (fuel : nat) (root : string) (loc : gmap string Z)
    (sources : list string) (st : state W) :
  sources <> [] ->
  sloc_loop (S fuel) root loc sources st =
    let cmd := sloc_command (take batch sources) in
    let (r, w1) := runt_run cmd root [] (world st) in
    let st1 := State w1 (trace st ++ [Invocation cmd root r]) in
    match r with
    | Ok out =>
        match summary_counts out with
        | Ok d => sloc_loop fuel root (add_counts d loc) (drop batch sources) st1
        | Raise e => (Raise e, st1)
        end
    | Raise e => if unavailable e then (Ok None, st1) else (Raise e, st1)
    end.
Proof.
  intros Hne. destruct sources as [|s l]; [done|].
  cbn [sloc_loop]. unfold run. fold (sloc_command (take batch (s :: l))).
  cbv zeta.
  destruct (runt_run _ root [] (world st)) as [[out|e] w1].
  - apply decode_step.
  - destruct e; try reflexivity. simpl. by destruct (errno =? 7).
Qed.

(** The loop never runs out of fuel, and runs as [sloc_exec] tells. *)
Lemma sloc_loop_exec (fuel : nat) (root : string) (loc : gmap string Z)
    (sources : list string) (st : state W) :
  (List.length sources <= fuel)%nat ->
  exists evs r w',
    sloc_loop fuel root loc sources st = (r, State w' (trace st ++ evs))
    /\ sloc_exec root loc sources (world st) evs r w'.
Proof.
  revert loc sources st.
  induction fuel as [|fuel IH]; intros loc sources st Hlen.
  - destruct sources; [|simpl in Hlen; lia].
    exists [], (Ok (Some loc)), (world st). simpl. unfold ret.
    rewrite app_nil_r. destruct st; split; [reflexivity|constructor].
  - destruct (decide (sources = [])) as [->|Hne].
    { exists [], (Ok (Some loc)), (world st). simpl. unfold ret.
      rewrite app_nil_r. destruct st; split; [reflexivity|constructor]. }
    rewrite sloc_loop_step by done. cbv zeta.
    destruct (runt_run (sloc_command (take batch sources)) root [] (world st))
      as [[out|e] w1] eqn:Hrun.
    + destruct (summary_counts out) as [d|e] eqn:Hsum.
      * destruct (IH (add_counts d loc) (drop batch sources)
                    (State w1 (trace st ++ [Invocation (sloc_command (take batch sources)) root (Ok out)])))
          as (evs & r & w2 & Hloop & Hexec).
        { rewrite length_drop. destruct sources; [done|]. simpl in *. unfold batch. lia. }
        exists (Invocation (sloc_command (take batch sources)) root (Ok out) :: evs), r, w2.
        split.
        -- rewrite Hloop. cbn [trace]. by rewrite <- app_assoc.
        -- eapply exec_next; eauto.
      * exists [Invocation (sloc_command (take batch sources)) root (Ok out)], (Raise e), w1.
        split; [reflexivity|]. eapply exec_garbled; eauto.
    + exists [Invocation (sloc_command (take batch sources)) root (Raise e)].
      destruct (unavailable e) eqn:Hun.
      * exists (Ok None), w1. split; [reflexivity|by eapply exec_unavailable].
      * exists (Raise e), w1. split; [reflexivity|by eapply exec_raise].
Qed.

Lemma sloc_exec_run (files : list string) (root : string) (st : state W) :
  exists evs r w',
    sloc files root st = (r, State w' (trace st ++ evs))
    /\ sloc_exec root ∅ files (world st) evs r w'.
Proof. apply sloc_loop_exec. lia. Qed.

(** A failure that means "no statistics" at any call ends the run with
    [None]. *)
Lemma sloc_exec_unavailable (root : string) (loc : gmap string Z)
    (sources : list string) (w w' : W) (evs : list invocation)
    (r : result (option (gmap string Z))) :
  sloc_exec root loc sources w evs r w' ->
  forall ev e,
    ev ∈ evs -> inv_result ev = Raise e -> unavailable e = true ->
    r = Ok None.
Proof.
  induction 1 as [| | loc sources w e0 w' _ _ Hun | |
                  loc sources w out d w' evs r w'' _ _ _ _ IH];
    intros ev ex Hin Hres Hbad.
  - by apply elem_of_nil in Hin.
  - reflexivity.
  - apply list_elem_of_singleton in Hin as ->. simpl in Hres.
    injection Hres as ->. congruence.
  - apply list_elem_of_singleton in Hin as ->. discriminate.
  - apply elem_of_cons in Hin as [->|Hin]; [discriminate|]. eauto.
Qed.

(** The calls made are the commands of the first chunks, in order, each
    with [root] as working directory. *)
Lemma sloc_exec_commands (root : string) (loc : gmap string Z)
    (sources : list string) (w w' : W) (evs : list invocation)
    (r : result (option (gmap string Z))) :
  sloc_exec root loc sources w evs r w' ->
  map (fun ev => (inv_cmd ev, inv_cwd ev)) evs
  = take (List.length evs)
      (map (fun chunk => (sloc_command chunk, root)) (batches batch sources)).
Proof.
  induction 1 as [| | | | loc sources w out d w' evs r w'' Hne _ _ _ IH];
    try (rewrite batches_cons by done; reflexivity).
  - reflexivity.
  - rewrite batches_cons by done. simpl. by rewrite IH.
Qed.

(** A run that returns counts has called the tool on every chunk, with
    success each time. *)
Lemma sloc_exec_complete (root : string) (loc loc' : gmap string Z)
    (sources : list string) (w w' : W) (evs : list invocation) :
  sloc_exec root loc sources w evs (Ok (Some loc')) w' ->
  exists resp,
    all_succeed root (batches batch sources) w resp w'
    /\ evs = success_log root (batches batch sources) resp
    /\ loc' = merged_counts resp loc.
Proof.
  intros H. remember (Ok (Some loc')) as r eqn:Hr.
  induction H as [| | | | loc sources w out d w1 evs r w2 Hne Hrun Hsum _ IH];
    try discriminate.
  - injection Hr as ->. exists []. repeat split. constructor.
  - destruct (IH Hr) as (resp & Hall & Hevs & Hloc).
    exists ((out, d) :: resp). rewrite batches_cons by done.
    repeat split.
    + econstructor; eauto.
    + by rewrite Hevs.
    + by rewrite Hloc.
Qed.

(** When every invocation succeeds the run returns the merged counts. *)
Lemma sloc_exec_all_succeed (root : string) (loc : gmap string Z)
    (sources : list string) (w w2 w' : W) (evs : list invocation)
    (r : result (option (gmap string Z)))
    (resp : list (string * list (string * Z))) :
  all_succeed root (batches batch sources) w resp w' ->
  sloc_exec root loc sources w evs r w2 ->
  evs = success_log root (batches batch sources) resp
  /\ r = Ok (Some (merged_counts resp loc)) /\ w2 = w'.
Proof.
  intros Hall H. revert resp Hall.
  induction H as [loc w| loc sources w e w1 Hne Hrun _
                  | loc sources w e w1 Hne Hrun _
                  | loc sources w out e w1 Hne Hrun Hsum
                  | loc sources w out d w1 evs r w2 Hne Hrun Hsum _ IH];
    intros resp Hall.
  - rewrite batches_nil in Hall. by inversion Hall.
  - rewrite batches_cons in Hall by done. inversion Hall; congruence.
  - rewrite batches_cons in Hall by done. inversion Hall; congruence.
  - rewrite batches_cons in Hall by done. inversion Hall; congruence.
  - rewrite batches_cons in Hall |- * by done.
    inversion Hall as [|? ? ? out' d' w1' resp' ? Hrun' Hsum' Hall']; subst.
    rewrite Hrun in Hrun'. injection Hrun' as <- <-.
    rewrite Hsum in Hsum'. injection Hsum' as <-.
    destruct (IH _ Hall') as (-> & -> & ->). done.
Qed.

End Sloc.

(** ** Paths *)

Section Paths.
Import PyStr PosixPath.

Lemma startswith_slash (s : string) :
  startswith "/" s = true <-> exists rest, s = String slash rest.
Proof.
  destruct s as [|a s]; cbn -[Ascii.eqb].
  - split; [discriminate|]. by intros [? ?].
  - rewrite andb_true_r. destruct (Ascii.eqb_spec "/" a) as [<-|Hne].
    + split; [intros _; by exists s|done].
    + split; [discriminate|]. intros [rest Heq]. unfold slash in Heq. congruence.
Qed.

Lemma split_cons_sep (c : ascii) (s : string) :
  split c (String c s) = "" :: split c s.
Proof. simpl. by rewrite Ascii.eqb_refl. Qed.

Lemma split_nonempty (c : ascii) (s : string) : split c s <> [].
Proof.
  induction s as [|a s IH]; simpl; [done|].
  destruct (Ascii.eqb a c); [done|]. by destruct (split c s).
Qed.

Lemma split_no_sep (c : ascii) (s x : string) :
  x ∈ split c s -> occurs c x = false.
Proof.
  revert x. induction s as [|a s IH]; intros x; simpl.
  - intros ->%list_elem_of_singleton. reflexivity.
  - destruct (Ascii.eqb a c) eqn:Hac.
    + intros [->|Hin]%elem_of_cons; [reflexivity|auto].
    + destruct (split c s) as [|y ys] eqn:Hs.
      * intros ->%list_elem_of_singleton. simpl. by rewrite Hac.
      * intros [->|Hin]%elem_of_cons.
        -- simpl. rewrite Hac. apply IH. by left.
        -- apply IH. by right.
Qed.

Lemma split_plain_word (c : ascii) (x : string) :
  occurs c x = false -> split c x = [x].
Proof.
  induction x as [|a x IH]; simpl; [done|].
  intros [Hac Hx]%orb_false_elim. rewrite Hac, (IH Hx). reflexivity.
Qed.

Lemma split_word_sep (c : ascii) (x s : string) :
  occurs c x = false -> split c (x ++ String c s) = x :: split c s.
Proof.
  induction x as [|a x IH]; simpl.
  - intros _. by rewrite Ascii.eqb_refl.
  - intros [Hac Hx]%orb_false_elim. rewrite Hac, (IH Hx). reflexivity.
Qed.

Lemma split_join (comps : list string) :
  comps <> [] ->
  Forall (fun x => occurs slash x = false) comps ->
  split slash (PyStr.join "/" comps) = comps.
Proof.
  intros Hne Hall. induction Hall as [|x xs Hx Hxs IH]; [done|].
  unfold PyStr.join in *. simpl. destruct xs as [|y ys].
  - by apply split_plain_word.
  - change (String.concat "/" (y :: ys)) with (PyStr.join "/" (y :: ys)).
    change ("/" ++ PyStr.join "/" (y :: ys))
      with (String slash (PyStr.join "/" (y :: ys))).
    rewrite split_word_sep by done. f_equal. by apply IH.
Qed.

Lemma plain_eqb (c : string) :
  plain c ->
  String.eqb c "" = false /\ String.eqb c "." = false
  /\ String.eqb c ".." = false.
Proof. intros (H1 & H2 & H3 & _). by rewrite !String.eqb_neq. Qed.

Lemma normpath_step_plain (initial : nat) (acc : list string) (c : string) :
  plain c -> normpath_step initial acc c = (acc ++ [c])%list.
Proof.
  intros (H1 & H2 & H3)%plain_eqb. unfold normpath_step.
  by rewrite H1, H2, H3.
Qed.

Lemma normpath_fold_clean (initial : nat) (l acc : list string) :
  Forall (fun c => c = "" \/ plain c) l ->
  fold_left (normpath_step initial) l acc
  = (acc ++ List.filter (fun c => negb (String.eqb c "")) l)%list.
Proof.
  intros Hl. revert acc. induction Hl as [|c l [->|Hc] _ IH]; intros acc; simpl.
  - by rewrite app_nil_r.
  - apply IH.
  - rewrite normpath_step_plain by done. rewrite IH.
    destruct (plain_eqb c Hc) as (-> & _). simpl. by rewrite <- app_assoc.
Qed.

Lemma Forall_removelast {A} (P : A -> Prop) (l : list A) :
  Forall P l -> Forall P (removelast l).
Proof.
  induction 1 as [|x l Hx Hl IH]; simpl; [constructor|].
  destruct l; [constructor|]. by constructor.
Qed.

Lemma last_plain (acc : list string) :
  Forall plain acc -> String.eqb (List.last acc "") ".." = false.
Proof.
  induction 1 as [|x l Hx Hl IH]; [reflexivity|].
  simpl. destruct l; [|done]. by destruct (plain_eqb x Hx) as (_ & _ & ->).
Qed.

Lemma normpath_fold_plain (initial : nat) (l acc : list string) :
  initial <> 0%nat -> Forall plain acc ->
  Forall (fun c => occurs slash c = false) l ->
  Forall plain (fold_left (normpath_step initial) l acc).
Proof.
  intros Hi Hacc Hl. revert acc Hacc.
  induction Hl as [|c l Hc _ IH]; intros acc Hacc; simpl; [done|].
  apply IH. unfold normpath_step.
  destruct (String.eqb_spec c "") as [->|H1]; [done|].
  destruct (String.eqb_spec c ".") as [->|H2]; [done|]. cbn [orb].
  destruct (String.eqb_spec c "..") as [->|H3].
  - cbn [negb orb]. rewrite (last_plain acc Hacc), andb_false_r, orb_false_r.
    destruct initial; [done|]. cbn [Nat.eqb andb].
    destruct (negb _); [by apply Forall_removelast|done].
  - cbn [negb orb]. apply Forall_app. split; [done|].
    constructor; [|constructor]. done.
Qed.

Lemma initial_slashes_abs (p : string) :
  startswith "/" p = true ->
  initial_slashes p = 1%nat \/ initial_slashes p = 2%nat.
Proof.
  intros H. unfold initial_slashes. rewrite H.
  destruct (_ && _); auto.
Qed.

(** [normpath] of an absolute path is absolute and normalized. *)
Lemma normpath_abs_canonical (p : string) :
  startswith "/" p = true -> canonical (normpath p).
Proof.
  intros Habs. unfold normpath.
  destruct (startswith_slash p) as [[rest ->] _]; [done|].
  cbn [String.eqb].
  exists (initial_slashes (String slash rest)),
         (fold_left (normpath_step (initial_slashes (String slash rest)))
                    (split slash (String slash rest)) []).
  pose proof (initial_slashes_abs _ Habs) as Hk.
  split; [done|]. split.
  - apply normpath_fold_plain; [lia|constructor|].
    apply Forall_forall. intros x Hx. by apply split_no_sep in Hx.
  - destruct Hk as [-> | ->]; reflexivity.
Qed.

Lemma startswith_cons (a b : ascii) (p s : string) :
  startswith (String a p) (String b s) = Ascii.eqb a b && startswith p s.
Proof. reflexivity. Qed.

Lemma join_head (a : ascii) (x : string) (xs : list string) :
  exists rest, PyStr.join "/" (String a x :: xs) = String a rest.
Proof. unfold PyStr.join. destruct xs; eexists; reflexivity. Qed.

Lemma join_plain_head (comps : list string) :
  Forall plain comps -> startswith "/" (PyStr.join "/" comps) = false.
Proof.
  intros [|x xs (Hne & _ & _ & Hx) _]; [reflexivity|].
  destruct x as [|a x]; [done|].
  destruct (join_head a x xs) as [rest ->].
  rewrite startswith_cons.
  cbn [occurs] in Hx. apply orb_false_elim in Hx as [Ha _].
  rewrite Ascii.eqb_sym. fold slash. by rewrite Ha.
Qed.

Lemma split_join_plain (comps : list string) :
  Forall plain comps ->
  List.filter (fun c => negb (String.eqb c ""))
              (split slash (PyStr.join "/" comps)) = comps
  /\ Forall (fun c => c = "" \/ plain c) (split slash (PyStr.join "/" comps)).
Proof.
  intros Hall. destruct comps as [|x xs]; [split; [reflexivity|]|].
  { repeat constructor. }
  rewrite split_join; [|done|].
  - split.
    + induction Hall as [|y ys Hy _ IH]; [reflexivity|].
      simpl. destruct (plain_eqb y Hy) as (-> & _). simpl. by rewrite IH.
    + eapply Forall_impl; [exact Hall|]. auto.
  - eapply Forall_impl; [exact Hall|]. by intros y (_ & _ & _ & Hy).
Qed.

(** [normpath] leaves an absolute, normalized path as it is. *)
Lemma canonical_normpath (q : string) : canonical q -> normpath q = q.
Proof.
  intros (k & comps & Hk & Hall & ->).
  pose proof (join_plain_head comps Hall) as Hhead.
  destruct (split_join_plain comps Hall) as [Hfilter Hclean].
  assert (Hinit : initial_slashes (repeat_slash k ++ PyStr.join "/" comps) = k).
  { destruct (PyStr.join "/" comps) as [|a s] eqn:Hj.
    - destruct Hk as [-> | ->]; reflexivity.
    - rewrite startswith_cons in Hhead. cbn [startswith] in Hhead.
      rewrite andb_true_r in Hhead. unfold initial_slashes.
      destruct Hk as [-> | ->].
      + change (repeat_slash 1 ++ String a s) with (String "/" (String a s)).
        rewrite !startswith_cons, !Ascii.eqb_refl, Hhead. reflexivity.
      + change (repeat_slash 2 ++ String a s)
          with (String "/" (String "/" (String a s))).
        rewrite !startswith_cons, !Ascii.eqb_refl, Hhead. reflexivity. }
  unfold normpath. rewrite Hinit.
  assert (Hsplit :
    fold_left (normpath_step k)
              (split slash (repeat_slash k ++ PyStr.join "/" comps)) []
    = comps).
  { destruct Hk as [-> | ->].
    - change (repeat_slash 1 ++ PyStr.join "/" comps)
        with (String slash (PyStr.join "/" comps)).
      rewrite split_cons_sep, normpath_fold_clean.
      + cbn [List.filter String.eqb negb app]. exact Hfilter.
      + constructor; [by left|done].
    - change (repeat_slash 2 ++ PyStr.join "/" comps)
        with (String slash (String slash (PyStr.join "/" comps))).
      rewrite !split_cons_sep, normpath_fold_clean.
      + cbn [List.filter String.eqb negb app]. exact Hfilter.
      + constructor; [by left|]. constructor; [by left|done]. }
  rewrite Hsplit.
  destruct Hk as [-> | ->]; reflexivity.
Qed.

Lemma canonical_abs (q : string) : canonical q -> startswith "/" q = true.
Proof. intros (k & comps & [-> | ->] & _ & ->); reflexivity. Qed.

Lemma join_abs (cwd p : string) :
  startswith "/" cwd = true -> startswith "/" (PosixPath.join cwd p) = true.
Proof.
  intros Hcwd. unfold PosixPath.join.
  destruct (startswith "/" p) eqn:Hp; [done|].
  apply startswith_slash in Hcwd as [rest ->].
  destruct (_ || _); reflexivity.
Qed.

(** [abspath] yields an absolute, normalized path when the current
    directory is absolute. *)
Lemma abspath_canonical (cwd p : string) :
  isabs cwd = true -> canonical (abspath cwd p).
Proof.
  intros Hcwd. unfold abspath. apply normpath_abs_canonical.
  unfold isabs in *. destruct (startswith "/" p) eqn:Hp; [done|].
  by apply join_abs.
Qed.

(** [abspath] leaves an absolute, normalized path as it is, whatever the
    current directory. *)
Lemma abspath_of_canonical (cwd q : string) : canonical q -> abspath cwd q = q.
Proof.
  intros Hq. unfold abspath, isabs. rewrite (canonical_abs q Hq).
  by apply canonical_normpath.
Qed.

End Paths.

(** ** Every construction goes through [Source.__init__] *)

Section Constructors.
Context {W : Type} {E : Externals W}.

Lemma bind_Ok {A B} (m : M W A) (k : A -> M W B) (st st' : state W) (b : B) :
  bind m k st = (Ok b, st') ->
  exists a st1, m st = (Ok a, st1) /\ k a st1 = (Ok b, st').
Proof.
  unfold bind. destruct (m st) as [[a|e] st1]; [eauto|discriminate].
Qed.

Lemma constructed_by_init (S : Source) :
  constructed S ->
  exists r fs flag (st st' : state W), Source_init r fs flag st = (Ok S, st').
Proof.
  assert (Hjson : forall js flag (st st' : state W),
             SourceFromJson js flag st = (Ok S, st') ->
             exists r fs flag (st st' : state W),
               Source_init r fs flag st = (Ok S, st')).
  { intros js flag st st' H. unfold SourceFromJson in H.
    destruct js; [discriminate|].
    apply bind_Ok in H as (? & ? & _ & H).
    apply bind_Ok in H as (? & ? & _ & H). eauto 10. }
  assert (Hgoto : forall goto wkdir srcdir flag (st st' : state W),
             SourceFromGoto goto wkdir srcdir flag st = (Ok S, st') ->
             exists r fs flag (st st' : state W),
               Source_init r fs flag st = (Ok S, st')).
  { intros goto wkdir srcdir flag st st' H. unfold SourceFromGoto in H.
    destruct goto as [g|]; [|discriminate].
    destruct (String.eqb g ""); [discriminate|].
    apply bind_Ok in H as (? & ? & _ & H). eauto 10. }
  assert (Hfind : forall r ex ext flag (st st' : state W),
             SourceFromFind r ex ext flag st = (Ok S, st') ->
             exists r fs flag (st st' : state W),
               Source_init r fs flag st = (Ok S, st')).
  { intros r ex ext flag st st' H. unfold SourceFromFind in H.
    apply bind_Ok in H as (? & ? & _ & H). eauto 10. }
  assert (Hwalk : forall r ex ext flag (st st' : state W),
             SourceFromWalk r ex ext flag st = (Ok S, st') ->
             exists r fs flag (st st' : state W),
               Source_init r fs flag st = (Ok S, st')).
  { intros r ex ext flag st st' H. unfold SourceFromWalk in H.
    apply bind_Ok in H as (? & ? & _ & H). eauto 10. }
  assert (Hmake : forall r build flag (st st' : state W),
             SourceFromMake r build flag st = (Ok S, st') ->
             exists r fs flag (st st' : state W),
               Source_init r fs flag st = (Ok S, st')).
  { intros r build flag st st' H. unfold SourceFromMake in H.
    apply bind_Ok in H as (? & ? & _ & H). eauto 10. }
  intros [r fs flag st st' H | js flag st st' H | goto wkdir srcdir flag st st' H
         | r ex ext flag st st' H | r ex ext flag st st' H
         | r build flag st st' H
         | vs goto method srcdir wkdir ex ext st st' H]; eauto 10.
  unfold make_source in H.
  destruct vs; [|eauto].
  destruct method as [[]|]; [| | | |eauto 10].
  - destruct (abspath_or_none srcdir); [eauto|discriminate].
  - destruct (abspath_or_none srcdir); [eauto|discriminate].
  - destruct (abspath_or_none srcdir), (abspath_or_none wkdir);
      try discriminate; eauto.
  - destruct goto, (abspath_or_none wkdir), (abspath_or_none srcdir);
      try discriminate; eauto.
Qed.

End Constructors.

(** ** The base constructor *)

Section Source_properties.
Context {W : Type} {E : Externals W}.

Lemma filter_startswith_empty (l : list string) :
  List.filter (PyStr.startswith "") l = l.
Proof.
  induction l as [|x l IH]; [done|]. cbn [List.filter].
  change (PyStr.startswith "" x) with true. cbv iota. by rewrite IH.
Qed.

(** What holds of [all_files] for every root and file list: it is the
    sorted list without duplicates of the absolute, normalized paths of
    the files given, whether they are under the root or not. *)
Lemma Source_init_all_files (r : option string) (fs : list string)
    (flag : bool) (st st' : state W) (S : Source) :
  Source_init r (Some fs) flag st = (Ok S, st') ->
  ascending (all_files S)
  /\ forall p, p ∈ all_files S <->
                exists f, f ∈ fs /\ p = srcloct.abspath getcwd f.
Proof.
  intros (_ & Hall & _)%Source_init_fields. rewrite Hall.
  split; [apply sorted_set_ascending|].
  intros p. rewrite sorted_set_elem. cbn [default].
  split.
  - intros Hp. apply (proj1 (list_elem_of_fmap _ _ _)) in Hp as (f & -> & Hf).
    by exists f.
  - intros (f & Hf & ->). apply (proj2 (list_elem_of_fmap _ _ _)). by exists f.
Qed.

(** The cut of [len(root) + 1] characters takes a character too many
    when the root ends with the separator: under the root [/] the file
    [/usr/x.c] becomes [sr/x.c]. *)
Lemma Source_init_root_slash (st : state W) :
  Source_init (Some "/") (Some ["/usr/x.c"]) false st
  = (Ok (mkSource "/" ["/usr/x.c"] ["sr/x.c"] None), st).
Proof.
  destruct (Source_init_no_sloc (Some "/") (Some ["/usr/x.c"]) st)
    as (S & HS & Hloc).
  rewrite HS. do 2 f_equal.
  apply Source_init_fields in HS as (Hroot & Hall & Hfiles).
  destruct S as [r a f l]. simpl in *. subst. reflexivity.
Qed.

(** C10: after every construction path (the base constructor, any
    strategy, [make_source]), [all_files] is sorted in ascending order
    with no duplicate, and [files] lists the relative paths of the
    members of [all_files] that start with [root], in the order in which
    these members appear in [all_files]. *)
Theorem C10_all_files_ascending_files_in_order (S : Source) :
  constructed S ->
  ascending (all_files S)
  /\ files S
     = map (relative (root S))
           (List.filter (PyStr.startswith (root S)) (all_files S)).
Proof.
  intros (r & fs & flag & st & st' & H)%constructed_by_init.
  apply Source_init_fields in H as (_ & Hall & Hfiles).
  split; [|exact Hfiles]. rewrite Hall. apply sorted_set_ascending.
Qed.

(** C9: with an empty or absent root and a non-empty file list, [files]
    is not empty: every member of [all_files] starts with the empty
    root and with the path separator, and [files] is [all_files] with
    the first character of each member removed and the rest
    normalized: member by member, a path of [all_files] is the
    separator followed by a rest, and the path of [files] at the same
    place is that rest normalized. *)
Theorem C9_empty_root_keeps_every_file (r : option string) (fs : list string)
    (st : state W) :
  PosixPath.isabs getcwd = true ->
  fs <> [] ->
  r = None \/ r = Some "" ->
  exists S,
    Source_init r (Some fs) false st = (Ok S, st)
    /\ root S = ""
    /\ files S <> []
    /\ (forall p, p ∈ all_files S ->
          PyStr.startswith (root S) p = true
          /\ exists rest, p = String PyStr.slash rest)
    /\ files S
       = map (fun p => srcloct.normpath (PyStr.slice_from 1 p)) (all_files S)
    /\ Forall2 (fun p f =>
                  exists rest,
                    p = String PyStr.slash rest /\ f = srcloct.normpath rest)
               (all_files S) (files S).
Proof.
  intros Hcwd Hne Hr.
  destruct (Source_init_no_sloc r (Some fs) st) as (S & HS & _).
  exists S. split; [exact HS|].
  apply Source_init_fields in HS as (Hroot & Hall & Hfiles).
  assert (Hroot' : root S = "").
  { rewrite Hroot. by destruct Hr as [-> | ->]. }
  rewrite Hroot' in *. rewrite filter_startswith_empty in Hfiles.
  assert (Hmem : forall p, p ∈ all_files S ->
            PyStr.startswith "" p = true /\ exists rest, p = String PyStr.slash rest).
  { intros p Hp. split; [by destruct p|].
    rewrite Hall, sorted_set_elem in Hp.
    apply (proj1 (list_elem_of_fmap _ _ _)) in Hp as (f & -> & _).
    apply startswith_slash, canonical_abs.
    by apply abspath_canonical. }
  split; [reflexivity|].
  split; [|split; [exact Hmem|split; [exact Hfiles|]]].
  - rewrite Hfiles. intros Hnil%map_eq_nil.
    destruct fs as [|f fs]; [done|].
    assert (Hin : srcloct.abspath getcwd f ∈ all_files S).
    { rewrite Hall. apply sorted_set_elem. simpl. by left. }
    rewrite Hnil in Hin. by apply elem_of_nil in Hin.
  - rewrite Hfiles. clear Hfiles Hall.
    induction (all_files S) as [|p l IH]; cbn [map]; constructor.
    + destruct (Hmem p) as (_ & rest & ->); [by left|].
      exists rest. split; reflexivity.
    + apply IH. intros q Hq. apply Hmem. by right.
Qed.

(** C7: a [Source] built with no root and no file is the valid empty
    object, and [make_source] returns it when it is given no
    viewer-source document and no source method. *)
Theorem C7_empty_Source (st : state W) :
  Source_init None None false st = (Ok empty_Source, st)
  /\ Source_init None (Some []) false st = (Ok empty_Source, st)
  /\ validate (Source_dict empty_Source) None = Ok (Source_dict empty_Source)
  /\ root empty_Source = "" /\ files empty_Source = []
  /\ all_files empty_Source = []
  /\ forall goto srcdir wkdir exclude extensions,
       make_source [] goto None srcdir wkdir exclude extensions st
       = (Ok empty_Source, st).
Proof.
  assert (H : forall fs, fs = None \/ fs = Some [] ->
              Source_init None fs false st = (Ok empty_Source, st)).
  { intros fs Hfs. destruct (Source_init_no_sloc None fs st) as (S & HS & Hloc).
    rewrite HS. do 2 f_equal.
    apply Source_init_fields in HS as (Hroot & Hall & Hfiles).
    destruct S as [r a f l]. simpl in *. subst.
    destruct Hfs as [-> | ->]; reflexivity. }
  repeat split; auto.
Qed.

(** C1, at the input where the code departs from it: with root [/a/b]
    and the single file [/a/bc/x.c], which does not lie under [/a/b],
    [files] is not empty, and its member [/x.c] is no path relative to
    the root. *)
Theorem C1_sibling_directory_is_kept (st : state W) :
  lies_under "/a/b" "/a/bc/x.c" = false
  /\ Source_init (Some "/a/b") (Some ["/a/bc/x.c"]) false st
     = (Ok (mkSource "/a/b" ["/a/bc/x.c"] ["/x.c"] None), st).
Proof.
  split; [reflexivity|].
  destruct (Source_init_no_sloc (Some "/a/b") (Some ["/a/bc/x.c"]) st)
    as (S & HS & Hloc).
  rewrite HS. do 2 f_equal.
  apply Source_init_fields in HS as (Hroot & Hall & Hfiles).
  destruct S as [r a f l]. simpl in *. subst. reflexivity.
Qed.

End Source_properties.

Lemma C10_witness :
  let S := mkSource "/src" ["/src/a.c"; "/src/b.c"; "/usr/include/a.h"]
                    ["a.c"; "b.c"] None in
  ascending (all_files S)
  /\ files S
     = map (relative (root S))
           (List.filter (PyStr.startswith (root S)) (all_files S)).
Proof.
  intros S.
  apply (C10_all_files_ascending_files_in_order (E := bare_world) S).
  apply (by_make_source (E := bare_world) S [] (Some "app.goto") (Some GOTO)
           (Some "/src") (Some "/build") None None (State tt []) (State tt [])).
  vm_compute. reflexivity.
Defined.

Lemma C9_witness :
  Source_init (E := bare_world) None (Some ["/usr/x.c"; "y.c"]) false (State tt [])
  = (Ok (mkSource "" ["/home/u/y.c"; "/usr/x.c"] ["home/u/y.c"; "usr/x.c"] None),
     State tt [])
  /\ exists S,
    Source_init (E := bare_world) None (Some ["/usr/x.c"; "y.c"]) false (State tt [])
    = (Ok S, State tt [])
    /\ root S = ""
    /\ files S <> []
    /\ (forall p, p ∈ all_files S ->
          PyStr.startswith (root S) p = true
          /\ exists rest, p = String PyStr.slash rest)
    /\ files S
       = map (fun p => srcloct.normpath (PyStr.slice_from 1 p)) (all_files S)
    /\ Forall2 (fun p f =>
                  exists rest,
                    p = String PyStr.slash rest /\ f = srcloct.normpath rest)
               (all_files S) (files S).
Proof.
  split; [vm_compute; reflexivity|].
  apply (C9_empty_root_keeps_every_file (E := bare_world) None
           ["/usr/x.c"; "y.c"] (State tt [])).
  - reflexivity.
  - discriminate.
  - left. reflexivity.
Defined.

(** ** Line counts *)

Section Sloc_properties.
Context {W : Type} {E : Externals W}.

Lemma all_succeed_length (root : string) (chunks : list (list string))
    (w w' : W) (resp : list (string * list (string * Z))) :
  all_succeed root chunks w resp w' -> List.length resp = List.length chunks.
Proof. induction 1; simpl; congruence. Qed.

Lemma success_log_length (root : string) (chunks : list (list string))
    (w w' : W) (resp : list (string * list (string * Z))) :
  all_succeed root chunks w resp w' ->
  List.length (success_log root chunks resp) = List.length chunks.
Proof.
  intros H. unfold success_log. rewrite length_zip_with.
  apply all_succeed_length in H. lia.
Qed.

(** [Source.__init__] when line counts are asked for. *)
Lemma Source_init_sloc (r : option string) (fs : option (list string))
    (st : state W) :
  let R := init_root r in
  let A := sorted_set (map (srcloct.abspath getcwd) (default [] fs)) in
  let F := map (relative R) (List.filter (PyStr.startswith R) A) in
  Source_init r fs true st =
    match sloc F R st with
    | (Ok lines, st1) =>
        (Ok (mkSource R A F
               match lines with
               | Some loc => if decide (loc = ∅) then None else Some loc
               | None => None
               end), st1)
    | (Raise e, st1) => (Raise e, st1)
    end.
Proof.
  intros R A F. subst R A F.
  unfold Source_init, bind, ret, lift, relative, init_root.
  destruct fs as [l|];
    [change (default [] (Some l)) with l
    |change (default [] (@None (list string))) with (@nil string)];
    match goal with
    | |- context [sloc ?F ?R st] =>
        destruct (sloc F R st) as [[lines|e] st1]
    end;
    rewrite ?validate_Source_dict by first [apply guard_nonempty | done];
    reflexivity.
Qed.

(** C5: [Source.sloc] cuts the file list into successive chunks of at
    most 100 paths, calls the counting tool once per chunk with [root]
    as working directory and, when every call succeeds, returns the
    dictionary whose value at each key is the sum of the counts of that
    key over all calls; more than 100 files make more than one call. *)
Theorem C5_sloc_batches_and_sums (files : list string) (root : string)
    (st : state W) (resp : list (string * list (string * Z))) (w' : W) :
  all_succeed root (batches batch files) (world st) resp w' ->
  let chunks := batches batch files in
  let calls := success_log root chunks resp in
  let loc := merged_counts resp ∅ in
  sloc files root st = (Ok (Some loc), State w' (trace st ++ calls))
  /\ concat chunks = files
  /\ Forall (fun chunk => (0 < List.length chunk <= 100)%nat) chunks
  /\ map (fun ev => (inv_cmd ev, inv_cwd ev)) calls
     = map (fun chunk => (sloc_command chunk, root)) chunks
  /\ (forall key,
        (exists d, d ∈ resp.*2 /\ key ∈ d.*1) ->
        loc !! key = Some (total_count key resp.*2))
  /\ (forall key,
        ~ (exists d, d ∈ resp.*2 /\ key ∈ d.*1) -> loc !! key = None)
  /\ ((100 < List.length files)%nat -> (2 <= List.length calls)%nat).
Proof.
  intros Hall chunks calls loc. subst chunks calls loc.
  destruct (sloc_exec_run files root st) as (evs & r & w2 & Hrun & Hexec).
  destruct (sloc_exec_all_succeed _ _ _ _ _ _ _ _ _ Hall Hexec)
    as (-> & -> & ->).
  pose proof (success_log_length _ _ _ _ _ Hall) as Hlen.
  split; [exact Hrun|]. split; [apply batches_concat|].
  split; [apply batches_sizes|]. split.
  { apply sloc_exec_commands in Hexec. rewrite Hexec, Hlen.
    rewrite <- (length_map (fun chunk => (sloc_command chunk, root))).
    apply firstn_all. }
  split; [|split].
  - intros key Hkey.
    assert (Hs : is_Some (merged_counts resp ∅ !! key)).
    { apply merged_counts_is_Some. by left. }
    destruct Hs as [v Hv]. rewrite Hv. f_equal.
    pose proof (merged_counts_lookup resp ∅ key) as Hsum.
    rewrite Hv, lookup_empty in Hsum. simpl in Hsum. lia.
  - intros key Hkey. apply eq_None_not_Some. intros Hs.
    apply merged_counts_is_Some in Hs as [Hs|Hs]; [done|].
    rewrite lookup_empty in Hs. by destruct Hs.
  - intros Hmany. rewrite Hlen. by apply batches_several.
Qed.

(** C8: [Source.sloc] returns all the statistics or none.  If a call of
    the tool fails because the binary is missing, the argument list is
    too long or the exit status is not zero, the result is [None]
    whatever was counted before; and a dictionary is returned only when
    the tool was called on every chunk and succeeded each time. *)
Theorem C8_sloc_all_or_nothing (files : list string) (root : string)
    (st st' : state W) (r : result (option (gmap string Z)))
    (evs : list invocation) :
  sloc files root st = (r, st') ->
  trace st' = (trace st ++ evs)%list ->
  (forall ev e,
     ev ∈ evs -> inv_result ev = Raise e -> unavailable e = true ->
     r = Ok None)
  /\ (forall loc,
        r = Ok (Some loc) ->
        exists resp,
          all_succeed root (batches batch files) (world st) resp (world st')
          /\ evs = success_log root (batches batch files) resp
          /\ loc = merged_counts resp ∅).
Proof.
  intros Hrun Htrace.
  destruct (sloc_exec_run files root st) as (evs0 & r0 & w2 & Hrun0 & Hexec).
  rewrite Hrun in Hrun0. injection Hrun0 as -> ->.
  cbn [trace] in Htrace. apply app_inv_head in Htrace as <-.
  split.
  - intros ev e. by eapply sloc_exec_unavailable.
  - intros loc ->. by apply sloc_exec_complete.
Qed.

(** C3: when line counts are asked for and a call of the counting tool
    fails because the binary is not found, the argument list is too
    long, or the exit status is not zero, [Source.sloc] returns [None]
    and the construction of the [Source] still succeeds, without
    [lines_of_code]. *)
Theorem C3_unavailable_statistics_do_not_fail (r : option string)
    (fs : option (list string)) (st st' : state W) (res : result Source)
    (evs : list invocation) (ev : invocation) (e : exn) :
  Source_init r fs true st = (res, st') ->
  trace st' = (trace st ++ evs)%list ->
  ev ∈ evs -> inv_result ev = Raise e ->
  e = FileNotFoundError \/ e = OSError 7
    \/ (exists status, e = CalledProcessError status) ->
  exists S,
    res = Ok S
    /\ lines_of_code S = None
    /\ sloc (files S) (root S) st = (Ok None, st')
    /\ validate (Source_dict S) None = Ok (Source_dict S).
Proof.
  intros Hinit Htrace Hev Hres He.
  rewrite Source_init_sloc in Hinit. cbv zeta in Hinit.
  set (R := init_root r) in *.
  set (A := sorted_set _) in *.
  set (F := map (relative R) _) in *.
  destruct (sloc_exec_run F R st) as (evs0 & r0 & w2 & Hrun0 & Hexec).
  rewrite Hrun0 in Hinit.
  assert (Hst : st' = State w2 (trace st ++ evs0)).
  { destruct r0; by injection Hinit. }
  subst st'. cbn [trace] in Htrace. apply app_inv_head in Htrace as <-.
  assert (Hun : unavailable e = true).
  { destruct He as [-> | [-> | [status ->]]]; reflexivity. }
  pose proof (sloc_exec_unavailable _ _ _ _ _ _ _ Hexec ev e Hev Hres Hun) as ->.
  injection Hinit as <-. eexists. split; [reflexivity|].
  cbn [lines_of_code files root]. repeat split; [exact Hrun0|].
  by apply validate_Source_dict.
Qed.

End Sloc_properties.

Lemma C5_witness :
  let chunks := batches batch many_files in
  let resp := [("first", [("total", 120); ("C", 120)]);
               ("later", [("total", 7); ("Python", 7)])] in
  let calls := success_log "/src" chunks resp in
  let loc := merged_counts resp ∅ in
  sloc (E := counting_world) many_files "/src" (State 0%nat [])
  = (Ok (Some loc), State 2%nat ([] ++ calls))
  /\ concat chunks = many_files
  /\ Forall (fun chunk => (0 < List.length chunk <= 100)%nat) chunks
  /\ map (fun ev => (inv_cmd ev, inv_cwd ev)) calls
     = map (fun chunk => (sloc_command chunk, "/src")) chunks
  /\ (forall key,
        (exists d, d ∈ resp.*2 /\ key ∈ d.*1) ->
        loc !! key = Some (total_count key resp.*2))
  /\ (forall key,
        ~ (exists d, d ∈ resp.*2 /\ key ∈ d.*1) -> loc !! key = None)
  /\ ((100 < List.length many_files)%nat -> (2 <= List.length calls)%nat).
Proof.
  apply (C5_sloc_batches_and_sums (E := counting_world) many_files "/src"
           (State 0%nat [])).
  let chunks := eval vm_compute in (batches batch many_files) in
  change (batches batch many_files) with chunks.
  eapply succeed_cons; [reflexivity|reflexivity|].
  eapply succeed_cons; [reflexivity|reflexivity|].
  apply succeed_nil.
Defined.

Lemma C8_witness :
  let ev1 := Invocation (sloc_command (take 100 many_files)) "/src" (Ok "first") in
  let ev2 := Invocation (sloc_command (drop 100 many_files)) "/src"
               (Raise (CalledProcessError 1)) in
  (summary_counts (E := interrupted_world) "first"
   = Ok [("total", 120); ("C", 120)]
   /\ sloc (E := interrupted_world) many_files "/src" (State 0%nat [])
      = (Ok None, State 2%nat [ev1; ev2]))
  /\ (forall ev' e,
        ev' ∈ [ev1; ev2] -> inv_result ev' = Raise e -> unavailable e = true ->
        Ok None = Ok (None : option (gmap string Z)))
  /\ (forall loc,
        Ok None = Ok (Some loc) ->
        exists resp,
          all_succeed (E := interrupted_world) "/src"
            (batches batch many_files) 0%nat resp 2%nat
          /\ [ev1; ev2] = success_log "/src" (batches batch many_files) resp
          /\ loc = merged_counts resp ∅).
Proof.
  intros ev1 ev2.
  split; [split; vm_compute; reflexivity|].
  apply (C8_sloc_all_or_nothing (E := interrupted_world) many_files "/src"
           (State 0%nat []) (State 2%nat [ev1; ev2]) (Ok None) [ev1; ev2]);
    vm_compute; reflexivity.
Defined.

Lemma C3_witness :
  exists S,
    Ok (mkSource "/src" ["/src/a.c"] ["a.c"] None) = Ok S
    /\ lines_of_code S = None
    /\ sloc (E := bare_world) (files S) (root S) (State tt [])
       = (Ok None,
          State tt [Invocation ["sloc"; "-f"; "json"; "a.c"] "/src"
                      (Raise FileNotFoundError)])
    /\ validate (Source_dict S) None = Ok (Source_dict S).
Proof.
  apply (C3_unavailable_statistics_do_not_fail (E := bare_world)
           (Some "/src") (Some ["/src/a.c"]) (State tt [])
           (State tt [Invocation ["sloc"; "-f"; "json"; "a.c"] "/src"
                        (Raise FileNotFoundError)])
           (Ok (mkSource "/src" ["/src/a.c"] ["a.c"] None))
           [Invocation ["sloc"; "-f"; "json"; "a.c"] "/src"
              (Raise FileNotFoundError)]
           (Invocation ["sloc"; "-f"; "json"; "a.c"] "/src"
              (Raise FileNotFoundError))
           FileNotFoundError).
  - vm_compute. reflexivity.
  - reflexivity.
  - apply list_elem_of_singleton. reflexivity.
  - reflexivity.
  - left. reflexivity.
Defined.

(** ** Merging source documents *)

Lemma NoDup_two {A} (l : list A) (x y : A) :
  NoDup l -> x ∈ l -> y ∈ l -> x <> y -> (2 <= List.length l)%nat.
Proof.
  intros Hnd Hx Hy Hne. destruct l as [|a [|b l]]; simpl; [|exfalso|lia].
  - by apply elem_of_nil in Hx.
  - apply list_elem_of_singleton in Hx, Hy. congruence.
Qed.

Lemma list_set_singleton (l : list string) (r : string) :
  l <> [] -> (forall x, x ∈ l -> x = r) -> list_set l = [r].
Proof.
  intros Hne Hall. unfold list_set.
  assert (Hset : (list_to_set l : gset string) = {[ r ]}).
  { apply set_eq. intros x. rewrite elem_of_list_to_set, elem_of_singleton.
    split; [auto|]. intros ->. destruct l as [|y l]; [done|].
    rewrite <- (Hall y); by left. }
  rewrite Hset. apply elements_singleton.
Qed.

Lemma merge_one_root (sources : list source_doc) (r : string) :
  sources <> [] ->
  (forall d, d ∈ sources -> doc_root d = r) ->
  merge sources = Ok (r, list_set (concat (map doc_all_files sources))).
Proof.
  intros Hne Hall. unfold merge.
  rewrite (list_set_singleton (map doc_root sources) r).
  - reflexivity.
  - by destruct sources.
  - intros x (d & -> & Hd)%list_elem_of_fmap. auto.
Qed.

Lemma merge_many_roots (sources : list source_doc) (d1 d2 : source_doc) :
  d1 ∈ sources -> d2 ∈ sources -> doc_root d1 <> doc_root d2 ->
  merge sources = Raise (UserWarning_roots (list_set (map doc_root sources))).
Proof.
  intros H1 H2 Hne. unfold merge.
  assert (Hlen : (2 <= List.length (list_set (map doc_root sources)))%nat).
  { apply (NoDup_two _ (doc_root d1) (doc_root d2)); [apply list_set_NoDup| | |done];
      apply list_set_elem, list_elem_of_fmap; eauto. }
  destruct (Nat.eqb_spec (List.length (list_set (map doc_root sources))) 1);
    [lia|reflexivity].
Qed.

(** C4: for a non-empty collection of loaded source documents, [merge]
    fails with the warning that carries the distinct roots when the
    documents have more than one root; when they all have one root [r],
    [merge] returns [r] with the union, free of duplicates, of the
    [all_files] of every document. *)
Theorem C4_merge_roots (sources : list source_doc) :
  sources <> [] ->
  ((exists d1 d2,
      d1 ∈ sources /\ d2 ∈ sources /\ doc_root d1 <> doc_root d2) ->
   exists roots,
     merge sources = Raise (UserWarning_roots roots)
     /\ NoDup roots
     /\ forall r, r ∈ roots <-> exists d, d ∈ sources /\ doc_root d = r)
  /\ (forall r,
        (forall d, d ∈ sources -> doc_root d = r) ->
        exists files,
          merge sources = Ok (r, files)
          /\ NoDup files
          /\ forall f, f ∈ files <-> exists d, d ∈ sources /\ f ∈ doc_all_files d).
Proof.
  intros Hne. split.
  - intros (d1 & d2 & H1 & H2 & Hdiff).
    exists (list_set (map doc_root sources)).
    split; [exact (merge_many_roots sources d1 d2 H1 H2 Hdiff)|].
    split; [apply list_set_NoDup|].
    intros r. rewrite list_set_elem, list_elem_of_fmap.
    split; intros (d & Hd1 & Hd2); exists d; by split.
  - intros r Hall. exists (list_set (concat (map doc_all_files sources))).
    split; [by apply merge_one_root|]. split; [apply list_set_NoDup|].
    intros f. rewrite list_set_elem, list_elem_of_In, in_concat.
    split.
    + intros (l & Hl & Hf). apply in_map_iff in Hl as (d & <- & Hd).
      exists d. by rewrite !list_elem_of_In.
    + intros (d & Hd & Hf). exists (doc_all_files d).
      rewrite in_map_iff. rewrite !list_elem_of_In in *. eauto.
Qed.

Lemma C4_witness :
  let sources := [mkDoc "/a" ["/a/x.c"]; mkDoc "/b" ["/b/y.c"]] in
  ((exists d1 d2,
      d1 ∈ sources /\ d2 ∈ sources /\ doc_root d1 <> doc_root d2) ->
   exists roots,
     merge sources = Raise (UserWarning_roots roots)
     /\ NoDup roots
     /\ forall r, r ∈ roots <-> exists d, d ∈ sources /\ doc_root d = r)
  /\ (forall r,
        (forall d, d ∈ sources -> doc_root d = r) ->
        exists files,
          merge sources = Ok (r, files)
          /\ NoDup files
          /\ forall f, f ∈ files <-> exists d, d ∈ sources /\ f ∈ doc_all_files d).
Proof.
  apply (C4_merge_roots [mkDoc "/a" ["/a/x.c"]; mkDoc "/b" ["/b/y.c"]]).
  discriminate.
Defined.

(** ** Round trip through the JSON document *)

Lemma strs_of_strs (l : list string) : strs_of (JStr <$> l) = Some l.
Proof.
  induction l as [|x l IH]; [done|].
  rewrite fmap_cons. cbn [strs_of]. by rewrite IH.
Qed.

Lemma doc_of_Source_dict (s : Source) :
  doc_of_json (Source_dict s) = Some (mkDoc (root s) (all_files s)).
Proof.
  unfold doc_of_json, Source_dict. cbn [app assoc String.eqb Ascii.eqb Bool.eqb].
  by rewrite strs_of_strs.
Qed.

Lemma map_id_on {A} (f : A -> A) (l : list A) :
  (forall x, x ∈ l -> f x = x) -> map f l = l.
Proof.
  induction l as [|x l IH]; intros H; simpl; [done|].
  rewrite H by (by left). rewrite IH; [done|]. intros y Hy. apply H. by right.
Qed.

Lemma load_Source_dict {W : Type} {E : Externals W} (S : Source)
    (name : string) (st : state W) (w' : W) :
  lines_of_code S <> Some ∅ ->
  parse_json_file name (world st) = (Ok (JObj [(JSON_TAG, Source_dict S)]), w') ->
  load name st = (Ok (mkDoc (root S) (all_files S)), State w' (trace st)).
Proof.
  intros Hloc Hparse. unfold load, load_tagged, bind. rewrite Hparse.
  unfold subscript, JSON_TAG. cbn [assoc String.eqb Ascii.eqb Bool.eqb].
  unfold lift, validate.
  assert (Ht : truthy (Source_dict S) = true) by (by destruct S as [? ? ? []]).
  rewrite Ht, Source_dict_valid, doc_of_Source_dict by done. reflexivity.
Qed.

Section Round_trip.
Context {W1 : Type} {E1 : Externals W1} {W2 : Type} {E2 : Externals W2}.

(** C6: a [Source] built in one process, written as the tagged JSON
    document and merged back from that single document, possibly in
    another process with another current directory, has the same [root]
    and the same [all_files]. *)
Theorem C6_round_trip (S : Source) (doc : json) (name : string)
    (st : state W2) (w' : W2) :
  PosixPath.isabs (getcwd (Externals := E1)) = true ->
  constructed (E := E1) S ->
  Source_str S = Ok doc ->
  parse_json_file (Externals := E2) name (world st) = (Ok doc, w') ->
  exists S',
    SourceFromJson (E := E2) [name] false st = (Ok S', State w' (trace st))
    /\ root S' = root S
    /\ all_files S' = all_files S.
Proof.
  intros Hcwd (r & fs & flag & st1 & st1' & Hinit)%constructed_by_init
         Hstr Hparse.
  pose proof (Source_init_counted _ _ _ _ _ _ Hinit) as Hloc.
  rewrite Source_str_ok in Hstr by done. injection Hstr as <-.
  apply Source_init_fields in Hinit as (Hroot & Hall & _).
  assert (Hroot' : init_root (E := E2) (Some (root S)) = root S).
  { unfold init_root. destruct (String.eqb_spec (root S) ""); [done|].
    rewrite Hroot in *. unfold init_root in *.
    destruct r as [r0|]; [|done]. destruct (String.eqb r0 ""); [done|].
    apply abspath_of_canonical. by apply abspath_canonical. }
  assert (Hcanon : forall p, p ∈ all_files S -> canonical p).
  { intros p Hp. rewrite Hall, sorted_set_elem in Hp.
    apply (proj1 (list_elem_of_fmap _ _ _)) in Hp as (f & -> & _).
    by apply abspath_canonical. }
  assert (Hfiles : sorted_set (map (srcloct.abspath (getcwd (Externals := E2)))
                                   (list_set (all_files S))) = all_files S).
  { rewrite map_id_on.
    - apply ascending_unique.
      + apply sorted_set_ascending.
      + rewrite Hall. apply sorted_set_ascending.
      + intros x. by rewrite sorted_set_elem, list_set_elem.
    - intros p Hp. rewrite list_set_elem in Hp.
      apply abspath_of_canonical. by apply Hcanon. }
  destruct (Source_init_no_sloc (E := E2) (Some (root S))
              (Some (list_set (all_files S))) (State w' (trace st)))
    as (S' & HS' & _).
  exists S'. split.
  - unfold SourceFromJson. cbn [mapM].
    unfold bind at 1 2. rewrite (load_Source_dict S name st w' Hloc Hparse).
    unfold ret at 1. unfold bind at 1. unfold ret at 1.
    unfold bind at 1. unfold lift at 1.
    rewrite (merge_one_root [mkDoc (root S) (all_files S)] (root S)).
    + cbn [fst snd map concat doc_all_files]. rewrite app_nil_r. exact HS'.
    + done.
    + by intros d ->%list_elem_of_singleton.
  - apply Source_init_fields in HS' as (HR & HA & _).
    split; [by rewrite HR|]. rewrite HA. exact Hfiles.
Qed.

End Round_trip.

Lemma C6_witness :
  let S := mkSource "/src" ["/src/a.c"; "/usr/include/a.h"] ["a.c"] None in
  exists S',
    SourceFromJson (E := archive_world) ["source.json"] false (State tt [])
    = (Ok S', State tt [])
    /\ root S' = root S
    /\ all_files S' = all_files S.
Proof.
  intros S.
  apply (C6_round_trip (E1 := bare_world) (E2 := archive_world) S
           (JObj [(JSON_TAG, Source_dict S)]) "source.json" (State tt []) tt).
  - reflexivity.
  - apply (by_Source (E := bare_world) S (Some "/src")
             (Some ["/usr/include/a.h"; "/src/a.c"]) false
             (State tt []) (State tt [])).
    vm_compute. reflexivity.
  - vm_compute. reflexivity.
  - reflexivity.
Defined.

(** ** Line markers of the preprocessor *)

Section Linemarkers.
Import PyStr.

Lemma append_cons (a : ascii) (x y : string) :
  String a x ++ y = String a (x ++ y).
Proof. reflexivity. Qed.

Lemma append_nil (y : string) : "" ++ y = y.
Proof. reflexivity. Qed.

Lemma occurs_app (c : ascii) (x y : string) :
  occurs c (x ++ y) = occurs c x || occurs c y.
Proof.
  induction x as [|a x IH]; [reflexivity|].
  rewrite append_cons. cbn [occurs]. by rewrite IH, orb_assoc.
Qed.

Lemma occurs_cons (c a : ascii) (s : string) :
  occurs c (String a s) = Ascii.eqb a c || occurs c s.
Proof. reflexivity. Qed.

Lemma greedy_no_quote (s : string) :
  occurs dquote s = false -> greedy_to_quote s = None.
Proof.
  induction s as [|a s IH]; [reflexivity|].
  rewrite occurs_cons. intros [Ha Hs]%orb_false_elim.
  cbn [greedy_to_quote]. rewrite (IH Hs), Ha.
  by destruct (Ascii.eqb a newline).
Qed.

Lemma greedy_None (s : string) :
  occurs newline s = false -> greedy_to_quote s = None ->
  occurs dquote s = false.
Proof.
  induction s as [|a s IH]; [reflexivity|].
  rewrite !occurs_cons. intros [Ha Hs]%orb_false_elim.
  cbn [greedy_to_quote]. rewrite Ha.
  destruct (greedy_to_quote s); [discriminate|].
  destruct (Ascii.eqb a dquote); [discriminate|]. intros _. by apply IH.
Qed.

Lemma greedy_Some (s g : string) :
  occurs newline s = false ->
  greedy_to_quote s = Some g <->
  exists post, s = g ++ String dquote post /\ occurs dquote post = false.
Proof.
  intros Hnl. split.
  - revert g. induction s as [|a s IH]; intros g; [discriminate|].
    rewrite occurs_cons in Hnl. apply orb_false_elim in Hnl as [Ha Hs].
    cbn [greedy_to_quote]. rewrite Ha.
    destruct (greedy_to_quote s) as [g'|] eqn:Hg.
    + intros [= <-]. destruct (IH Hs g' eq_refl) as (post & -> & Hpost).
      by exists post.
    + destruct (Ascii.eqb_spec a dquote) as [->|]; [|discriminate].
      intros [= <-]. exists s. split; [reflexivity|]. by apply greedy_None.
  - intros (post & -> & Hpost). induction g as [|a g IH].
    + rewrite append_nil. cbn [greedy_to_quote].
      rewrite (greedy_no_quote post Hpost). reflexivity.
    + rewrite append_cons in *. rewrite occurs_cons in Hnl.
      apply orb_false_elim in Hnl as [Ha Hs].
      cbn [greedy_to_quote]. by rewrite Ha, (IH Hs).
Qed.

Lemma search_no_quote (s : string) :
  occurs dquote s = false -> search_quoted s = None.
Proof.
  induction s as [|a s IH]; [reflexivity|].
  rewrite occurs_cons. intros [Ha Hs]%orb_false_elim.
  cbn [search_quoted]. rewrite Ha. by apply IH.
Qed.

(** On a line without a newline the match is the text between the
    first and the last double quote. *)
Lemma search_quoted_spec (line name : string) :
  occurs newline line = false ->
  search_quoted line = Some name <-> quoted_in line name.
Proof.
  intros Hnl. split.
  - revert Hnl. induction line as [|a s IH]; intros Hnl; [discriminate|].
    rewrite occurs_cons in Hnl. apply orb_false_elim in Hnl as [Ha Hs].
    cbn [search_quoted].
    destruct (Ascii.eqb_spec a dquote) as [->|Hq].
    + destruct (greedy_to_quote s) as [g|] eqn:Hg.
      * intros [= <-]. apply (greedy_Some s g Hs) in Hg as (post & -> & Hpost).
        exists "", post. by repeat split.
      * rewrite search_no_quote; [discriminate|]. by apply greedy_None.
    + intros H. destruct (IH Hs H) as (pre & post & -> & Hpre & Hpost).
      exists (String a pre), post. repeat split; [|done].
      rewrite occurs_cons, Hpre. by destruct (Ascii.eqb_spec a dquote).
  - intros (pre & post & -> & Hpre & Hpost).
    induction pre as [|a pre IH].
    + rewrite append_nil in *. cbn [search_quoted]. rewrite Ascii.eqb_refl.
      rewrite occurs_cons in Hnl.
      apply orb_false_elim in Hnl as [_ Hs].
      assert (Hg : greedy_to_quote (name ++ String dquote post) = Some name).
      { apply greedy_Some; [done|]. by exists post. }
      by rewrite Hg.
    + rewrite append_cons in *. rewrite occurs_cons in Hnl, Hpre.
      apply orb_false_elim in Hnl as [_ Hs].
      apply orb_false_elim in Hpre as [Ha Hpre].
      cbn [search_quoted]. rewrite Ha. by apply IH.
Qed.

Lemma quoted_names_Ok (lines : list string) :
  (forall line, line ∈ lines -> exists name, search_quoted line = Some name) ->
  exists names,
    quoted_names lines = Ok names
    /\ forall n, n ∈ names <->
                 exists line, line ∈ lines /\ search_quoted line = Some n.
Proof.
  induction lines as [|line lines IH]; intros Hall.
  - exists []. split; [reflexivity|]. intros n. split.
    + by intros ?%elem_of_nil.
    + by intros (? & ?%elem_of_nil & _).
  - destruct (Hall line) as [name Hname]; [by left|].
    destruct IH as (names & Hnames & Hmem).
    { intros l Hl. apply Hall. by right. }
    exists (name :: names). cbn [quoted_names]. rewrite Hname, Hnames.
    split; [reflexivity|]. intros n. rewrite elem_of_cons, Hmem. split.
    + intros [-> | (l & Hl & Hn)].
      * exists line. split; [by left|done].
      * exists l. split; [by right|done].
    + intros (l & [-> | Hl]%elem_of_cons & Hn).
      * left. congruence.
      * right. eauto.
Qed.

Lemma str_in_elem (x : string) (l : list string) :
  str_in x l = true <-> x ∈ l.
Proof.
  unfold str_in. rewrite existsb_exists, list_elem_of_In. split.
  - by intros (y & Hy & ->%String.eqb_eq).
  - intros Hx. exists x. by rewrite String.eqb_refl.
Qed.

Lemma elem_of_map {A B} (f : A -> B) (l : list A) (y : B) :
  y ∈ map f l <-> exists x, y = f x /\ x ∈ l.
Proof. exact (list_elem_of_fmap f l y). Qed.

Lemma elem_of_filter_bool {A} (f : A -> bool) (l : list A) (x : A) :
  x ∈ List.filter f l <-> x ∈ l /\ f x = true.
Proof. by rewrite !list_elem_of_In, filter_In. Qed.

(** C2, as the code has it: when no line holds a newline and every line
    that starts with a hash and a space, once the white space around it
    is stripped, has a quoted part, [extract_source_filenames] returns
    the sorted list without duplicates of the normalized
    [os.path.join(build, name)] for the quoted names [name] of these
    lines whose base name is none of the three names the preprocessor
    makes up. *)
Theorem C2_extract_source_filenames (output : list string) (build : string) :
  (forall line, line ∈ output -> occurs newline line = false) ->
  (forall line,
     line ∈ output -> startswith "# " (strip line) = true ->
     exists name, quoted_in line name) ->
  exists names,
    extract_source_filenames output build = Ok names
    /\ ascending names
    /\ forall p,
         p ∈ names <->
         exists line name,
           line ∈ output
           /\ startswith "# " (strip line) = true
           /\ quoted_in line name
           /\ ~ (PosixPath.basename name ∈ preprocessor_names)
           /\ p = PosixPath.normpath (PosixPath.join build name).
Proof.
  intros Hnl Hquoted. unfold extract_source_filenames.
  destruct (quoted_names_Ok
              (List.filter (fun line => startswith "# " (strip line)) output))
    as (names & -> & Hnames).
  { intros line [Hin Hkept]%elem_of_filter_bool.
    destruct (Hquoted line Hin Hkept) as [name Hname].
    exists name. apply search_quoted_spec; auto. }
  eexists. split; [reflexivity|]. split; [apply sorted_set_ascending|].
  intros p. rewrite sorted_set_elem, elem_of_map. split.
  - intros (q & -> & Hq). apply elem_of_map in Hq as (name & -> & Hname).
    apply elem_of_filter_bool in Hname as [Hname Hok].
    apply Hnames in Hname as (line & [Hin Hkept]%elem_of_filter_bool & Hs).
    exists line, name. repeat split; try done.
    + apply search_quoted_spec; auto.
    + intros Hbad%str_in_elem. by rewrite Hbad in Hok.
  - intros (line & name & Hin & Hkept & Hq & Hbase & ->).
    eexists. split; [reflexivity|]. apply elem_of_map.
    exists name. split; [reflexivity|]. apply elem_of_filter_bool. split.
    + apply Hnames. exists line. split.
      * by apply elem_of_filter_bool.
      * apply search_quoted_spec; auto.
    + destruct (str_in _ _) eqn:Hbad; [|reflexivity].
      by apply str_in_elem in Hbad.
Qed.

End Linemarkers.

(** C2 as the spec words it fails: a line that starts with white space
    does not begin with a hash and a space, and its file is returned all
    the same. *)
Lemma C2_counterexample :
  ~ (forall output build names,
       extract_source_filenames output build = Ok names ->
       forall p,
         p ∈ names ->
         exists line, line ∈ output /\ PyStr.startswith "# " line = true).
Proof.
  intros H.
  destruct (H [("  # 1 " ++ quote "/src/foo.c" ++ " 1")%string] "/build"
              ["/src/foo.c"] eq_refl "/src/foo.c") as (line & Hin & Hstart).
  - by left.
  - apply list_elem_of_singleton in Hin as ->. discriminate.
Qed.

Lemma C2_witness :
  let output := [("# 1 " ++ quote "/src/foo.c" ++ " 1")%string;
                 ("# 1 " ++ quote "<built-in>" ++ " 3")%string;
                 "#define X 1"; "int x;"] in
  exists names,
    extract_source_filenames output "/build" = Ok names
    /\ ascending names
    /\ forall p,
         p ∈ names <->
         exists line name,
           line ∈ output
           /\ PyStr.startswith "# " (PyStr.strip line) = true
           /\ quoted_in line name
           /\ ~ (PosixPath.basename name ∈ preprocessor_names)
           /\ p = PosixPath.normpath (PosixPath.join "/build" name).
Proof.
  intros output.
  apply (C2_extract_source_filenames output "/build").
  - intros line Hin. repeat (apply elem_of_cons in Hin as [-> | Hin]; [reflexivity|]).
    by apply elem_of_nil in Hin.
  - intros line Hin Hkept.
    apply elem_of_cons in Hin as [-> | Hin].
    { exists "/src/foo.c", "# 1 ", " 1". repeat split. }
    apply elem_of_cons in Hin as [-> | Hin].
    { exists "<built-in>", "# 1 ", " 3". repeat split. }
    apply elem_of_cons in Hin as [-> | Hin]; [discriminate|].
    apply elem_of_cons in Hin as [-> | Hin]; [discriminate|].
    by apply elem_of_nil in Hin.
Defined.

(** * Further properties of the program *)

(** ** Strings and relative paths *)

Lemma startswith_app (a b : string) : PyStr.startswith a (a ++ b) = true.
Proof.
  induction a as [|c a IH]; [reflexivity|].
  rewrite append_cons, startswith_cons, Ascii.eqb_refl. exact IH.
Qed.

Lemma slice_from_app (a b : string) :
  PyStr.slice_from (String.length a) (a ++ b) = b.
Proof. induction a as [|c a IH]; [reflexivity|]. exact IH. Qed.

Lemma append_assoc (a b c : string) : (a ++ b) ++ c = a ++ (b ++ c).
Proof.
  induction a as [|x a IH]; [reflexivity|].
  rewrite !append_cons. by rewrite IH.
Qed.

Lemma length_append (a b : string) :
  String.length (a ++ b) = (String.length a + String.length b)%nat.
Proof. induction a as [|x a IH]; [reflexivity|]. simpl. by rewrite IH. Qed.

(** [normpath] leaves a relative, normalized path as it is. *)
Lemma relative_normal_normpath (rel : string) :
  relative_normal rel -> PosixPath.normpath rel = rel.
Proof.
  intros (comps & Hne & Hall & ->).
  pose proof (join_plain_head comps Hall) as Hhead.
  destruct (split_join_plain comps Hall) as [Hfilter Hclean].
  assert (Hnz : String.eqb (PyStr.join "/" comps) "" = false).
  { destruct comps as [|x xs]; [done|].
    apply Forall_cons in Hall as [(Hx & _) _].
    destruct x as [|a x]; [done|].
    destruct (join_head a x xs) as [rest ->]. reflexivity. }
  unfold PosixPath.normpath, PosixPath.initial_slashes.
  rewrite Hnz, Hhead, normpath_fold_clean by done.
  rewrite Hfilter. cbn [app PosixPath.repeat_slash].
  rewrite append_nil, Hnz. reflexivity.
Qed.

(** ** The base constructor, further *)

Section Source_further.
Context {W : Type} {E : Externals W}.

(** [Source.__init__] when no line counts are asked for. *)
Lemma Source_init_plain (r : option string) (fs : option (list string))
    (st : state W) :
  let R := init_root r in
  let A := sorted_set (map (srcloct.abspath getcwd) (default [] fs)) in
  Source_init r fs false st
  = (Ok (mkSource R A (map (relative R) (List.filter (PyStr.startswith R) A))
                  None), st).
Proof.
  destruct (Source_init_no_sloc r fs st) as (S & HS & Hloc).
  rewrite HS. cbv zeta. do 2 f_equal.
  apply Source_init_fields in HS as (Hroot & Hall & Hfiles).
  destruct S as [r0 a f l]. simpl in *. subst. reflexivity.
Qed.

(** X1: when the current directory is absolute, the root of every
    [Source] object is empty or an absolute, normalized path, and every
    member of [all_files] is an absolute, normalized path. *)
Theorem X1_root_and_all_files_canonical (S : Source) :
  PosixPath.isabs getcwd = true ->
  constructed S ->
  (root S = "" \/ canonical (root S))
  /\ Forall canonical (all_files S).
Proof.
  intros Hcwd (r & fs & flag & st & st' & H)%constructed_by_init.
  apply Source_init_fields in H as (Hroot & Hall & _). split.
  - rewrite Hroot. unfold init_root. destruct r as [r|]; [|by left].
    destruct (String.eqb r ""); [by left|]. right. by apply abspath_canonical.
  - apply Forall_forall. intros p Hp.
    rewrite Hall, sorted_set_elem in Hp.
    apply elem_of_map in Hp as (f & -> & _). by apply abspath_canonical.
Qed.

Lemma Source_init_lists_member (r : option string) (fs : option (list string))
    (flag : bool) (st st' : state W) (S : Source) (rel : string) :
  Source_init r fs flag st = (Ok S, st') ->
  relative_normal rel ->
  (root S ++ "/" ++ rel) ∈ all_files S ->
  rel ∈ files S.
Proof.
  intros H Hrel Hin.
  apply Source_init_fields in H as (_ & _ & Hfiles).
  rewrite Hfiles. apply elem_of_map. exists (root S ++ "/" ++ rel). split.
  - rewrite <- (relative_normal_normpath rel Hrel) at 1.
    unfold srcloct.normpath. f_equal.
    rewrite <- append_assoc.
    replace (String.length (root S) + 1)%nat
      with (String.length (root S ++ "/")).
    + by rewrite slice_from_app.
    + rewrite length_append. reflexivity.
  - apply elem_of_filter_bool. split; [done|]. apply startswith_app.
Qed.

(** X2: [files] holds the relative path of every member of [all_files]
    that is the root, a separator and a relative, normalized path. *)
Theorem X2_files_under_root_are_listed (S : Source) (rel : string) :
  constructed S ->
  relative_normal rel ->
  (root S ++ "/" ++ rel) ∈ all_files S ->
  rel ∈ files S.
Proof.
  intros (r & fs & flag & st & st' & H)%constructed_by_init Hrel Hin.
  by eapply Source_init_lists_member.
Qed.

(** X3: when no member of [all_files] starts with the root, asking for
    line counts changes nothing: the counting tool is not run and the
    object has no [lines_of_code]. *)
Theorem X3_no_file_under_root_no_count (r : option string)
    (fs : option (list string)) (st : state W) :
  (forall p,
     p ∈ sorted_set (map (srcloct.abspath getcwd) (default [] fs)) ->
     PyStr.startswith (init_root r) p = false) ->
  Source_init r fs true st = Source_init r fs false st
  /\ exists S, Source_init r fs true st = (Ok S, st) /\ files S = []
               /\ lines_of_code S = None.
Proof.
  intros Hnone.
  assert (Hfilter :
    List.filter (PyStr.startswith (init_root r))
      (sorted_set (map (srcloct.abspath getcwd) (default [] fs))) = []).
  { induction (sorted_set _) as [|p l IH]; [reflexivity|].
    cbn [List.filter]. rewrite Hnone by (by left).
    apply IH. intros q Hq. apply Hnone. by right. }
  rewrite Source_init_sloc, Source_init_plain. cbv zeta. rewrite Hfilter.
  cbn [map]. unfold sloc. cbn [List.length sloc_loop]. unfold ret.
  destruct (decide ((∅ : gmap string Z) = ∅)); [|done].
  split; [reflexivity|]. eexists. repeat split.
Qed.

Lemma sloc_exec_silent (R : string) (loc : gmap string Z)
    (sources : list string) (w w' : W) (evs : list invocation)
    (r0 : result (option (gmap string Z))) :
  sloc_exec R loc sources w evs r0 w' ->
  (forall ev,
     ev ∈ evs ->
     exists out, inv_result ev = Ok out /\ summary_counts out = Ok []) ->
  r0 = Ok (Some loc).
Proof.
  induction 1 as [| | | loc sources w out e w' _ _ Hsum |
                  loc sources w out d w' evs r0 w'' _ _ Hsum _ IH];
    intros Hall.
  - reflexivity.
  - destruct (Hall _ ltac:(by left)) as (out & Hout & _). discriminate.
  - destruct (Hall _ ltac:(by left)) as (out & Hout & _). discriminate.
  - destruct (Hall _ ltac:(by left)) as (out' & [= <-] & Hout). congruence.
  - destruct (Hall _ ltac:(by left)) as (out' & [= <-] & Hout).
    rewrite Hout in Hsum. injection Hsum as <-.
    apply IH. intros ev Hev. apply Hall. by right.
Qed.

(** X4: when line counts are asked for and every run of the counting
    tool prints a summary without members, [Source.sloc] returns the
    empty dictionary, not [None]; the constructor then sets no
    [lines_of_code], and the object passes validation, which the same
    object with the empty dictionary as [lines_of_code] would not. *)
Theorem X4_empty_counts_are_not_kept (r : option string)
    (fs : option (list string)) (st st' : state W) (res : result Source)
    (evs : list invocation) :
  Source_init r fs true st = (res, st') ->
  trace st' = (trace st ++ evs)%list ->
  (forall ev,
     ev ∈ evs ->
     exists out, inv_result ev = Ok out /\ summary_counts out = Ok []) ->
  exists S,
    res = Ok S
    /\ sloc (files S) (root S) st = (Ok (Some ∅), st')
    /\ lines_of_code S = None
    /\ validate (Source_dict S) None = Ok (Source_dict S)
    /\ validate
         (Source_dict (mkSource (root S) (all_files S) (files S) (Some ∅))) None
       = Raise Invalid.
Proof.
  intros Hinit Htrace Hall.
  rewrite Source_init_sloc in Hinit. cbv zeta in Hinit.
  set (R := init_root r) in *.
  set (A := sorted_set _) in *.
  set (F := map (relative R) _) in *.
  destruct (sloc_exec_run F R st) as (evs0 & r0 & w2 & Hrun0 & Hexec).
  rewrite Hrun0 in Hinit.
  assert (Hst : st' = State w2 (trace st ++ evs0)).
  { destruct r0; by injection Hinit. }
  subst st'. cbn [trace] in Htrace. apply app_inv_head in Htrace as <-.
  pose proof (sloc_exec_silent _ _ _ _ _ _ _ Hexec Hall) as ->.
  injection Hinit as <-.
  destruct (decide ((∅ : gmap string Z) = ∅)); [|done].
  eexists. split; [reflexivity|].
  cbn [lines_of_code files root all_files].
  split; [exact Hrun0|]. split; [reflexivity|].
  split; [by apply validate_Source_dict|by apply validate_empty_counts].
Qed.

End Source_further.

Lemma X1_witness :
  let S := mkSource "/src" ["/src/a.c"; "/src/b.c"; "/usr/include/a.h"]
                    ["a.c"; "b.c"] None in
  (root S = "" \/ canonical (root S)) /\ Forall canonical (all_files S).
Proof.
  intros S. apply (X1_root_and_all_files_canonical (E := bare_world) S).
  - reflexivity.
  - apply (by_make_source (E := bare_world) S [] (Some "app.goto") (Some GOTO)
             (Some "/src") (Some "/build") None None (State tt []) (State tt [])).
    vm_compute. reflexivity.
Defined.

Lemma X2_witness :
  let S := mkSource "/src" ["/src/a.c"; "/src/b.c"; "/usr/include/a.h"]
                    ["a.c"; "b.c"] None in
  "b.c" ∈ files S.
Proof.
  intros S. apply (X2_files_under_root_are_listed (E := bare_world) S "b.c").
  - apply (by_make_source (E := bare_world) S [] (Some "app.goto") (Some GOTO)
             (Some "/src") (Some "/build") None None (State tt []) (State tt [])).
    vm_compute. reflexivity.
  - exists ["b.c"]. split; [discriminate|]. split; [|reflexivity].
    constructor; [|constructor]. repeat split; discriminate.
  - vm_compute. apply elem_of_cons. right. apply elem_of_cons. by left.
Defined.

Lemma X3_witness :
  Source_init (E := bare_world) (Some "/src") (Some ["/usr/include/a.h"]) true
    (State tt [])
  = Source_init (E := bare_world) (Some "/src") (Some ["/usr/include/a.h"]) false
      (State tt [])
  /\ exists S,
       Source_init (E := bare_world) (Some "/src") (Some ["/usr/include/a.h"])
         true (State tt []) = (Ok S, State tt [])
       /\ files S = [] /\ lines_of_code S = None.
Proof.
  apply (X3_no_file_under_root_no_count (E := bare_world)).
  intros p Hp. rewrite sorted_set_elem in Hp.
  apply elem_of_map in Hp as (f & -> & Hf).
  apply list_elem_of_singleton in Hf as ->. reflexivity.
Defined.

Lemma X4_witness :
  let ev := Invocation ["sloc"; "-f"; "json"; "a.c"] "/src" (Ok "nothing") in
  exists S,
    Ok (mkSource "/src" ["/src/a.c"] ["a.c"] None) = Ok S
    /\ sloc (E := silent_world) (files S) (root S) (State tt [])
       = (Ok (Some ∅), State tt [ev])
    /\ lines_of_code S = None
    /\ validate (Source_dict S) None = Ok (Source_dict S)
    /\ validate
         (Source_dict (mkSource (root S) (all_files S) (files S) (Some ∅))) None
       = Raise Invalid.
Proof.
  intros ev.
  apply (X4_empty_counts_are_not_kept (E := silent_world) (Some "/src")
           (Some ["/src/a.c"]) (State tt []) (State tt [ev])
           (Ok (mkSource "/src" ["/src/a.c"] ["a.c"] None)) [ev]).
  - vm_compute. reflexivity.
  - reflexivity.
  - intros ev' ->%list_elem_of_singleton. exists "nothing".
    split; reflexivity.
Defined.

(** ** Line counts, further *)

Section Sloc_further.
Context {W : Type} {E : Externals W}.

Lemma sloc_exec_raises (root : string) (loc : gmap string Z)
    (sources : list string) (w w' : W) (evs : list invocation)
    (r : result (option (gmap string Z))) :
  sloc_exec root loc sources w evs r w' ->
  forall ev ex,
    ev ∈ evs -> inv_result ev = Raise ex -> unavailable ex = false ->
    r = Raise ex.
Proof.
  induction 1 as [| loc sources w e0 w' _ _ Hun | | |
                  loc sources w out d w' evs r w'' _ _ _ _ IH];
    intros ev ex Hin Hres Hbad.
  - by apply elem_of_nil in Hin.
  - apply list_elem_of_singleton in Hin as ->. simpl in Hres.
    injection Hres as ->. congruence.
  - apply list_elem_of_singleton in Hin as ->. simpl in Hres.
    by injection Hres as ->.
  - apply list_elem_of_singleton in Hin as ->. discriminate.
  - apply elem_of_cons in Hin as [->|Hin]; [discriminate|]. eauto.
Qed.

Lemma sloc_exec_garbled (root : string) (loc : gmap string Z)
    (sources : list string) (w w' : W) (evs : list invocation)
    (r : result (option (gmap string Z))) :
  sloc_exec root loc sources w evs r w' ->
  forall ev out ex,
    ev ∈ evs -> inv_result ev = Ok out -> summary_counts out = Raise ex ->
    r = Raise ex.
Proof.
  induction 1 as [| | | loc sources w out0 e0 w' _ _ Hsum |
                  loc sources w out0 d w' evs r w'' _ _ Hsum _ IH];
    intros ev out ex Hin Hres Hbad.
  - by apply elem_of_nil in Hin.
  - apply list_elem_of_singleton in Hin as ->. discriminate.
  - apply list_elem_of_singleton in Hin as ->. discriminate.
  - apply list_elem_of_singleton in Hin as ->. simpl in Hres.
    injection Hres as ->. congruence.
  - apply elem_of_cons in Hin as [->|Hin]; [|eauto].
    simpl in Hres. injection Hres as ->. congruence.
Qed.

(** X5: a failure of the counting tool other than the three that mean
    "no statistics" (for instance an [OSError] whose [errno] is not 7) is
    not absorbed: [Source.sloc] raises it, and so does the construction of
    a [Source] that asked for line counts. *)
Theorem X5_other_failures_propagate (r : option string)
    (fs : option (list string)) (st st' : state W) (res : result Source)
    (evs : list invocation) (ev : invocation) (e : exn) :
  Source_init r fs true st = (res, st') ->
  trace st' = (trace st ++ evs)%list ->
  ev ∈ evs -> inv_result ev = Raise e -> unavailable e = false ->
  res = Raise e
  /\ exists F R, sloc F R st = (Raise e, st').
Proof.
  intros Hinit Htrace Hev Hres Hun.
  rewrite Source_init_sloc in Hinit. cbv zeta in Hinit.
  set (R := init_root r) in *.
  set (A := sorted_set _) in *.
  set (F := map (relative R) _) in *.
  destruct (sloc_exec_run F R st) as (evs0 & r0 & w2 & Hrun0 & Hexec).
  rewrite Hrun0 in Hinit.
  assert (Hst : st' = State w2 (trace st ++ evs0)).
  { destruct r0; by injection Hinit. }
  subst st'. cbn [trace] in Htrace. apply app_inv_head in Htrace as <-.
  pose proof (sloc_exec_raises _ _ _ _ _ _ _ Hexec ev e Hev Hres Hun) as ->.
  injection Hinit as <-. split; [reflexivity|]. by exists F, R.
Qed.

(** X6: an output of the counting tool that does not decode to a summary
    of integers ([json.loads] raises, the key [summary] is missing, the
    summary is no dictionary, a value is no integer) makes [Source.sloc]
    raise the exception of the decoding: the result is neither [None] nor
    the counts of the chunks before. *)
Theorem X6_undecodable_output_raises (files : list string) (root : string)
    (st st' : state W) (r : result (option (gmap string Z)))
    (evs : list invocation) (ev : invocation) (out : string) (e : exn) :
  sloc files root st = (r, st') ->
  trace st' = (trace st ++ evs)%list ->
  ev ∈ evs -> inv_result ev = Ok out -> summary_counts out = Raise e ->
  r = Raise e.
Proof.
  intros Hrun Htrace Hev Hres Hbad.
  destruct (sloc_exec_run files root st) as (evs0 & r0 & w2 & Hrun0 & Hexec).
  rewrite Hrun in Hrun0. injection Hrun0 as -> ->.
  cbn [trace] in Htrace. apply app_inv_head in Htrace as <-.
  by eapply sloc_exec_garbled.
Qed.

(** X7: whatever happens, [Source.sloc] calls the tool only on the
    successive chunks of the file list, in order, each time with [root] as
    working directory, and never more often than there are chunks. *)
Theorem X7_sloc_calls_are_chunk_commands (files : list string) (root : string)
    (st st' : state W) (r : result (option (gmap string Z)))
    (evs : list invocation) :
  sloc files root st = (r, st') ->
  trace st' = (trace st ++ evs)%list ->
  commands_of evs
  = take (List.length evs)
      (map (fun chunk => (sloc_command chunk, root)) (batches batch files))
  /\ (List.length evs <= (List.length files + 99) / 100)%nat.
Proof.
  intros Hrun Htrace.
  destruct (sloc_exec_run files root st) as (evs0 & r0 & w2 & Hrun0 & Hexec).
  rewrite Hrun in Hrun0. injection Hrun0 as -> ->.
  cbn [trace] in Htrace. apply app_inv_head in Htrace as <-.
  pose proof (sloc_exec_commands _ _ _ _ _ _ _ Hexec) as Hcmd.
  split; [exact Hcmd|].
  apply (f_equal (@List.length _)) in Hcmd.
  rewrite length_map, length_take, length_map, batches_length in Hcmd.
  unfold batch in Hcmd.
  replace (List.length files + 99)%nat with (List.length files + 100 - 1)%nat
    by lia.
  lia.
Qed.

End Sloc_further.

Lemma X5_witness :
  let ev := Invocation ["sloc"; "-f"; "json"; "a.c"] "/src" (Raise (OSError 13)) in
  (Raise (OSError 13) : result Source) = Raise (OSError 13)
  /\ exists F R,
       sloc (E := locked_world) F R (State tt [])
       = (Raise (OSError 13), State tt [ev]).
Proof.
  intros ev.
  apply (X5_other_failures_propagate (E := locked_world)
           (Some "/src") (Some ["/src/a.c"]) (State tt []) (State tt [ev])
           (Raise (OSError 13)) [ev] ev (OSError 13)).
  - vm_compute. reflexivity.
  - reflexivity.
  - apply list_elem_of_singleton. reflexivity.
  - reflexivity.
  - reflexivity.
Defined.

Lemma X6_witness :
  (Raise (KeyError "summary") : result (option (gmap string Z)))
  = Raise (KeyError "summary").
Proof.
  apply (X6_undecodable_output_raises (E := garbled_world) ["a.c"] "/src"
           (State tt [])
           (State tt [Invocation ["sloc"; "-f"; "json"; "a.c"] "/src" (Ok "{}")])
           (Raise (KeyError "summary"))
           [Invocation ["sloc"; "-f"; "json"; "a.c"] "/src" (Ok "{}")]
           (Invocation ["sloc"; "-f"; "json"; "a.c"] "/src" (Ok "{}"))
           "{}" (KeyError "summary")).
  - vm_compute. reflexivity.
  - reflexivity.
  - apply list_elem_of_singleton. reflexivity.
  - reflexivity.
  - reflexivity.
Defined.

Lemma X7_witness :
  let ev := Invocation ["sloc"; "-f"; "json"; "a.c"] "/src"
              (Raise FileNotFoundError) in
  commands_of [ev]
  = take (List.length [ev])
      (map (fun chunk => (sloc_command chunk, "/src")) (batches batch ["a.c"]))
  /\ (List.length [ev] <= (List.length ["a.c"] + 99) / 100)%nat.
Proof.
  intros ev.
  apply (X7_sloc_calls_are_chunk_commands (E := bare_world) ["a.c"] "/src"
           (State tt []) (State tt [ev]) (Ok None) [ev]); reflexivity.
Defined.

(** ** Validation and loading of source documents *)

Lemma assoc_elem (key : string) (ms : list (string * json)) (v : json) :
  assoc key ms = Some v -> (key, v) ∈ ms.
Proof.
  induction ms as [|[k x] ms IH]; [discriminate|].
  cbn [assoc]. destruct (String.eqb_spec k key) as [->|Hne].
  - intros [= ->]. by left.
  - intros H. right. auto.
Qed.

Lemma strs_of_is_Some (l : list json) :
  forallb is_str l = true -> exists fs, strs_of l = Some fs.
Proof.
  induction l as [|j l IH]; [by exists []|].
  cbn [forallb]. intros [Hj Hl]%andb_prop.
  destruct (IH Hl) as [fs Hfs]. destruct j; try discriminate.
  cbn [strs_of]. rewrite Hfs. eauto.
Qed.

(** A document that passes [VALID_SOURCE] has a root that is a string and
    a list [all_files] of strings. *)
Lemma valid_doc_of_json (j : json) :
  VALID_SOURCE j = true -> exists d, doc_of_json j = Some d.
Proof.
  destruct j as [| | | | |ms]; try discriminate.
  cbn [VALID_SOURCE]. intros [[[Hall Hroot]%andb_prop _]%andb_prop Hfiles]%andb_prop.
  unfold has_key in *. rewrite forallb_forall in Hall.
  destruct (assoc "root" ms) as [vr|] eqn:Hr; [|discriminate].
  destruct (assoc "all_files" ms) as [va|] eqn:Ha; [|discriminate].
  pose proof (Hall _ (proj1 (list_elem_of_In _ _) (assoc_elem _ _ _ Hr))) as Hvr.
  pose proof (Hall _ (proj1 (list_elem_of_In _ _) (assoc_elem _ _ _ Ha))) as Hva.
  cbn in Hvr, Hva.
  destruct vr; try discriminate. destruct va as [| | | |l|]; try discriminate.
  cbn [is_list_of_str] in Hva. destruct (strs_of_is_Some l Hva) as [fs Hfs].
  unfold doc_of_json. rewrite Hr, Ha, Hfs. eauto.
Qed.

Section Loading.
Context {W : Type} {E : Externals W}.

(** X8: [validate] does not check a document that is false as a Python
    value (an empty dictionary or list, an empty string, zero, [None]):
    it checks the dictionary of the object instead.  On a constructed
    object the call succeeds; in [load], where the object has no attribute
    yet, it raises the validation error. *)
Theorem X8_validate_falsy_document (S : Source) (j : json) :
  constructed S ->
  truthy j = false ->
  validate (Source_dict S) (Some j) = Ok (Source_dict S)
  /\ validate (JObj []) (Some j) = Raise Invalid.
Proof.
  intros (r & fs & flag & st & st' & H)%constructed_by_init Hj.
  unfold validate. rewrite Hj.
  by rewrite Source_dict_valid by (by eapply Source_init_counted).
Qed.

(** X9: [load] never lets a [TypeError] through: a [TypeError] of the
    parser or of the subscript becomes a [UserWarning], and a document
    that passes validation always has a string for root and a list of
    strings for [all_files]. *)
Theorem X9_load_never_raises_TypeError (source_json : string) (st : state W) :
  fst (load source_json st) <> Raise TypeError.
Proof.
  unfold load, load_tagged, bind.
  destruct (parse_json_file source_json (world st)) as [[parsed|e] w'].
  - destruct (subscript parsed JSON_TAG) as [source|e] eqn:Hsub.
    + unfold lift, validate.
      destruct (truthy source).
      * destruct (VALID_SOURCE source) eqn:Hvalid; [|discriminate].
        destruct (valid_doc_of_json source Hvalid) as [d ->]. discriminate.
      * cbn. discriminate.
    + destruct e; discriminate.
  - destruct e; discriminate.
Qed.

(** X10: what [load] raises on a file that parses but is no source
    document.  If the parsed value is no dictionary, the [TypeError] of
    the subscript is turned into the warning "Failed to load sources
    from" followed by the file name; if it is a dictionary without the
    key [viewer-source], the [KeyError] of the subscript is not caught
    and leaves [load] as it is. *)
Theorem X10_load_untagged_document (source_json : string) (st : state W)
    (parsed : json) (w' : W) :
  parse_json_file source_json (world st) = (Ok parsed, w') ->
  ((forall ms, parsed <> JObj ms) ->
   load source_json st
   = (Raise (UserWarning ("Failed to load sources from " ++ source_json)),
      State w' (trace st)))
  /\ (forall ms,
        parsed = JObj ms -> assoc JSON_TAG ms = None ->
        load source_json st = (Raise (KeyError JSON_TAG), State w' (trace st))).
Proof.
  intros Hparse. unfold load, load_tagged, bind. rewrite Hparse. split.
  - intros Hno. destruct parsed; try reflexivity. by destruct (Hno members).
  - intros ms -> Hms. cbn [subscript]. by rewrite Hms.
Qed.

(** X11: a [Source] that [SourceFromJson] returns comes from documents
    that all loaded, each one passing validation, and that all have one
    and the same root: the root of the [Source] is that root made
    absolute, and its [all_files] has exactly the absolute paths of the
    files of all the documents. *)
Theorem X11_SourceFromJson_union (source_jsons : list string) (flag : bool)
    (st st' : state W) (S : Source) :
  SourceFromJson source_jsons flag st = (Ok S, st') ->
  exists docs st1 R,
    mapM load source_jsons st = (Ok docs, st1)
    /\ docs <> []
    /\ (forall d, d ∈ docs -> doc_root d = R)
    /\ root S = init_root (Some R)
    /\ (forall p,
          p ∈ all_files S <->
          exists d f,
            d ∈ docs /\ f ∈ doc_all_files d
            /\ p = srcloct.abspath getcwd f).
Proof.
  unfold SourceFromJson. destruct source_jsons as [|j js]; [discriminate|].
  intros (docs & st1 & Hload & H)%bind_Ok.
  apply bind_Ok in H as ([r fs] & st2 & Hmerge & Hinit).
  unfold lift in Hmerge. injection Hmerge as Hmerge <-.
  exists docs, st1, r. split; [exact Hload|].
  unfold merge in Hmerge.
  destruct (Nat.eqb_spec (List.length (list_set (map doc_root docs))) 1)
    as [Hone|]; [|discriminate].
  cbn [negb] in Hmerge. injection Hmerge as Hr Hfs.
  apply Source_init_fields in Hinit as (Hroot & Hall & _).
  cbn [fst snd] in Hroot, Hall.
  change (default [] (Some fs)) with fs in Hall.
  split; [|split; [|split; [exact Hroot|]]].
  - intros ->. discriminate.
  - intros d Hd.
    assert (Hin : doc_root d ∈ list_set (map doc_root docs)).
    { apply list_set_elem, elem_of_map. eauto. }
    destruct (list_set (map doc_root docs)) as [|x [|y l]]; try discriminate.
    cbn [nth] in Hr. apply list_elem_of_singleton in Hin. congruence.
  - intros p. rewrite Hall, sorted_set_elem, elem_of_map. subst fs. split.
    + intros (f & -> & Hf). rewrite list_set_elem, list_elem_of_In, in_concat in Hf.
      destruct Hf as (l & Hl & Hf). apply in_map_iff in Hl as (d & <- & Hd).
      exists d, f. by rewrite !list_elem_of_In.
    + intros (d & f & Hd & Hf & ->). exists f. split; [reflexivity|].
      rewrite list_set_elem, list_elem_of_In, in_concat.
      exists (doc_all_files d). rewrite in_map_iff, <- !list_elem_of_In.
      split; [|exact Hf]. exists d.
      split; [reflexivity|by apply list_elem_of_In].
Qed.

End Loading.

(** X12: [merge] looks at its documents as a set: their order and
    repetitions change neither the outcome, nor the root, nor the members
    of the list of files or of the list of roots of the warning. *)
Theorem X12_merge_order_irrelevant (s1 s2 : list source_doc) :
  (forall d, d ∈ s1 <-> d ∈ s2) ->
  (forall r f1,
     merge s1 = Ok (r, f1) ->
     exists f2, merge s2 = Ok (r, f2) /\ forall x, x ∈ f1 <-> x ∈ f2)
  /\ (forall e,
        merge s1 = Raise e ->
        exists roots1 roots2,
          e = UserWarning_roots roots1
          /\ merge s2 = Raise (UserWarning_roots roots2)
          /\ forall x, x ∈ roots1 <-> x ∈ roots2).
Proof.
  intros Hsame.
  assert (Hroots : list_set (map doc_root s1) = list_set (map doc_root s2)).
  { unfold list_set. f_equal. apply set_eq. intros x.
    rewrite !elem_of_list_to_set.
    change (x ∈ map doc_root s1 <-> x ∈ map doc_root s2).
    rewrite !elem_of_map. split; intros (d & -> & Hd); exists d;
      (split; [reflexivity|]); by apply Hsame. }
  assert (Hfiles : list_set (concat (map doc_all_files s1))
                   = list_set (concat (map doc_all_files s2))).
  { unfold list_set. f_equal. apply set_eq. intros x.
    rewrite !elem_of_list_to_set, !list_elem_of_In, !in_concat.
    split; intros (l & Hl & Hx); exists l; (split; [|done]);
      apply in_map_iff in Hl as (d & <- & Hd); apply in_map_iff; exists d;
      (split; [reflexivity|]); rewrite <- list_elem_of_In in *; by apply Hsame. }
  unfold merge. rewrite Hroots, Hfiles.
  destruct (negb _); split.
  - discriminate.
  - intros e [= <-]. eauto.
  - intros r f1 [= <- <-]. eauto.
  - discriminate.
Qed.

Lemma X8_witness :
  let S := mkSource "/src" ["/src/a.c"; "/src/b.c"; "/usr/include/a.h"]
                    ["a.c"; "b.c"] None in
  validate (Source_dict S) (Some (JObj [])) = Ok (Source_dict S)
  /\ validate (JObj []) (Some (JObj [])) = Raise Invalid.
Proof.
  intros S. apply (X8_validate_falsy_document (E := bare_world) S (JObj [])).
  - apply (by_make_source (E := bare_world) S [] (Some "app.goto") (Some GOTO)
             (Some "/src") (Some "/build") None None (State tt []) (State tt [])).
    vm_compute. reflexivity.
  - reflexivity.
Defined.

Lemma X10_witness :
  ((forall ms, JNull <> JObj ms) ->
   load (E := null_world) "source.json" (State tt [])
   = (Raise (UserWarning ("Failed to load sources from " ++ "source.json")),
      State tt []))
  /\ (forall ms,
        JNull = JObj ms -> assoc JSON_TAG ms = None ->
        load (E := null_world) "source.json" (State tt [])
        = (Raise (KeyError JSON_TAG), State tt [])).
Proof.
  apply (X10_load_untagged_document (E := null_world) "source.json"
           (State tt []) JNull tt).
  reflexivity.
Defined.

Lemma X11_witness :
  let S := mkSource "/src" ["/src/a.c"; "/usr/include/a.h"] ["a.c"] None in
  exists docs st1 R,
    mapM (load (E := archive_world)) ["source.json"] (State tt [])
    = (Ok docs, st1)
    /\ docs <> []
    /\ (forall d, d ∈ docs -> doc_root d = R)
    /\ root S = init_root (E := archive_world) (Some R)
    /\ (forall p,
          p ∈ all_files S <->
          exists d f,
            d ∈ docs /\ f ∈ doc_all_files d
            /\ p = srcloct.abspath (getcwd (Externals := archive_world)) f).
Proof.
  intros S.
  apply (X11_SourceFromJson_union (E := archive_world) ["source.json"] false
           (State tt []) (State tt []) S).
  vm_compute. reflexivity.
Defined.

Lemma X12_witness :
  let s1 := [mkDoc "/a" ["/a/x.c"]; mkDoc "/a" ["/a/y.c"]] in
  let s2 := [mkDoc "/a" ["/a/y.c"]; mkDoc "/a" ["/a/x.c"]; mkDoc "/a" ["/a/y.c"]] in
  (forall r f1,
     merge s1 = Ok (r, f1) ->
     exists f2, merge s2 = Ok (r, f2) /\ forall x, x ∈ f1 <-> x ∈ f2)
  /\ (forall e,
        merge s1 = Raise e ->
        exists roots1 roots2,
          e = UserWarning_roots roots1
          /\ merge s2 = Raise (UserWarning_roots roots2)
          /\ forall x, x ∈ roots1 <-> x ∈ roots2).
Proof.
  intros s1 s2. apply (X12_merge_order_irrelevant s1 s2).
  intros d. subst s1 s2. rewrite !elem_of_cons, !elem_of_nil. tauto.
Defined.

(** ** The symbol-table strategy and the selection of files *)

Section Selection.
Context {W : Type} {E : Externals W}.

(** X13: a [Source] that [SourceFromGoto] returns was built from a goto
    binary with a name, whose symbol table could be read: its root is
    [srcdir] made absolute, and [all_files] has exactly the absolute paths
    of the files the symbol table names; sorting that list first loses
    and adds nothing. *)
Theorem X13_SourceFromGoto_files (goto : option string) (wkdir srcdir : string)
    (flag : bool) (st st' : state W) (S : Source) :
  SourceFromGoto goto wkdir srcdir flag st = (Ok S, st') ->
  exists g found w1,
    goto = Some g /\ g <> ""
    /\ symbol_table_source_files g wkdir (world st) = (Ok found, w1)
    /\ root S = init_root (Some srcdir)
    /\ forall p,
         p ∈ all_files S <->
         exists f, f ∈ found /\ p = srcloct.abspath getcwd f.
Proof.
  unfold SourceFromGoto. destruct goto as [g|]; [|discriminate].
  destruct (String.eqb_spec g "") as [|Hg]; [discriminate|].
  intros (found & st1 & Hsym & Hinit)%bind_Ok.
  destruct (symbol_table_source_files g wkdir (world st)) as [r w1] eqn:Hst.
  injection Hsym as -> <-.
  apply Source_init_fields in Hinit as (Hroot & Hall & _).
  exists g, found, w1. repeat split; try done.
  - rewrite Hall, sorted_set_elem.
    intros (f & -> & Hf)%elem_of_map. exists f. split; [|done].
    change (default [] (Some (sorted found))) with (sorted found) in Hf.
    by rewrite sorted_elem in Hf.
  - intros (f & Hf & ->). rewrite Hall, sorted_set_elem. apply elem_of_map.
    exists f. split; [done|].
    change (default [] (Some (sorted found))) with (sorted found).
    by rewrite sorted_elem.
Qed.

(** A list comprehension whose condition does not touch the state. *)
Lemma filterM_pure {A} (f : A -> M W bool) (g : A -> result bool)
    (l ys : list A) (st st' : state W) :
  (forall x s, f x s = (g x, s)) ->
  filterM f l st = (Ok ys, st') ->
  st' = st /\ forall y, y ∈ ys <-> y ∈ l /\ g y = Ok true.
Proof.
  intros Hf. revert ys. induction l as [|x l IH]; intros ys.
  - cbn [filterM]. unfold ret. intros [= <- <-]. split; [done|].
    intros y. rewrite elem_of_nil. tauto.
  - cbn [filterM]. unfold bind at 1. rewrite Hf.
    destruct (g x) as [b|e] eqn:Hgx; [|discriminate].
    unfold bind at 1.
    destruct (filterM f l st) as [[zs|e] st1] eqn:Hrec; [|discriminate].
    unfold ret. intros [= <- <-].
    destruct (IH zs eq_refl) as [-> Hzs]. split; [done|].
    intros y. destruct b.
    + rewrite !elem_of_cons, Hzs. split.
      * intros [->|[? ?]]; auto.
      * intros [[->|?] ?]; auto.
    + rewrite elem_of_cons, Hzs. split.
      * intros [? ?]; auto.
      * intros [[->|?] ?]; [congruence|auto].
Qed.

(** X14: [select_source_files] leaves the state alone, and when no
    pattern fails to compile it returns [os.path.join(root, path)] for
    exactly the normalized paths [path] of the files given that the
    exclusion pattern, if any, does not match and whose extension the
    extension pattern, if any, matches. *)
Theorem X14_select_source_files (files : list string) (root : string)
    (exclude extensions : option string) (st st' : state W)
    (selected : list string) :
  select_source_files files root exclude extensions st = (Ok selected, st') ->
  st' = st
  /\ forall p,
       p ∈ selected <->
       exists f,
         f ∈ files
         /\ p = PosixPath.join root (PosixPath.normpath f)
         /\ (forall pattern,
               exclude = Some pattern ->
               re_match_I pattern (PosixPath.normpath f) = Ok false)
         /\ (forall pattern,
               extensions = Some pattern ->
               re_match_I pattern
                 (PosixPath.splitext_ext (PosixPath.normpath f)) = Ok true).
Proof.
  unfold select_source_files.
  intros (kept & st1 & Hex & H)%bind_Ok.
  apply bind_Ok in H as (chosen & st2 & Hext & H).
  unfold ret in H. injection H as <- <-.
  assert (Hkept : st1 = st /\ forall y,
            y ∈ kept <->
            y ∈ map PosixPath.normpath files
            /\ forall pattern, exclude = Some pattern ->
                               re_match_I pattern y = Ok false).
  { destruct exclude as [pattern|].
    - eapply (filterM_pure _ (fun path =>
                match re_match_I pattern path with
                | Ok m => Ok (negb m)
                | Raise e => Raise e
                end)) in Hex as [-> Hmem].
      + split; [done|]. intros y. rewrite Hmem. split.
        * intros [Hy Hm]. split; [done|]. intros ? [= <-].
          destruct (re_match_I pattern y) as [[]|]; by try discriminate.
        * intros [Hy Hm]. split; [done|]. by rewrite (Hm pattern eq_refl).
      + intros x s. unfold bind, lift, ret. by destruct (re_match_I pattern x).
    - unfold ret in Hex. injection Hex as <- <-. split; [done|].
      intros y. split; [|tauto]. intros Hy. split; [done|]. discriminate. }
  destruct Hkept as [-> Hkept].
  assert (Hchosen : st2 = st /\ forall y,
            y ∈ chosen <->
            y ∈ kept
            /\ forall pattern, extensions = Some pattern ->
                               re_match_I pattern (PosixPath.splitext_ext y)
                               = Ok true).
  { destruct extensions as [pattern|].
    - eapply (filterM_pure _ (fun path =>
                re_match_I pattern (PosixPath.splitext_ext path)))
        in Hext as [-> Hmem].
      + split; [done|]. intros y. rewrite Hmem. split.
        * intros [Hy Hm]. split; [done|]. by intros ? [= <-].
        * intros [Hy Hm]. split; [done|]. by apply Hm.
      + intros x s. reflexivity.
    - unfold ret in Hext. injection Hext as <- <-. split; [done|].
      intros y. split; [|tauto]. intros Hy. split; [done|]. discriminate. }
  destruct Hchosen as [-> Hchosen]. split; [reflexivity|].
  intros p. rewrite elem_of_map. split.
  - intros (y & -> & Hy). apply Hchosen in Hy as [Hy Hext'].
    apply Hkept in Hy as [Hy Hex'].
    apply elem_of_map in Hy as (f & -> & Hf). exists f. auto.
  - intros (f & Hf & -> & Hex' & Hext'). exists (PosixPath.normpath f).
    split; [reflexivity|]. apply Hchosen. split; [|done].
    apply Hkept. split; [|done]. apply elem_of_map. eauto.
Qed.

End Selection.

Lemma X13_witness :
  let S := mkSource "/src" ["/src/a.c"; "/src/b.c"; "/usr/include/a.h"]
                    ["a.c"; "b.c"] None in
  exists g found w1,
    Some "app.goto" = Some g /\ g <> ""
    /\ symbol_table_source_files (Externals := bare_world) g "/build" tt
       = (Ok found, w1)
    /\ root S = init_root (E := bare_world) (Some "/src")
    /\ forall p,
         p ∈ all_files S <->
         exists f, f ∈ found
                   /\ p = srcloct.abspath (getcwd (Externals := bare_world)) f.
Proof.
  intros S.
  apply (X13_SourceFromGoto_files (E := bare_world) (Some "app.goto") "/build"
           "/src" false (State tt []) (State tt []) S).
  vm_compute. reflexivity.
Defined.

Lemma X14_witness :
  let files := ["x.c"; "x.bak"; "./sub//y.h"] in
  State tt [] = State tt []
  /\ forall p,
    p ∈ ["/r/x.c"] <->
    exists f,
      f ∈ files
      /\ p = PosixPath.join "/r" (PosixPath.normpath f)
      /\ (forall pattern,
            Some "bak" = Some pattern ->
            re_match_I (Externals := regex_world) pattern (PosixPath.normpath f)
            = Ok false)
      /\ (forall pattern,
            Some "src" = Some pattern ->
            re_match_I (Externals := regex_world) pattern
              (PosixPath.splitext_ext (PosixPath.normpath f)) = Ok true).
Proof.
  intros files.
  apply (X14_select_source_files (E := regex_world) files "/r" (Some "bak")
           (Some "src") (State tt []) (State tt []) ["/r/x.c"]).
  vm_compute. reflexivity.
Defined.

(** ** The scan with [find] *)

Lemma endswith_slash_cons (a : ascii) (s : string) :
  s <> "" ->
  PyStr.endswith "/" (String a s) = PyStr.endswith "/" s.
Proof.
  intros Hne. unfold PyStr.endswith.
  destruct s as [|b s]; [done|].
  cbn [String.length]. cbn [Nat.leb].
  replace (S (S (String.length s)) - 1)%nat with (S (String.length s)) by lia.
  replace (S (String.length s) - 1)%nat with (String.length s) by lia.
  reflexivity.
Qed.

Lemma endswith_slash_app (x y : string) :
  y <> "" -> PyStr.endswith "/" (x ++ y) = PyStr.endswith "/" y.
Proof.
  intros Hy. induction x as [|a x IH]; [reflexivity|].
  rewrite append_cons, endswith_slash_cons; [exact IH|].
  destruct x; [by rewrite append_nil|discriminate].
Qed.

Lemma endswith_slash_plain (x : string) :
  occurs PyStr.slash x = false -> PyStr.endswith "/" x = false.
Proof.
  induction x as [|a x IH]; [reflexivity|].
  rewrite occurs_cons. intros [Ha Hx]%orb_false_elim.
  destruct x as [|b x].
  - unfold PyStr.endswith. cbn [String.length Nat.leb Nat.sub PyStr.slice_from andb].
    cbn [String.eqb]. unfold PyStr.slash in Ha. by rewrite Ha.
  - rewrite endswith_slash_cons by discriminate. by apply IH.
Qed.

Lemma join_nonempty (comps : list string) :
  comps <> [] -> Forall plain comps -> PyStr.join "/" comps <> "".
Proof.
  intros Hne Hall. destruct comps as [|x xs]; [done|].
  apply Forall_cons in Hall as [(Hx & _) _].
  destruct x as [|a x]; [done|].
  destruct (join_head a x xs) as [rest ->]. discriminate.
Qed.

Lemma join_cons_cons (x y : string) (l : list string) :
  PyStr.join "/" (x :: y :: l) = x ++ "/" ++ PyStr.join "/" (y :: l).
Proof. reflexivity. Qed.

Lemma join_app (a b : list string) :
  a <> [] -> b <> [] ->
  PyStr.join "/" (a ++ b) = PyStr.join "/" a ++ "/" ++ PyStr.join "/" b.
Proof.
  intros Ha Hb. induction a as [|x a IH]; [done|].
  destruct a as [|y a].
  - cbn [app]. destruct b as [|z b]; [done|]. apply join_cons_cons.
  - change ((x :: y :: a) ++ b)%list with (x :: y :: (a ++ b)%list).
    rewrite !join_cons_cons.
    change (y :: (a ++ b)%list) with ((y :: a) ++ b)%list.
    rewrite IH by discriminate. by rewrite !append_assoc.
Qed.

Lemma endswith_slash_join (comps : list string) :
  comps <> [] -> Forall plain comps ->
  PyStr.endswith "/" (PyStr.join "/" comps) = false.
Proof.
  intros Hne Hall. induction Hall as [|x xs Hx Hxs IH]; [done|].
  destruct xs as [|y ys].
  - destruct Hx as (_ & _ & _ & Hx). by apply endswith_slash_plain.
  - rewrite join_cons_cons, endswith_slash_app.
    + change ("/" ++ PyStr.join "/" (y :: ys))
        with (String "/" (PyStr.join "/" (y :: ys))).
      rewrite endswith_slash_cons; [by apply IH|].
      by apply join_nonempty.
    + discriminate.
Qed.

(** An absolute, normalized path other than the root directory has
    components and does not end with the separator. *)
Lemma canonical_components (R : string) :
  canonical R -> R <> "/" -> R <> "//" ->
  exists k comps,
    (k = 1 \/ k = 2)%nat /\ comps <> [] /\ Forall plain comps
    /\ R = PosixPath.repeat_slash k ++ PyStr.join "/" comps.
Proof.
  intros (k & comps & Hk & Hall & ->) H1 H2.
  exists k, comps. repeat split; try done.
  intros ->. destruct Hk as [-> | ->]; [by apply H1|by apply H2].
Qed.

Lemma canonical_no_trailing_slash (R : string) :
  canonical R -> R <> "/" -> R <> "//" -> PyStr.endswith "/" R = false.
Proof.
  intros HR H1 H2.
  destruct (canonical_components R HR H1 H2) as (k & comps & Hk & Hne & Hall & ->).
  rewrite endswith_slash_app; [by apply endswith_slash_join|].
  by apply join_nonempty.
Qed.

(** Under such a root, [os.path.join] of the root and a relative,
    normalized path is the root, a separator and the path, and is
    absolute and normalized. *)
Lemma join_under_root (R rel : string) :
  canonical R -> R <> "/" -> R <> "//" -> relative_normal rel ->
  PosixPath.join R rel = R ++ "/" ++ rel /\ canonical (R ++ "/" ++ rel).
Proof.
  intros HR H1 H2 (comps' & Hne' & Hall' & ->). split.
  - unfold PosixPath.join.
    rewrite (join_plain_head comps' Hall').
    rewrite (canonical_no_trailing_slash R HR H1 H2).
    destruct R as [|a R]; [|reflexivity].
    destruct HR as (k & comps & [-> | ->] & _ & Heq); discriminate.
  - destruct (canonical_components R HR H1 H2) as (k & comps & Hk & Hne & Hall & ->).
    exists k, (comps ++ comps')%list. split; [done|]. split.
    + by apply Forall_app.
    + rewrite join_app by done. by rewrite !append_assoc.
Qed.

Section Find.
Context {W : Type} {E : Externals W}.

(** X15: the scan with [find] under a root that is absolute and
    normalized (and is not the root directory) with no pattern: when
    [find] succeeds, the [Source] has that root, and for every line of
    the output whose normalized form is a relative, normalized path (as
    [./sub/b.h] gives [sub/b.h]), [all_files] holds the root, a separator
    and that path, and [files] holds that path. *)
Theorem X15_find_lists_relative_paths (R : string) (st : state W)
    (out : string) (w' : W) :
  canonical R -> R <> "/" -> R <> "//" ->
  runt_run ["find"; "-L"; "."] R [] (world st) = (Ok out, w') ->
  exists S,
    SourceFromFind R None None false st
    = (Ok S, State w' (trace st ++ [Invocation ["find"; "-L"; "."] R (Ok out)]))
    /\ root S = R
    /\ forall line,
         line ∈ PyStr.splitlines (PyStr.strip out) ->
         relative_normal (PosixPath.normpath line) ->
         (R ++ "/" ++ PosixPath.normpath line) ∈ all_files S
         /\ PosixPath.normpath line ∈ files S.
Proof.
  intros HR H1 H2 Hrun.
  set (st1 := State w' (trace st ++ [Invocation ["find"; "-L"; "."] R (Ok out)])).
  set (found := map (PosixPath.join R)
                    (map PosixPath.normpath (PyStr.splitlines (PyStr.strip out)))).
  assert (Hfind : find_sources_find R None None st = (Ok found, st1)).
  { unfold find_sources_find, bind, run. rewrite Hrun. reflexivity. }
  destruct (Source_init_no_sloc (Some R) (Some found) st1) as (S & HS & _).
  exists S. split.
  { unfold SourceFromFind, bind. rewrite Hfind. exact HS. }
  pose proof (Source_init_fields _ _ _ _ _ _ HS) as (Hroot & Hall & _).
  assert (Hroot' : root S = R).
  { rewrite Hroot. unfold init_root.
    destruct (String.eqb_spec R "") as [->|_].
    - destruct HR as (k & comps & [-> | ->] & _ & Heq); discriminate.
    - by apply abspath_of_canonical. }
  split; [exact Hroot'|].
  intros line Hline Hrel.
  destruct (join_under_root R _ HR H1 H2 Hrel) as [Hjoin Hcanon].
  assert (Hin : (R ++ "/" ++ PosixPath.normpath line) ∈ all_files S).
  { rewrite Hall, sorted_set_elem. apply elem_of_map.
    exists (PosixPath.join R (PosixPath.normpath line)). split.
    - rewrite Hjoin. symmetry. by apply abspath_of_canonical.
    - change (default [] (Some found)) with found. subst found.
      apply elem_of_map. exists (PosixPath.normpath line).
      split; [reflexivity|]. apply elem_of_map. eauto. }
  split; [exact Hin|].
  eapply Source_init_lists_member; [exact HS|exact Hrel|].
  by rewrite Hroot'.
Qed.

(** X16: the scan with [find] does not go on without [find]: whatever
    exception the run of [find] raises, the binary not being found
    included, [SourceFromFind] raises it after that one call. *)
Theorem X16_find_failure_is_fatal (root : string)
    (exclude extensions : option string) (flag : bool) (st : state W)
    (e : exn) (w' : W) :
  runt_run ["find"; "-L"; "."] root [] (world st) = (Raise e, w') ->
  SourceFromFind root exclude extensions flag st
  = (Raise e,
     State w' (trace st ++ [Invocation ["find"; "-L"; "."] root (Raise e)])).
Proof.
  intros Hrun. unfold SourceFromFind, find_sources_find, bind, run.
  by rewrite Hrun.
Qed.

End Find.

Lemma X15_witness :
  exists S,
    SourceFromFind (E := find_world) "/src" None None false (State tt [])
    = (Ok S,
       State tt ([] ++ [Invocation ["find"; "-L"; "."] "/src"
                          (Ok ("." ++ String PyStr.newline
                                 ("./a.c" ++ String PyStr.newline
                                    ("./sub/b.h" ++ String PyStr.newline ""))))]))
    /\ root S = "/src"
    /\ forall line,
         line ∈ PyStr.splitlines
                  (PyStr.strip
                     ("." ++ String PyStr.newline
                        ("./a.c" ++ String PyStr.newline
                           ("./sub/b.h" ++ String PyStr.newline "")))) ->
         relative_normal (PosixPath.normpath line) ->
         ("/src" ++ "/" ++ PosixPath.normpath line) ∈ all_files S
         /\ PosixPath.normpath line ∈ files S.
Proof.
  apply (X15_find_lists_relative_paths (E := find_world) "/src" (State tt [])).
  - exists 1%nat, ["src"]. split; [by left|]. split; [|reflexivity].
    constructor; [|constructor]. repeat split; discriminate.
  - discriminate.
  - discriminate.
  - reflexivity.
Defined.

Lemma X16_witness :
  SourceFromFind (E := bare_world) "/src" None None false (State tt [])
  = (Raise FileNotFoundError,
     State tt ([] ++ [Invocation ["find"; "-L"; "."] "/src"
                        (Raise FileNotFoundError)])).
Proof.
  apply (X16_find_failure_is_fatal (E := bare_world) "/src" None None false
           (State tt []) FileNotFoundError tt).
  reflexivity.
Defined.

(** ** The scan with [os.walk] *)

Section Walk.
Context {W : Type} {E : Externals W}.

(** X17: the scan with [os.walk] and no pattern leaves the state alone,
    and when every directory walked has an absolute path, it returns, as
    absolute and normalized paths, exactly the files whose name ends,
    whatever the case, with [.h], [.c] or [.inl], each as the normalized
    [os.path.join] of its directory and its name. *)
Theorem X17_walk_keeps_c_sources (root : string) (st st' : state W)
    (selected : list string) :
  find_sources_walk root None None st = (Ok selected, st') ->
  (forall path names,
     (path, names) ∈ os_walk root (world st) -> PosixPath.isabs path = true) ->
  st' = st
  /\ Forall canonical selected
  /\ forall p,
       p ∈ selected <->
       exists path names name,
         (path, names) ∈ os_walk root (world st)
         /\ name ∈ names
         /\ c_source_name name
         /\ p = PosixPath.normpath (PosixPath.join path name).
Proof.
  unfold find_sources_walk, select_source_files, bind, ret.
  intros [= <- <-] Habs. split; [reflexivity|].
  assert (Hmem : forall q,
    q ∈ concat
          (map (fun entry : string * list string =>
                  let (path, filenames) := entry in
                  map (PosixPath.join path)
                      (List.filter
                         (fun name =>
                            let low := PyStr.lower name in
                            PyStr.endswith ".h" low
                            || PyStr.endswith ".c" low
                            || PyStr.endswith ".inl" low)
                         filenames))
               (os_walk root (world st)))
    <-> exists path names name,
          (path, names) ∈ os_walk root (world st)
          /\ name ∈ names /\ c_source_name name
          /\ q = PosixPath.join path name).
  { intros q. rewrite list_elem_of_In, in_concat. split.
    - intros (l & Hl & Hq). apply in_map_iff in Hl as ([path names] & <- & Hentry).
      apply list_elem_of_In, elem_of_map in Hq as (name & -> & Hname).
      apply elem_of_filter_bool in Hname as [Hname Hext].
      exists path, names, name. split; [by apply list_elem_of_In|].
      split; [done|]. split; [|reflexivity].
      unfold c_source_name. cbv zeta in Hext.
      apply orb_prop in Hext as [Hext|Hext]; [|auto].
      apply orb_prop in Hext as [Hext|Hext]; auto.
    - intros (path & names & name & Hentry & Hname & Hext & ->).
      eexists. split.
      + apply in_map_iff. exists (path, names). split; [reflexivity|].
        by apply list_elem_of_In.
      + apply list_elem_of_In, elem_of_map. exists name.
        split; [reflexivity|]. apply elem_of_filter_bool. split; [done|].
        cbv zeta. destruct Hext as [-> | [-> | ->]];
          rewrite ?orb_true_r; reflexivity. }
  assert (Hcanon : forall path names name,
            (path, names) ∈ os_walk root (world st) ->
            canonical (PosixPath.normpath (PosixPath.join path name))).
  { intros path names name Hentry. apply normpath_abs_canonical.
    apply join_abs. exact (Habs path names Hentry). }
  assert (Hjoin : forall path names name,
            (path, names) ∈ os_walk root (world st) ->
            PosixPath.join root (PosixPath.normpath (PosixPath.join path name))
            = PosixPath.normpath (PosixPath.join path name)).
  { intros path names name Hentry. unfold PosixPath.join at 1.
    by rewrite (canonical_abs _ (Hcanon path names name Hentry)). }
  split.
  - apply Forall_forall. intros p Hp.
    apply elem_of_map in Hp as (y & -> & Hy).
    apply elem_of_map in Hy as (q & -> & Hq).
    apply Hmem in Hq as (path & names & name & Hentry & _ & _ & ->).
    rewrite (Hjoin path names name Hentry). by eapply Hcanon.
  - intros p. split.
    + intros Hp. apply elem_of_map in Hp as (y & -> & Hy).
      apply elem_of_map in Hy as (q & -> & Hq).
      apply Hmem in Hq as (path & names & name & Hentry & Hname & Hext & ->).
      exists path, names, name. rewrite (Hjoin path names name Hentry). auto.
    + intros (path & names & name & Hentry & Hname & Hext & ->).
      apply elem_of_map. eexists. split.
      * symmetry. exact (Hjoin path names name Hentry).
      * apply elem_of_map. eexists. split; [reflexivity|].
        apply Hmem. exists path, names, name. auto.
Qed.

End Walk.

Lemma X17_witness :
  Forall canonical ["/src/a.c"; "/src/B.H"; "/src/sub/c.inl"]
  /\ forall p,
       p ∈ ["/src/a.c"; "/src/B.H"; "/src/sub/c.inl"] <->
       exists path names name,
         (path, names) ∈ os_walk (Externals := tree_world) "/src" tt
         /\ name ∈ names
         /\ c_source_name name
         /\ p = PosixPath.normpath (PosixPath.join path name).
Proof.
  apply (X17_walk_keeps_c_sources (E := tree_world) "/src" (State tt [])
           (State tt []) ["/src/a.c"; "/src/B.H"; "/src/sub/c.inl"]).
  - vm_compute. reflexivity.
  - intros path names Hin. cbn in Hin.
    apply elem_of_cons in Hin as [[= -> _] | Hin]; [reflexivity|].
    apply elem_of_cons in Hin as [[= -> _] | Hin]; [reflexivity|].
    by apply elem_of_nil in Hin.
Defined.

(** ** The build with the preprocessor *)

Lemma splitlines_no_newline (after_cr : bool) (s line : string) :
  line ∈ PyStr.splitlines_from after_cr s -> occurs PyStr.newline line = false.
Proof.
  revert after_cr line. induction s as [|a s IH]; intros after_cr line.
  - by intros ?%elem_of_nil.
  - cbn [PyStr.splitlines_from].
    destruct (after_cr && Ascii.eqb a PyStr.newline); [by apply IH|].
    destruct (PyStr.is_linebreak a) eqn:Hbreak.
    + intros [->|Hin]%elem_of_cons; [reflexivity|]. by eapply IH.
    + assert (Ha : Ascii.eqb a PyStr.newline = false).
      { destruct (Ascii.eqb_spec a PyStr.newline) as [->|]; [|done].
        discriminate. }
      destruct (PyStr.splitlines_from false s) as [|l ls] eqn:Hrest.
      * intros ->%list_elem_of_singleton. rewrite occurs_cons, Ha. reflexivity.
      * intros [->|Hin]%elem_of_cons.
        -- rewrite occurs_cons, Ha. apply (IH false). rewrite Hrest. by left.
        -- apply (IH false). rewrite Hrest. by right.
Qed.

Lemma startswith_split (p s : string) :
  PyStr.startswith p s = true -> s = p ++ PyStr.slice_from (String.length p) s.
Proof.
  revert s. induction p as [|a p IH]; intros s; [reflexivity|].
  destruct s as [|b s]; [discriminate|].
  rewrite startswith_cons. intros [Hab Hp]%andb_prop.
  apply Ascii.eqb_eq in Hab as ->. rewrite append_cons.
  cbn [String.length PyStr.slice_from]. f_equal. by apply IH.
Qed.

Lemma span_nonspace_spec (s r rest : string) :
  span_nonspace s = (r, rest) -> s = r ++ rest /\ has_space r = false.
Proof.
  revert r rest. induction s as [|a s IH]; intros r rest.
  - intros [= <- <-]. by split.
  - cbn [span_nonspace]. destruct (PyStr.isspace a) eqn:Ha.
    + intros [= <- <-]. by split.
    + destruct (span_nonspace s) as [r' rest'] eqn:Hs.
      intros [= <- <-]. destruct (IH r' rest' eq_refl) as [-> Hr'].
      split; [reflexivity|]. cbn [has_space]. by rewrite Ha, Hr'.
Qed.

Lemma span_nonspace_word (name rest : string) :
  has_space name = false -> PyStr.startswith " " rest = true ->
  span_nonspace (name ++ rest) = (name, rest).
Proof.
  intros Hname Hrest. induction name as [|a name IH].
  - rewrite append_nil. destruct rest as [|b rest]; [discriminate|].
    rewrite startswith_cons in Hrest. apply andb_prop in Hrest as [Hb _].
    apply Ascii.eqb_eq in Hb as <-. reflexivity.
  - cbn [has_space] in Hname. apply orb_false_elim in Hname as [Ha Hname].
    rewrite append_cons. cbn [span_nonspace]. by rewrite Ha, (IH Hname).
Qed.

(** The output flag found in a command is a word without white space
    that follows [ -o ] and that a space follows. *)
Lemma search_output_flag_sound (cmd name : string) :
  search_output_flag cmd = Some name ->
  name <> "" /\ has_space name = false
  /\ exists pre post, cmd = pre ++ " -o " ++ name ++ " " ++ post.
Proof.
  induction cmd as [|a s IH]; [discriminate|].
  cbn [search_output_flag].
  assert (Hrec : search_output_flag s = Some name ->
            name <> "" /\ has_space name = false
            /\ exists pre post, String a s = pre ++ " -o " ++ name ++ " " ++ post).
  { intros H. destruct (IH H) as (Hne & Hsp & pre & post & ->).
    repeat split; try done. by exists (String a pre), post. }
  destruct (PyStr.startswith " -o " (String a s)) eqn:Hstart; [|exact Hrec].
  destruct (span_nonspace (PyStr.slice_from 4 (String a s))) as [r rest] eqn:Hspan.
  destruct (negb (String.eqb r "") && PyStr.startswith " " rest) eqn:Hok;
    [|exact Hrec].
  intros [= <-]. apply andb_prop in Hok as [Hne Hrest].
  apply span_nonspace_spec in Hspan as [Hsplit Hsp].
  split; [by intros ->|]. split; [exact Hsp|].
  apply startswith_split in Hrest. apply startswith_split in Hstart.
  exists "", (PyStr.slice_from (String.length " ") rest).
  rewrite append_nil. rewrite Hstart at 1.
  change (String.length " -o ") with 4%nat. rewrite Hsplit.
  by rewrite Hrest at 1.
Qed.

Lemma search_output_flag_complete (pre name post : string) :
  name <> "" -> has_space name = false ->
  search_output_flag (pre ++ " -o " ++ name ++ " " ++ post) <> None.
Proof.
  intros Hne Hsp. induction pre as [|a pre IH].
  - rewrite append_nil.
    change (" -o " ++ name ++ " " ++ post)
      with (String " " ("-o " ++ name ++ " " ++ post)).
    cbn [search_output_flag].
    change (String " " ("-o " ++ name ++ " " ++ post))
      with (" -o " ++ (name ++ " " ++ post)).
    rewrite startswith_app.
    change (PyStr.slice_from 4 (" -o " ++ (name ++ " " ++ post)))
      with (name ++ " " ++ post).
    rewrite span_nonspace_word by done.
    destruct name; [done|]. discriminate.
  - rewrite append_cons. cbn [search_output_flag].
    destruct (PyStr.startswith " -o " _); [|exact IH].
    destruct (span_nonspace _) as [r rest].
    destruct (negb _ && _); [discriminate|exact IH].
Qed.

Section Preprocess.
Context {W : Type} {E : Externals W}.

(** [read_output] when every file can be read or is not found. *)
Lemma read_output_Ok (names lines : list string) (st st' : state W) :
  read_output names st = (Ok lines, st') ->
  st' = st /\ lines = concat (map (lines_read (world st)) names).
Proof.
  revert lines. induction names as [|name names IH]; intros lines.
  - cbn [read_output]. unfold ret. by intros [= <- <-].
  - cbn [read_output]. unfold bind at 1. unfold lines_read at 1.
    destruct (read_text name (world st)) as [text|e] eqn:Hread.
    + unfold bind at 1.
      destruct (read_output names st) as [[more|e] st1]; [|discriminate].
      unfold ret. intros [= <- <-].
      destruct (IH more eq_refl) as [-> ->]. split; [done|].
      cbn [map concat]. unfold lines_read at 1. by rewrite Hread.
    + destruct e; try discriminate.
      unfold bind at 1.
      destruct (read_output names st) as [[more|e] st1]; [|discriminate].
      unfold ret. intros [= <- <-].
      destruct (IH more eq_refl) as [-> ->]. split; [done|].
      cbn [map concat]. unfold lines_read at 1. by rewrite Hread.
Qed.

(** X18: when [read_output] returns, it has left the state alone; its
    result is the lines of the files in the order given, a file that is
    not found giving no line; and no line holds a newline. *)
Theorem X18_read_output_lines (names lines : list string) (st st' : state W) :
  read_output names st = (Ok lines, st') ->
  st' = st
  /\ lines = concat (map (lines_read (world st)) names)
  /\ (forall name,
        read_text name (world st) = Raise FileNotFoundError ->
        lines_read (world st) name = [])
  /\ forall line, line ∈ lines -> occurs PyStr.newline line = false.
Proof.
  intros H. destruct (read_output_Ok _ _ _ _ H) as [-> ->].
  split; [done|]. split; [done|]. split.
  - intros name Hname. unfold lines_read. by rewrite Hname.
  - intros line Hline. rewrite list_elem_of_In, in_concat in Hline.
    destruct Hline as (l & Hl & Hline).
    apply in_map_iff in Hl as (name & <- & _).
    unfold lines_read in Hline. destruct (read_text name (world st)).
    + apply list_elem_of_In in Hline. by eapply splitlines_no_newline.
    + destruct Hline.
Qed.

(** X19: every file that [extract_filenames] returns is the absolute
    path of [os.path.join(build, name)] for a word [name] without white
    space that follows [ -o ] in one of the commands and that a space
    follows; a command gives a file exactly when it has such a word, so
    that an output flag at the very end of a command gives none. *)
Theorem X19_extract_filenames (commands : list string) (build : string) :
  (forall p,
     p ∈ extract_filenames commands build ->
     exists cmd pre name post,
       cmd ∈ commands
       /\ cmd = pre ++ " -o " ++ name ++ " " ++ post
       /\ name <> "" /\ has_space name = false
       /\ p = PosixPath.abspath getcwd (PosixPath.join build name))
  /\ (forall cmd,
        extract_filenames [cmd] build <> [] <->
        exists pre name post,
          cmd = pre ++ " -o " ++ name ++ " " ++ post
          /\ name <> "" /\ has_space name = false)
  /\ (List.length (extract_filenames commands build)
      <= List.length commands)%nat.
Proof.
  split; [|split].
  - intros p Hp. unfold extract_filenames in Hp.
    rewrite list_elem_of_In, in_concat in Hp. destruct Hp as (l & Hl & Hp).
    apply in_map_iff in Hl as (cmd & <- & Hcmd).
    destruct (search_output_flag cmd) as [name|] eqn:Hflag; [|destruct Hp].
    destruct Hp as [<-|[]].
    destruct (search_output_flag_sound cmd name Hflag)
      as (Hne & Hsp & pre & post & Heq).
    exists cmd, pre, name, post. by rewrite list_elem_of_In.
  - intros cmd. unfold extract_filenames. cbn [map concat]. split.
    + destruct (search_output_flag cmd) as [name|] eqn:Hflag; [|done].
      intros _. destruct (search_output_flag_sound cmd name Hflag)
        as (Hne & Hsp & pre & post & Heq).
      by exists pre, name, post.
    + intros (pre & name & post & -> & Hne & Hsp).
      pose proof (search_output_flag_complete pre name post Hne Hsp) as Hsome.
      destruct (search_output_flag _); [discriminate|done].
  - unfold extract_filenames. induction commands as [|cmd commands IH];
      [reflexivity|].
    cbn [map concat]. rewrite length_app. cbn [List.length].
    destruct (search_output_flag cmd); cbn [List.length]; lia.
Qed.

End Preprocess.

Lemma X18_witness :
  let lines := [("# 1 " ++ quote "a.c")%string;
                ("# 1 " ++ quote "<built-in>")%string;
                ("# 1 " ++ quote "/usr/include/a.h" ++ " 1")%string;
                "int x;"] in
  lines = concat (map (lines_read (E := tree_world) tt)
                      ["/build/a.o"; "/build/app.goto"])
  /\ (forall name,
        read_text (Externals := tree_world) name tt = Raise FileNotFoundError ->
        lines_read (E := tree_world) tt name = [])
  /\ forall line, line ∈ lines -> occurs PyStr.newline line = false.
Proof.
  intros lines.
  apply (X18_read_output_lines (E := tree_world)
           ["/build/a.o"; "/build/app.goto"] lines (State tt []) (State tt [])).
  vm_compute. reflexivity.
Defined.

Lemma X19_witness :
  (forall p,
     p ∈ extract_filenames (E := tree_world)
           ["goto-cc -E -o a.o -c a.c"; "goto-cc -E -o app.goto"] "/build" ->
     exists cmd pre name post,
       cmd ∈ ["goto-cc -E -o a.o -c a.c"; "goto-cc -E -o app.goto"]
       /\ cmd = pre ++ " -o " ++ name ++ " " ++ post
       /\ name <> "" /\ has_space name = false
       /\ p = PosixPath.abspath (getcwd (Externals := tree_world))
                (PosixPath.join "/build" name))
  /\ (forall cmd,
        extract_filenames (E := tree_world) [cmd] "/build" <> [] <->
        exists pre name post,
          cmd = pre ++ " -o " ++ name ++ " " ++ post
          /\ name <> "" /\ has_space name = false)
  /\ (List.length
        (extract_filenames (E := tree_world)
           ["goto-cc -E -o a.o -c a.c"; "goto-cc -E -o app.goto"] "/build")
      <= List.length ["goto-cc -E -o a.o -c a.c"; "goto-cc -E -o app.goto"])%nat.
Proof.
  apply (X19_extract_filenames (E := tree_world)
           ["goto-cc -E -o a.o -c a.c"; "goto-cc -E -o app.goto"] "/build").
Defined.

Lemma rstrip_idem (s : string) : PyStr.rstrip (PyStr.rstrip s) = PyStr.rstrip s.
Proof.
  induction s as [|a s IH]; [reflexivity|].
  cbn [PyStr.rstrip]. destruct (PyStr.rstrip s) as [|b r] eqn:Hr.
  - destruct (PyStr.isspace a) eqn:Ha; [reflexivity|].
    cbn [PyStr.rstrip]. by rewrite Ha.
  - cbn [PyStr.rstrip] in *. by rewrite IH.
Qed.

Lemma lstrip_head (s : string) :
  match PyStr.lstrip s with
  | EmptyString => True
  | String a _ => PyStr.isspace a = false
  end.
Proof.
  induction s as [|a s IH]; [exact I|].
  cbn [PyStr.lstrip]. destruct (PyStr.isspace a) eqn:Ha; [exact IH|exact Ha].
Qed.

Lemma rstrip_head (a : ascii) (s : string) :
  PyStr.isspace a = false -> exists r, PyStr.rstrip (String a s) = String a r.
Proof.
  intros Ha. cbn [PyStr.rstrip]. rewrite Ha.
  destruct (PyStr.rstrip s); eauto.
Qed.

(** [strip] of a stripped string changes nothing. *)
Lemma strip_idem (s : string) : PyStr.strip (PyStr.strip s) = PyStr.strip s.
Proof.
  unfold PyStr.strip. pose proof (lstrip_head s) as Hhead.
  destruct (PyStr.lstrip s) as [|a t]; [reflexivity|].
  destruct (rstrip_head a t Hhead) as [r Hr]. rewrite Hr.
  cbn [PyStr.lstrip]. rewrite Hhead, <- Hr. apply rstrip_idem.
Qed.

Lemma quoted_names_Raise (lines : list string) (line : string) :
  line ∈ lines -> search_quoted line = None ->
  quoted_names lines = Raise AttributeError.
Proof.
  intros Hin Hnone. induction lines as [|l lines IH].
  - by apply elem_of_nil in Hin.
  - cbn [quoted_names]. destruct (search_quoted l) as [name|] eqn:Hl;
      [|reflexivity].
    apply elem_of_cons in Hin as [->|Hin]; [congruence|].
    by rewrite (IH Hin).
Qed.

(** X22: one line marker without a quoted part makes the whole
    extraction fail: if a line that starts with a hash and a space, once
    stripped, has no match for the quoted file name (for instance no
    double quote at all), [extract_source_filenames] raises
    [AttributeError], whatever the other lines are. *)
Theorem X22_unquoted_linemarker_raises (output : list string) (build : string)
    (line : string) :
  line ∈ output ->
  PyStr.startswith "# " (PyStr.strip line) = true ->
  search_quoted line = None ->
  extract_source_filenames output build = Raise AttributeError.
Proof.
  intros Hin Hkept Hnone. unfold extract_source_filenames.
  rewrite (quoted_names_Raise _ line); [reflexivity| |exact Hnone].
  by apply elem_of_filter_bool.
Qed.

Section Make.
Context {W : Type} {E : Externals W}.

Lemma read_output_state (names : list string) (st : state W) :
  snd (read_output names st) = st.
Proof.
  induction names as [|name names IH]; [reflexivity|].
  cbn [read_output]. unfold bind at 1.
  destruct (read_text name (world st)) as [text|e].
  - unfold bind at 1. destruct (read_output names st) as [[more|e] st1];
      cbn [snd] in *; by subst.
  - destruct e; try reflexivity.
    unfold bind at 1. destruct (read_output names st) as [[more|e] st1];
      cbn [snd] in *; by subst.
Qed.

(** X20: when [build_with_preprocessor] returns, it has run [make] once,
    in the build directory, with the compiler set to [goto-cc -E]; and
    every command it returns starts with [goto-cc] and has no white space
    around it. *)
Theorem X20_build_with_preprocessor (build : string) (st st' : state W)
    (cmds : list string) :
  build_with_preprocessor build st = (Ok cmds, st') ->
  (exists out,
     trace st'
     = (trace st
        ++ [Invocation ["make"; "GOTO_CC=goto-cc -E"; "goto"] build (Ok out)])%list)
  /\ forall cmd,
       cmd ∈ cmds ->
       PyStr.startswith "goto-cc" cmd = true /\ PyStr.strip cmd = cmd.
Proof.
  unfold build_with_preprocessor, bind, run.
  destruct (runt_run _ build [2] (world st)) as [[out|e] w1]; [|discriminate].
  unfold ret. intros [= <- <-]. split; [by exists out|].
  intros cmd (line & -> & Hline)%elem_of_map.
  apply elem_of_filter_bool in Hline as [_ Hstart].
  split; [exact Hstart|apply strip_idem].
Qed.

(** X21: [SourceFromMake.find_sources] runs nothing but [make clean],
    the build with the preprocessor and [make clean] again, in this order
    and in the build directory.  When it returns a list, sorted and
    without duplicates, the three have run; and when it raises after all
    three have run, the exception is that of the last [make clean]: a
    failure before it leaves the output of the preprocessor in place. *)
Theorem X21_make_protocol (build : string) (st st' : state W)
    (r : result (list string)) :
  find_sources_make build st = (r, st') ->
  exists evs,
    trace st' = (trace st ++ evs)%list
    /\ commands_of evs = take (List.length evs) (make_protocol build)
    /\ (forall files,
          r = Ok files -> List.length evs = 3%nat /\ ascending files)
    /\ (forall e,
          r = Raise e -> List.length evs = 3%nat ->
          exists ev, evs !! 2%nat = Some ev /\ inv_result ev = Raise e).
Proof.
  unfold find_sources_make, bind at 1, run at 1.
  destruct (runt_run ["make"; "clean"] build [] (world st)) as [[o1|e1] w1].
  2:{ intros [= <- <-]. eexists. split; [reflexivity|].
      split; [reflexivity|]. split; [discriminate|].
      intros e _ Hlen. discriminate. }
  unfold bind at 1, build_with_preprocessor at 1, bind at 1, run at 1.
  cbn [world trace].
  destruct (runt_run ["make"; "GOTO_CC=goto-cc -E"; "goto"] build [2] w1)
    as [[o2|e2] w2].
  2:{ intros [= <- <-]. eexists. split.
      { cbn [trace]. rewrite <- app_assoc. reflexivity. }
      split; [reflexivity|]. split; [discriminate|].
      intros e _ Hlen. discriminate. }
  unfold ret at 1. unfold bind at 1.
  match goal with
  | |- context [read_output ?names ?s] =>
      pose proof (read_output_state names s) as Hstate;
      destruct (read_output names s) as [[lines|e3] st3]
  end; cbn [snd] in Hstate; subst st3.
  2:{ intros [= <- <-]. eexists. split.
      { cbn [trace]. rewrite <- app_assoc. reflexivity. }
      split; [reflexivity|]. split; [discriminate|].
      intros e _ Hlen. discriminate. }
  unfold bind at 1, lift at 1.
  destruct (extract_source_filenames lines build) as [names|e4] eqn:Hext.
  2:{ intros [= <- <-]. eexists. split.
      { cbn [trace]. rewrite <- app_assoc. reflexivity. }
      split; [reflexivity|]. split; [discriminate|].
      intros e _ Hlen. discriminate. }
  unfold bind at 1, run at 1. cbn [world trace].
  destruct (runt_run ["make"; "clean"] build [] w2) as [[o3|e5] w3].
  - unfold ret. intros [= <- <-]. eexists. split.
    { cbn [trace]. rewrite <- !app_assoc. reflexivity. }
    split; [reflexivity|]. split.
    + intros files [= <-]. split; [reflexivity|].
      unfold extract_source_filenames in Hext.
      destruct (quoted_names _); [|discriminate].
      injection Hext as <-. apply sorted_set_ascending.
    + discriminate.
  - intros [= <- <-]. eexists. split.
    { cbn [trace]. rewrite <- !app_assoc. reflexivity. }
    split; [reflexivity|]. split; [discriminate|].
    intros e [= <-] _. eexists. split; reflexivity.
Qed.

(** X23: with an absolute build directory, every path that
    [extract_source_filenames] returns is absolute and normalized, so
    that a [Source] built from the list has exactly that list as
    [all_files]. *)
Theorem X23_extracted_paths_are_all_files (output : list string)
    (build : string) (names : list string) :
  PosixPath.isabs build = true ->
  extract_source_filenames output build = Ok names ->
  Forall canonical names
  /\ forall r flag (st st' : state W) S,
       Source_init r (Some names) flag st = (Ok S, st') ->
       all_files S = names.
Proof.
  intros Hbuild Hext. unfold extract_source_filenames in Hext.
  destruct (quoted_names _) as [quoted|]; [|discriminate].
  injection Hext as <-.
  match goal with
  | |- Forall canonical (sorted_set ?l) /\ _ => set (found := l)
  end.
  assert (Hcanon : Forall canonical (sorted_set found)).
  { apply Forall_forall. intros p Hp. rewrite sorted_set_elem in Hp.
    subst found. apply elem_of_map in Hp as (q & -> & Hq).
    apply elem_of_map in Hq as (name & -> & _).
    apply normpath_abs_canonical. by apply join_abs. }
  split; [exact Hcanon|].
  intros r flag st st' S (_ & Hall & _)%Source_init_fields.
  rewrite Hall. change (default [] (Some (sorted_set found))) with (sorted_set found).
  rewrite map_id_on.
  - apply sorted_set_id, sorted_set_ascending.
  - intros p Hp. apply abspath_of_canonical.
    by apply (proj1 (Forall_forall _ _) Hcanon).
Qed.

End Make.

Lemma X20_witness :
  (exists out,
     [Invocation ["make"; "GOTO_CC=goto-cc -E"; "goto"] "/build"
        (Ok make_output_text)]
     = ([] ++ [Invocation ["make"; "GOTO_CC=goto-cc -E"; "goto"] "/build"
                 (Ok out)])%list)
  /\ forall cmd,
       cmd ∈ ["goto-cc -E -o a.o -c a.c"; "goto-cc -E   -o app.goto a.o"] ->
       PyStr.startswith "goto-cc" cmd = true /\ PyStr.strip cmd = cmd.
Proof.
  apply (X20_build_with_preprocessor (E := tree_world) "/build" (State tt [])
           (State tt [Invocation ["make"; "GOTO_CC=goto-cc -E"; "goto"] "/build"
                        (Ok make_output_text)])
           ["goto-cc -E -o a.o -c a.c"; "goto-cc -E   -o app.goto a.o"]).
  vm_compute. reflexivity.
Defined.

Lemma X21_witness :
  exists evs,
    [Invocation ["make"; "clean"] "/build" (Ok "");
     Invocation ["make"; "GOTO_CC=goto-cc -E"; "goto"] "/build"
       (Ok make_output_text);
     Invocation ["make"; "clean"] "/build" (Ok "")]
    = ([] ++ evs)%list
    /\ commands_of evs = take (List.length evs) (make_protocol "/build")
    /\ (forall files,
          Ok ["/build/a.c"; "/usr/include/a.h"] = Ok files ->
          List.length evs = 3%nat /\ ascending files)
    /\ (forall e,
          Ok ["/build/a.c"; "/usr/include/a.h"] = Raise e ->
          List.length evs = 3%nat ->
          exists ev, evs !! 2%nat = Some ev /\ inv_result ev = Raise e).
Proof.
  apply (X21_make_protocol (E := tree_world) "/build" (State tt [])
           (State tt
              [Invocation ["make"; "clean"] "/build" (Ok "");
               Invocation ["make"; "GOTO_CC=goto-cc -E"; "goto"] "/build"
                 (Ok make_output_text);
               Invocation ["make"; "clean"] "/build" (Ok "")])
           (Ok ["/build/a.c"; "/usr/include/a.h"])).
  vm_compute. reflexivity.
Defined.

Lemma X22_witness :
  extract_source_filenames
    ["int x;"; "# 1 foo"; ("# 1 " ++ quote "a.c")%string] "/build"
  = Raise AttributeError.
Proof.
  apply (X22_unquoted_linemarker_raises
           ["int x;"; "# 1 foo"; ("# 1 " ++ quote "a.c")%string] "/build"
           "# 1 foo").
  - apply elem_of_cons. right. apply elem_of_cons. by left.
  - reflexivity.
  - reflexivity.
Defined.

Lemma X23_witness :
  Forall canonical ["/build/a.c"; "/usr/include/a.h"]
  /\ forall r flag (st st' : state unit) S,
       Source_init (E := tree_world) r (Some ["/build/a.c"; "/usr/include/a.h"])
         flag st = (Ok S, st') ->
       all_files S = ["/build/a.c"; "/usr/include/a.h"].
Proof.
  apply (X23_extracted_paths_are_all_files (E := tree_world)
           (PyStr.splitlines preprocessed_text) "/build"
           ["/build/a.c"; "/usr/include/a.h"]).
  - reflexivity.
  - vm_compute. reflexivity.
Defined.

(** ** The dispatch of [make_source] *)

Section Dispatch.
Context {W : Type} {E : Externals W}.

Lemma missing_abspath_or_none (d : option string) :
  missing d -> abspath_or_none d = None.
Proof. by intros [-> | ->]. Qed.

(** X24: with a source method and no document, [make_source] fails with
    the message of the method, before anything outside is touched, when a
    directory the method needs is missing, the empty string counting as
    missing: the source directory for every method, the working directory
    for the methods [GOTO] and [MAKE], the goto binary for [GOTO]. *)
Theorem X24_missing_parameters (method : Sources) (goto : option string)
    (srcdir wkdir exclude extensions : option string) (st : state W) :
  missing srcdir
  \/ ((method = GOTO \/ method = MAKE) /\ missing wkdir)
  \/ (method = GOTO /\ goto = None) ->
  make_source [] goto (Some method) srcdir wkdir exclude extensions st
  = (Raise (UserWarning (expected_message method)), st).
Proof.
  intros H. unfold make_source.
  destruct H as [Hs | [[Hm Hw] | [-> ->]]].
  - rewrite (missing_abspath_or_none srcdir Hs).
    destruct method; try reflexivity.
    by destruct goto, (abspath_or_none wkdir).
  - rewrite (missing_abspath_or_none wkdir Hw).
    destruct Hm as [-> | ->].
    + by destruct goto.
    + by destruct (abspath_or_none srcdir).
  - reflexivity.
Qed.

Lemma Source_init_plain_lines (r : option string) (fs : option (list string))
    (st st' : state W) (S : Source) :
  Source_init r fs false st = (Ok S, st') -> lines_of_code S = None.
Proof. rewrite Source_init_plain. by intros [= <- _]. Qed.

(** X25: [make_source] computes line counts for the method [MAKE] only:
    the [Source] it returns from documents or with any other method has
    no [lines_of_code]. *)
Theorem X25_line_counts_only_with_make (viewer_source : list string)
    (goto : option string) (source_method : option Sources)
    (srcdir wkdir exclude extensions : option string) (st st' : state W)
    (S : Source) :
  make_source viewer_source goto source_method srcdir wkdir exclude extensions st
  = (Ok S, st') ->
  viewer_source <> [] \/ source_method <> Some MAKE ->
  lines_of_code S = None.
Proof.
  unfold make_source. intros H Hcase.
  destruct viewer_source as [|v vs].
  - destruct Hcase as [|Hm]; [done|].
    destruct source_method as [[]|].
    + destruct (abspath_or_none srcdir); [|discriminate].
      unfold SourceFromFind in H. apply bind_Ok in H as (? & ? & _ & H).
      by eapply Source_init_plain_lines.
    + destruct (abspath_or_none srcdir); [|discriminate].
      unfold SourceFromWalk in H. apply bind_Ok in H as (? & ? & _ & H).
      by eapply Source_init_plain_lines.
    + done.
    + destruct goto as [g|], (abspath_or_none wkdir), (abspath_or_none srcdir);
        try discriminate.
      unfold SourceFromGoto in H. destruct (String.eqb g ""); [discriminate|].
      apply bind_Ok in H as (? & ? & _ & H).
      by eapply Source_init_plain_lines.
    + by eapply Source_init_plain_lines.
  - unfold SourceFromJson in H.
    apply bind_Ok in H as (? & ? & _ & H).
    apply bind_Ok in H as (? & ? & _ & H).
    by eapply Source_init_plain_lines.
Qed.

End Dispatch.

Lemma X24_witness :
  make_source (E := bare_world) [] (Some "app.goto") (Some GOTO) (Some "")
    (Some "/build") None None (State tt [])
  = (Raise (UserWarning (expected_message GOTO)), State tt []).
Proof.
  apply (X24_missing_parameters (E := bare_world) GOTO (Some "app.goto")
           (Some "") (Some "/build") None None (State tt [])).
  left. right. reflexivity.
Defined.

Lemma X25_witness :
  lines_of_code (mkSource "/src" ["/src/a.c"; "/src/b.c"; "/usr/include/a.h"]
                          ["a.c"; "b.c"] None) = None.
Proof.
  apply (X25_line_counts_only_with_make (E := bare_world) [] (Some "app.goto")
           (Some GOTO) (Some "/src") (Some "/build") None None
           (State tt []) (State tt [])).
  - vm_compute. reflexivity.
  - right. discriminate.
Defined.
